(** * vldt: the validation and coercion engine, embedded in Rocq

    A shallow embedding of the C++ core of vldt (a CPython extension):

    - [error_handling.hpp]            the [ErrorCollector]
    - [schema/schema.cpp]             [compile_type_schema]
    - [schema/deserializer.cpp]       [create_deserializers], [get_deserializer]
    - [validation/*.cpp]              [validate_and_convert] and its helpers,
                                      the validator stages
    - [data_model.cpp]                [DataModel_init], [DataModel_setattro],
                                      [DataModel_getattro]

    The CPython runtime and rapidjson are outside the repository.  They are
    kept as an interface ([Host]) over which every definition and theorem is
    parametric; [ref_host] is one small interpretation of that interface,
    used to run the examples.

    Conventions.
    - A [PyObject*] is a value of [PyObject]; [nullptr] results are [None].
    - Pointer comparison ([==] on [PyObject*]) is [ptr_eqb]; it is only ever
      applied by the source to type objects and sentinels.
    - Reference counting is not modelled.
    - The CPython error indicator, the collector passed by pointer and a log
      of the callables invoked are threaded explicitly ([World], [M]).
    - Callables of the host are functions of their arguments; a
      model-before validator may in addition update the dict it is handed
      ([dict_after_call]).
    - A [const char *] is a string without NUL bytes; where the source makes
      one out of a Python string, the model cuts at the first NUL ([c_str]).
    - Allocation never fails. *)

From stdpp Require Import base option list strings gmap.
From Stdlib Require Import ZArith Lia.
From Stdlib Require Import Strings.String Strings.Ascii DecimalString.

Local Open Scope Z_scope.
Local Open Scope string_scope.

(** ** Python objects *)

#[warnings="-register-all"]
Inductive PyObject : Type :=
| Py_None
| PyBool (b : bool)
| PyLong (n : Z)
| PyFloat (bits : Z)
| PyUnicode (s : string)
| PyList (items : list PyObject)
| PyTuple (items : list PyObject)
| PySet (items : list PyObject)
| PyDict (entries : list (PyObject * PyObject))
| PyClass (name : string)
| PyAlias (alias_origin : PyObject) (alias_args : list PyObject)
| PyGeneric (generic_origin : PyObject)
| PyFunction (name : string)
| PyInstance (cls : string) (slots : list (string * PyObject))
| VLDTUndefined.

(** Globals of [init_globals.cpp]. *)
Definition IntType : PyObject := PyClass "int".
Definition FloatType : PyObject := PyClass "float".
Definition StrType : PyObject := PyClass "str".
Definition BoolType : PyObject := PyClass "bool".
Definition AnyType : PyObject := PyClass "Any".
Definition UnionType : PyObject := PyClass "Union".
Definition ClassVarType : PyObject := PyClass "ClassVar".
Definition TupleType : PyObject := PyClass "Tuple".
Definition SetType : PyObject := PyClass "Set".
Definition DictType : PyObject := PyClass "Dict".
Definition ListType : PyObject := PyClass "List".
Definition PyTuple_Type : PyObject := PyClass "tuple".
Definition PySet_Type : PyObject := PyClass "set".
Definition PyDict_Type : PyObject := PyClass "dict".
Definition PyList_Type : PyObject := PyClass "list".
Definition NoneTypeObj : PyObject := PyClass "NoneType".
Definition DataModelType : PyObject := PyClass "DataModel".

(** [a == b] on pointers.  Type objects, functions and the two sentinels are
    unique objects; every other object is a fresh allocation. *)
Definition ptr_eqb (a b : PyObject) : bool :=
  match a, b with
  | Py_None, Py_None => true
  | VLDTUndefined, VLDTUndefined => true
  | PyClass x, PyClass y => bool_decide (x = y)
  | PyFunction x, PyFunction y => bool_decide (x = y)
  | _, _ => false
  end.

(** [Py_TYPE(obj)]. *)
Definition Py_TYPE (o : PyObject) : PyObject :=
  match o with
  | Py_None => NoneTypeObj
  | PyBool _ => BoolType
  | PyLong _ => IntType
  | PyFloat _ => FloatType
  | PyUnicode _ => StrType
  | PyList _ => PyList_Type
  | PyTuple _ => PyTuple_Type
  | PySet _ => PySet_Type
  | PyDict _ => PyDict_Type
  | PyClass _ => PyClass "type"
  | PyAlias _ _ => PyClass "_GenericAlias"
  | PyGeneric _ => PyClass "_SpecialGenericAlias"
  | PyFunction _ => PyClass "function"
  | PyInstance c _ => PyClass c
  | VLDTUndefined => PyClass "vldt.VLDTUndefined"
  end.

(** The [Py*_Check] macros test a flag of the object's type. *)
Definition PyType_Check (o : PyObject) : bool :=
  match o with PyClass _ => true | _ => false end.
Definition PyLong_Check (o : PyObject) : bool :=
  match o with PyLong _ | PyBool _ => true | _ => false end.
Definition PyBool_Check (o : PyObject) : bool :=
  match o with PyBool _ => true | _ => false end.
Definition PyFloat_Check (o : PyObject) : bool :=
  match o with PyFloat _ => true | _ => false end.
Definition PyUnicode_Check (o : PyObject) : bool :=
  match o with PyUnicode _ => true | _ => false end.
Definition PyList_Check (o : PyObject) : bool :=
  match o with PyList _ => true | _ => false end.
Definition PyTuple_Check (o : PyObject) : bool :=
  match o with PyTuple _ => true | _ => false end.
Definition PySet_Check (o : PyObject) : bool :=
  match o with PySet _ => true | _ => false end.
Definition PyDict_Check (o : PyObject) : bool :=
  match o with PyDict _ => true | _ => false end.

(** [safe_type_name]: the [__name__] of a type object, else the [tp_name]
    of the object's type. *)
Definition safe_type_name (o : PyObject) : string :=
  match o with
  | PyClass n => n
  | _ => match Py_TYPE o with PyClass n => n | _ => "<unknown>" end
  end.

(** ** JSON values (rapidjson [Value]) *)

#[warnings="-register-all"]
Inductive JValue : Type :=
| JNull
| JBool (b : bool)
| JNumber (lexeme : string)
| JString (s : string)
| JArray (elems : list JValue)
| JObject (members : list (string * JValue)).

Definition IsArray (v : JValue) : bool :=
  match v with JArray _ => true | _ => false end.

(** [Value::PushBack] on a value that is an array. *)
Definition PushBack (arr v : JValue) : JValue :=
  match arr with JArray l => JArray (l ++ [v]) | other => other end.

(** ** error_handling.hpp *)

Module ErrorCollector.

(** [doc_] is a null [unique_ptr] until the first use; an object keeps its
    members in insertion order. *)
Record t : Type := mk { doc_ : option (list (string * JValue)) }.

Definition new : t := mk None.

Definition lazy_init (c : t) : list (string * JValue) :=
  match doc_ c with Some d => d | None => [] end.

(** [Value::FindMember]: the first member with that name. *)
Fixpoint FindMember (key : string) (d : list (string * JValue)) : option JValue :=
  match d with
  | [] => None
  | (k, v) :: rest => if decide (k = key) then Some v else FindMember key rest
  end.

Definition HasMember (key : string) (d : list (string * JValue)) : bool :=
  match FindMember key d with Some _ => true | None => false end.

(** Assignment through the reference returned by [operator[]]: the first
    member with that name. *)
Fixpoint update_member (key : string) (f : JValue -> JValue)
    (d : list (string * JValue)) : list (string * JValue) :=
  match d with
  | [] => []
  | (k, v) :: rest =>
      if decide (k = key) then (k, f v) :: rest
      else (k, v) :: update_member key f rest
  end.

(** The shared tail of [add_error] and [add_suberror]: promote to an array
    and push, or add a new member. *)
Definition put_value (key : string) (v : JValue)
    (d : list (string * JValue)) : list (string * JValue) :=
  if HasMember key d then
    update_member key
      (fun existing =>
         PushBack (if IsArray existing then existing else JArray [existing]) v) d
  else (d ++ [(key, v)])%list.

Definition add_error (field message : string) (c : t) : t :=
  mk (Some (put_value field (JString message) (lazy_init c))).

(** [subdoc] is the result of [Document::Parse]: [None] on a parse error. *)
Definition add_suberror (field : string) (subdoc : option JValue) (c : t) : t :=
  match subdoc with
  | Some (JObject members) =>
      mk (Some (fold_left
                  (fun d '(name, value) => put_value (field ++ "." ++ name) value d)
                  members (lazy_init c)))
  | _ => add_error field "Invalid suberror JSON" (mk (Some (lazy_init c)))
  end.

Definition has_errors (c : t) : bool :=
  match doc_ c with
  | Some d => negb (bool_decide (d = []))
  | None => false
  end.

(** What is stored under [path]. *)
Definition entry (c : t) (path : string) : option JValue :=
  FindMember path (lazy_init c).

(** A run of [add_error] calls, oldest first. *)
Definition add_errors (es : list (string * string)) (c : t) : t :=
  fold_left (fun c '(p, m) => add_error p m c) es c.

End ErrorCollector.

(** ** C strings and [snprintf] *)

(** A [const char *] ends at its first NUL byte. *)
Fixpoint c_str (s : string) : string :=
  match s with
  | EmptyString => EmptyString
  | String c rest =>
      if decide (c = Ascii.zero) then EmptyString else String c (c_str rest)
  end.

Fixpoint str_take (n : nat) (s : string) : string :=
  match n, s with
  | S n', String c rest => String c (str_take n' rest)
  | _, _ => EmptyString
  end.

(** [snprintf(buf, size, "%s", s)]: at most [size - 1] bytes are kept. *)
Definition snprintf (size : nat) (s : string) : string := str_take (size - 1) s.

(** ["%zd"] of a non-negative index. *)
Definition fmt_zd (i : nat) : string := NilZero.string_of_uint (Nat.to_uint i).

(** The path buffer of [validate_list] and [validate_dict]:
    [std::array<char, 256> new_path], filled by [memcpy] of at most 254
    bytes of [error_path], a dot, and [snprintf] into what is left. *)
Definition base_len_of (error_path : string) : nat :=
  if decide (256 - 2 <= String.length error_path)%nat
  then (256 - 2)%nat else String.length error_path.

Definition path_at (error_path suffix : string) : string :=
  let base_len := base_len_of error_path in
  str_take base_len error_path ++ "." ++ snprintf (256 - base_len - 1) suffix.

(** The path buffer of [validate_tuple] and [validate_set]:
    [snprintf(new_path, 256, "%s.%zd", error_path, i)]. *)
Definition path_fmt (error_path : string) (i : nat) : string :=
  snprintf 256 (error_path ++ "." ++ fmt_zd i).

(** ** The host: CPython and rapidjson *)

Class Host : Type := {
  (** 1, 0, or -1 with an exception set *)
  PyObject_IsInstance : PyObject -> PyObject -> Z;
  PyObject_IsSubclass : PyObject -> PyObject -> Z;
  (** [PyObject_CallFunctionObjArgs(f, args..., nullptr)]; [None] is a
      raised exception *)
  PyObject_CallFunctionObjArgs : PyObject -> list PyObject -> option PyObject;
  (** the entries of a dict that was among [args], once that call is
      over: a callable may update the dict it is handed in place *)
  dict_after_call :
    PyObject -> list PyObject -> list (PyObject * PyObject) ->
    list (PyObject * PyObject);
  (** [PyObject_Call(type, empty_tuple, kwds)]: the new object, or the
      [str()] of the exception it raised *)
  PyObject_Call : PyObject -> PyObject -> PyObject + string;
  PyCallable_Check : PyObject -> bool;
  (** [PyObject_RichCompareBool(a, b, Py_EQ) == 1] *)
  PyObject_RichCompareBool_EQ : PyObject -> PyObject -> bool;
  (** whether [PyObject_Hash] succeeds *)
  PyObject_Hashable : PyObject -> bool;
  (** ["%R"] *)
  PyObject_Repr : PyObject -> string;
  (** [PyObject_GetAttrString]; [None] is [AttributeError] *)
  PyObject_GetAttrString : PyObject -> string -> option PyObject;
  (** [PyObject_GenericGetAttr] on an instance of the given class *)
  PyObject_GenericGetAttr : PyObject -> string -> option PyObject;
  (** [Document::Parse]; [None] is [HasParseError()] *)
  rapidjson_Parse : string -> option JValue;
  (** [Document::Accept(PrettyWriter)] with an indent of two spaces *)
  rapidjson_Write : list (string * JValue) -> string;
}.

(** [ErrorCollector::to_json]. *)
Definition to_json `{Host} (c : ErrorCollector.t) : string :=
  match ErrorCollector.doc_ c with
  | None => ""
  | Some d => rapidjson_Write d
  end.

(** ** Dictionaries and sets of the host *)

Section Containers.
Context `{Host}.

Fixpoint dict_find (key : PyObject) (d : list (PyObject * PyObject)) : option PyObject :=
  match d with
  | [] => None
  | (k, v) :: rest =>
      if PyObject_RichCompareBool_EQ k key then Some v else dict_find key rest
  end.

(** [PyDict_GetItem]: null when the key is missing, and also when hashing
    or comparing failed (the exception is swallowed). *)
Definition PyDict_GetItem (d key : PyObject) : option PyObject :=
  match d with
  | PyDict entries =>
      if PyObject_Hashable key then dict_find key entries else None
  | _ => None
  end.

Fixpoint dict_replace (key v : PyObject) (d : list (PyObject * PyObject))
    : list (PyObject * PyObject) :=
  match d with
  | [] => []
  | (k, v0) :: rest =>
      if PyObject_RichCompareBool_EQ k key then (k, v) :: rest
      else (k, v0) :: dict_replace key v rest
  end.

(** [PyDict_SetItem]: [None] is the result -1 (unhashable key). *)
Definition PyDict_SetItem (d : list (PyObject * PyObject)) (key v : PyObject)
    : option (list (PyObject * PyObject)) :=
  if PyObject_Hashable key then
    Some (match dict_find key d with
          | Some _ => dict_replace key v d
          | None => (d ++ [(key, v)])%list
          end)
  else None.

(** [PySet_Add]: [None] is the result -1 (unhashable element). *)
Definition PySet_Add (s : list PyObject) (x : PyObject) : option (list PyObject) :=
  if PyObject_Hashable x then
    Some (if existsb (fun y => PyObject_RichCompareBool_EQ y x) s then s else (s ++ [x])%list)
  else None.

End Containers.

(** ** schema/schema.hpp *)

Inductive ContainerKind : Type :=
| CK_NONE | CK_DICT | CK_LIST | CK_TUPLE | CK_SET | CK_UNION.

Global Instance ContainerKind_eq_dec : EqDecision ContainerKind.
Proof. solve_decision. Defined.

(** [struct TypeSchema]; [num_args] is the length of [args], [origin] is
    [Py_None] for a type that is not generic. *)
#[warnings="-register-all"]
Inductive TypeSchema : Type := mkTypeSchema {
  expected_type : PyObject;
  origin : PyObject;
  args : list TypeSchema;
  is_data_model : bool;
  is_optional : bool;
  container_kind : ContainerKind;
  inner_model_type : option PyObject;
}.

Definition num_args (ts : TypeSchema) : nat := List.length (args ts).

(** ** schema/deserializer.cpp *)

(** [std::unordered_map<DeserializerKey, PyObject *>]; keys are compared by
    pointer, and [insert] keeps the entry that is already there, so the first
    entry of a key is the one [find] returns. *)
Definition Deserializers : Type := list ((PyObject * PyObject) * PyObject).

Fixpoint map_find (to from : PyObject) (m : Deserializers) : option PyObject :=
  match m with
  | [] => None
  | ((t, f), fn) :: rest =>
      if ptr_eqb t to && ptr_eqb f from then Some fn else map_find to from rest
  end.

(** [map.insert({key, fn})]: a key that is there already keeps its entry. *)
Definition map_insert (to from fn : PyObject) (m : Deserializers) : Deserializers :=
  match map_find to from m with
  | Some _ => m
  | None => (m ++ [((to, from), fn)])%list
  end.

(** The inner loop of [create_deserializers]; [None] is the [TypeError]
    "Deserializer function must be callable". *)
Fixpoint insert_inner `{Host} (outer_key : PyObject)
    (inner : list (PyObject * PyObject)) (m : Deserializers) : option Deserializers :=
  match inner with
  | [] => Some m
  | (inner_key, inner_value) :: rest =>
      if PyCallable_Check inner_value
      then insert_inner outer_key rest (map_insert outer_key inner_key inner_value m)
      else None
  end.

(** The outer loop; [None] is a [TypeError]. *)
Fixpoint insert_outer `{Host} (outer : list (PyObject * PyObject)) (m : Deserializers)
    : option Deserializers :=
  match outer with
  | [] => Some m
  | (outer_key, PyDict inner) :: rest =>
      match insert_inner outer_key inner m with
      | Some m' => insert_outer rest m'
      | None => None
      end
  | _ => None
  end.

Definition create_deserializers `{Host} (deserializer_dict : PyObject)
    : option Deserializers :=
  match deserializer_dict with
  | PyDict outer => insert_outer outer []
  | _ => None
  end.

Definition get_deserializer (deserializers : Deserializers)
    (deserialize_to deserialize_from : PyObject) : PyObject :=
  match map_find deserialize_to deserialize_from deserializers with
  | Some fn => fn
  | None => Py_None
  end.

(** ** The world threaded through a validation call *)

Inductive PyErr : Type :=
| PyExc_TypeError (msg : string)
| PyExc_AttributeError (msg : string)
| PyExc_SystemError (msg : string)
| PyExc_FromHost   (** whatever a failed host call left pending *)
| Fault.           (** a read through [args] past [num_args] *)

(** The collector a call gets by pointer, the CPython error indicator, and
    the callables invoked so far (oldest first) with their arguments. *)
Record World : Type := mkWorld {
  collector : ErrorCollector.t;
  err_indicator : option PyErr;
  call_log : list (PyObject * list PyObject);
}.

Definition M (A : Type) : Type := World -> A * World.

Global Instance M_ret : MRet M := fun A x w => (x, w).
Global Instance M_bind : MBind M :=
  fun A B f m w => let '(x, w') := m w in f x w'.

Definition PyErr_Clear : M unit :=
  fun w => (tt, mkWorld (collector w) None (call_log w)).

Definition PyErr_Occurred : M (option PyErr) :=
  fun w => (err_indicator w, w).

Definition PyErr_Set (e : PyErr) : M unit :=
  fun w => (tt, mkWorld (collector w) (Some e) (call_log w)).

Definition fault {A : Type} : M (option A) :=
  fun w => (None, mkWorld (collector w) (Some Fault) (call_log w)).

(** [collector->add_error(path, message)]. *)
Definition record_error (path message : string) : M unit :=
  fun w => (tt, mkWorld (ErrorCollector.add_error path message (collector w))
                        (err_indicator w) (call_log w)).

Definition record_suberror (path : string) (subdoc : option JValue) : M unit :=
  fun w => (tt, mkWorld (ErrorCollector.add_suberror path subdoc (collector w))
                        (err_indicator w) (call_log w)).

(** Runs [m] against a collector of its own, [ErrorCollector temp_collector],
    which is dropped afterwards. *)
Definition with_temp_collector {A : Type} (m : M A) : M A :=
  fun w =>
    let '(r, w') := m (mkWorld ErrorCollector.new (err_indicator w) (call_log w)) in
    (r, mkWorld (collector w) (err_indicator w') (call_log w')).

Section Validation.
Context `{Host}.

Definition is_instance (value type : PyObject) : M Z :=
  fun w =>
    let r := PyObject_IsInstance value type in
    (r, if Z.ltb r 0 then mkWorld (collector w) (Some PyExc_FromHost) (call_log w)
        else w).

Definition call_function (f : PyObject) (arguments : list PyObject)
    : M (option PyObject) :=
  fun w =>
    let r := PyObject_CallFunctionObjArgs f arguments in
    (r, mkWorld (collector w)
                (match r with Some _ => err_indicator w | None => Some PyExc_FromHost end)
                (call_log w ++ [(f, arguments)])%list).

Definition call_type (type kwds : PyObject) : M (PyObject + string) :=
  fun w =>
    let r := PyObject_Call type kwds in
    (r, mkWorld (collector w)
                (match r with inl _ => err_indicator w | inr _ => Some PyExc_FromHost end)
                (call_log w ++ [(type, [kwds])])%list).

(** *** validation_primitives.cpp *)

(** The four functions differ in the check, the constructor and the name
    in the message. *)
Definition validate_primitive (check : PyObject -> bool) (ctor : PyObject)
    (kind : string) (value : PyObject) (error_path : string) : M (option PyObject) :=
  if check value then mret (Some value)
  else
    conv ← call_function ctor [value];
    match conv with
    | Some c =>
        if check c then mret (Some c)
        else PyErr_Clear;;
             record_error error_path
               ("Expected type " ++ kind ++ ", got " ++ safe_type_name value);;
             mret None
    | None =>
        PyErr_Clear;;
        record_error error_path
          ("Expected type " ++ kind ++ ", got " ++ safe_type_name value);;
        mret None
    end.

Definition validate_int := validate_primitive PyLong_Check IntType "int".
Definition validate_str := validate_primitive PyUnicode_Check StrType "str".
Definition validate_float := validate_primitive PyFloat_Check FloatType "float".
Definition validate_bool := validate_primitive PyBool_Check BoolType "bool".

(** *** validation.cpp *)

Definition validate_data_model (value : PyObject) (ts : TypeSchema)
    (error_path : string) : M (option PyObject) :=
  converted ← call_type (expected_type ts) value;
  match converted with
  | inl obj => mret (Some obj)
  | inr nested_json =>
      PyErr_Clear;;
      record_suberror error_path (rapidjson_Parse nested_json);;
      mret None
  end.

(** The failure tail shared by [validate_plain] and
    [convert_using_constructor]. *)
Definition expected_type_error (value : PyObject) (ts : TypeSchema)
    (error_path : string) : M (option PyObject) :=
  PyErr_Clear;;
  record_error error_path
    ("Expected type " ++ safe_type_name (expected_type ts) ++
     ", got " ++ safe_type_name value);;
  mret None.

Definition convert_using_constructor (value : PyObject) (ts : TypeSchema)
    (error_path : string) : M (option PyObject) :=
  conv ← call_function (expected_type ts) [value];
  match conv with
  | Some c =>
      ok ← is_instance c (expected_type ts);
      if negb (Z.eqb ok 0) then mret (Some c)
      else expected_type_error value ts error_path
  | None => expected_type_error value ts error_path
  end.

(** The registered deserializer, when there is a table and it has an entry
    other than [Py_None]. *)
Definition deserializer_for (deserializers : option Deserializers)
    (ts : TypeSchema) (value : PyObject) : option PyObject :=
  match deserializers with
  | Some d =>
      let deserializer_func := get_deserializer d (expected_type ts) (Py_TYPE value) in
      if ptr_eqb deserializer_func Py_None then None else Some deserializer_func
  | None => None
  end.

(** The first half of the [else] branch of [validate_plain]: the result of
    the registered deserializer when it is an instance of the expected
    type. *)
Definition try_deserializer (value : PyObject) (ts : TypeSchema)
    (deserializers : option Deserializers) : M (option PyObject) :=
  match deserializer_for deserializers ts value with
  | Some deserializer_func =>
      deserialized ← call_function deserializer_func [value];
      match deserialized with
      | Some d =>
          ok ← is_instance d (expected_type ts);
          if negb (Z.eqb ok 0) then mret (Some d)
          else PyErr_Clear;; mret None
      | None => PyErr_Clear;; mret None
      end
  | None => mret None
  end.

Definition validate_plain (value : PyObject) (ts : TypeSchema)
    (error_path : string) (deserializers : option Deserializers)
    : M (option PyObject) :=
  inst ← is_instance value (expected_type ts);
  if negb (Z.eqb inst 0) then mret (Some value)
  else
    deserialized ← try_deserializer value ts deserializers;
    match deserialized with
    | Some d => mret (Some d)
    | None =>
        if ptr_eqb (expected_type ts) IntType then validate_int value error_path
        else if ptr_eqb (expected_type ts) StrType then validate_str value error_path
        else if ptr_eqb (expected_type ts) FloatType then validate_float value error_path
        else if ptr_eqb (expected_type ts) BoolType then validate_bool value error_path
        else convert_using_constructor value ts error_path
    end.

(** *** validation_containers.cpp

    The container validators call back into [validate_and_convert]; here
    they take it as [rec], and [validate_and_convert] below passes
    itself. *)

Definition Validator : Type :=
  PyObject -> TypeSchema -> string -> option Deserializers -> M (option PyObject).

(** The [for] loop of [validate_list]; [elem] is [ts->args], read at index
    0 once per item. *)
Fixpoint list_items (rec : Validator) (elem : list TypeSchema)
    (items : list PyObject) (i : nat) (error_path : string)
    (deserializers : option Deserializers) : M (option (list PyObject)) :=
  match items with
  | [] => mret (Some [])
  | item :: rest =>
      match elem with
      | a0 :: _ =>
          conv_item ← rec item a0 (path_at error_path (fmt_zd i)) deserializers;
          match conv_item with
          | None => mret None
          | Some c =>
              tail ← list_items rec elem rest (S i) error_path deserializers;
              mret (cons c <$> tail)
          end
      | [] => fault
      end
  end.

Definition validate_list (rec : Validator) (value : PyObject) (ts : TypeSchema)
    (error_path : string) (deserializers : option Deserializers)
    : M (option PyObject) :=
  match value with
  | PyList items =>
      new_list ← list_items rec (args ts) items 0 error_path deserializers;
      mret (PyList <$> new_list)
  | _ =>
      record_error error_path ("Expected a list, got " ++ safe_type_name value);;
      mret None
  end.

(** The [while (PyDict_Next(...))] loop of [validate_dict]. *)
Fixpoint dict_items (rec : Validator) (key_schema val_schema : TypeSchema)
    (entries new_dict : list (PyObject * PyObject)) (error_path : string)
    (deserializers : option Deserializers)
    : M (option (list (PyObject * PyObject))) :=
  match entries with
  | [] => mret (Some new_dict)
  | (key, val) :: rest =>
      let key_str :=
        match key with
        | PyUnicode s => c_str s
        | _ => safe_type_name key
        end in
      let new_path := path_at error_path key_str in
      conv_key ← rec key key_schema new_path deserializers;
      match conv_key with
      | None => mret None
      | Some k =>
          conv_val ← rec val val_schema new_path deserializers;
          match conv_val with
          | None => mret None
          | Some v =>
              match PyDict_SetItem new_dict k v with
              | None => PyErr_Set PyExc_FromHost;; mret None
              | Some d =>
                  dict_items rec key_schema val_schema rest d error_path deserializers
              end
          end
      end
  end.

Definition validate_dict (rec : Validator) (value : PyObject) (ts : TypeSchema)
    (error_path : string) (deserializers : option Deserializers)
    : M (option PyObject) :=
  match value with
  | PyDict entries =>
      match args ts with
      | key_schema :: val_schema :: _ =>
          new_dict ← dict_items rec key_schema val_schema entries [] error_path
                       deserializers;
          mret (PyDict <$> new_dict)
      | _ => fault
      end
  | _ =>
      record_error error_path ("Expected a dict, got " ++ safe_type_name value);;
      mret None
  end.

(** The [for] loop of [validate_tuple]; [schemas] is [ts->args] from index
    [i] on. *)
Fixpoint tuple_items (rec : Validator) (schemas : list TypeSchema)
    (items : list PyObject) (i : nat) (error_path : string)
    (deserializers : option Deserializers) : M (option (list PyObject)) :=
  match items with
  | [] => mret (Some [])
  | item :: rest =>
      match schemas with
      | ai :: later =>
          conv_item ← rec item ai (path_fmt error_path i) deserializers;
          match conv_item with
          | None => mret None
          | Some c =>
              tail ← tuple_items rec later rest (S i) error_path deserializers;
              mret (cons c <$> tail)
          end
      | [] => fault
      end
  end.

Definition validate_tuple (rec : Validator) (value : PyObject) (ts : TypeSchema)
    (error_path : string) (deserializers : option Deserializers)
    : M (option PyObject) :=
  match value with
  | PyTuple items =>
      let size := List.length items in
      if negb (Nat.eqb (num_args ts) size) then
        record_error error_path
          (snprintf 128 ("Expected tuple of length " ++ fmt_zd (num_args ts) ++
                         ", got " ++ fmt_zd size));;
        mret None
      else
        new_tuple ← tuple_items rec (args ts) items 0 error_path deserializers;
        mret (PyTuple <$> new_tuple)
  | _ =>
      record_error error_path ("Expected a tuple, got " ++ safe_type_name value);;
      mret None
  end.

(** The [while ((item = PyIter_Next(iterator)))] loop of [validate_set]. *)
Fixpoint set_items (rec : Validator) (elem : list TypeSchema)
    (items new_set : list PyObject) (idx : nat) (error_path : string)
    (deserializers : option Deserializers) : M (option (list PyObject)) :=
  match items with
  | [] => mret (Some new_set)
  | item :: rest =>
      match elem with
      | a0 :: _ =>
          conv_item ← rec item a0 (path_fmt error_path idx) deserializers;
          match conv_item with
          | None => mret None
          | Some c =>
              match PySet_Add new_set c with
              | None => PyErr_Set PyExc_FromHost;; mret None
              | Some s => set_items rec elem rest s (S idx) error_path deserializers
              end
          end
      | [] => fault
      end
  end.

Definition validate_set (rec : Validator) (value : PyObject) (ts : TypeSchema)
    (error_path : string) (deserializers : option Deserializers)
    : M (option PyObject) :=
  match value with
  | PySet items =>
      new_set ← set_items rec (args ts) items [] 0 error_path deserializers;
      mret (PySet <$> new_set)
  | _ =>
      record_error error_path ("Expected a set, got " ++ safe_type_name value);;
      mret None
  end.

(** First loop of [validate_union]: is [value] an instance of some
    candidate, as it is? *)
Definition check_type_of (candidate : TypeSchema) : PyObject :=
  if negb (ptr_eqb (origin candidate) Py_None) then origin candidate
  else expected_type candidate.

Fixpoint union_match (candidates : list TypeSchema) (value : PyObject) : M bool :=
  match candidates with
  | [] => mret false
  | candidate :: rest =>
      inst ← is_instance value (check_type_of candidate);
      if negb (Z.eqb inst 0) then mret true else union_match rest value
  end.

(** Second loop of [validate_union]: the first candidate that converts. *)
Fixpoint union_convert (rec : Validator) (candidates : list TypeSchema)
    (value : PyObject) (error_path : string)
    (deserializers : option Deserializers) : M (option PyObject) :=
  match candidates with
  | [] => mret None
  | candidate :: rest =>
      conv ← rec value candidate error_path deserializers;
      match conv with
      | Some c => mret (Some c)
      | None => PyErr_Clear;; union_convert rec rest value error_path deserializers
      end
  end.

Definition validate_union (rec : Validator) (value : PyObject) (ts : TypeSchema)
    (error_path : string) (deserializers : option Deserializers)
    : M (option PyObject) :=
  matched ← union_match (args ts) value;
  if (matched : bool) then mret (Some value)
  else
    conv ← with_temp_collector
             (union_convert rec (args ts) value error_path deserializers);
    match conv with
    | Some c => mret (Some c)
    | None =>
        record_error error_path
          ("Value did not match any candidate in Union: got " ++
           safe_type_name value);;
        mret None
    end.

(** *** validation.cpp: the dispatcher *)

Fixpoint validate_and_convert (value : PyObject) (ts : TypeSchema)
    (error_path : string) (deserializers : option Deserializers) {struct ts}
    : M (option PyObject) :=
  if ptr_eqb value Py_None && is_optional ts then mret (Some Py_None)
  else if ptr_eqb (expected_type ts) AnyType then mret (Some value)
  else if is_data_model ts && PyDict_Check value then
    validate_data_model value ts error_path
  else
    match container_kind ts with
    | CK_LIST => validate_list validate_and_convert value ts error_path deserializers
    | CK_DICT => validate_dict validate_and_convert value ts error_path deserializers
    | CK_TUPLE => validate_tuple validate_and_convert value ts error_path deserializers
    | CK_SET => validate_set validate_and_convert value ts error_path deserializers
    | _ =>
        if ptr_eqb (origin ts) Py_None then
          validate_plain value ts error_path deserializers
        else if bool_decide (container_kind ts = CK_UNION) then
          validate_union validate_and_convert value ts error_path deserializers
        else convert_using_constructor value ts error_path
    end.

End Validation.

(** ** schema/schema.cpp: the type schema compiler

    [__origin__] and [__args__] are read off the descriptor: a subscripted
    generic ([PyAlias]) carries both, an unsubscripted one ([PyGeneric])
    has an [__origin__] and no tuple of [__args__], and any other object has
    neither.  The per-type cache
    ([get_cached_type_schema], [try_cache_type_schema]) memoises this
    function and is left out. *)

Section Schema.
Context `{Host}.

Definition normalize_origin (o : PyObject) : PyObject :=
  if negb (ptr_eqb o Py_None) then
    if PyObject_RichCompareBool_EQ o TupleType
       || PyObject_RichCompareBool_EQ o PyTuple_Type then PyTuple_Type
    else if PyObject_RichCompareBool_EQ o SetType
            || PyObject_RichCompareBool_EQ o PySet_Type then PySet_Type
    else if PyObject_RichCompareBool_EQ o DictType then PyDict_Type
    else o
  else o.

(** [PyType_Check(t) && PyObject_IsSubclass(t, &DataModelType) == 1]. *)
Definition is_model_class (t : PyObject) : bool :=
  PyType_Check t && Z.eqb (PyObject_IsSubclass t DataModelType) 1.

(** The scan over the alternatives of a union. *)
Definition union_flags (candidates : list TypeSchema) : bool * option PyObject :=
  fold_left
    (fun '(opt, inner) (a : TypeSchema) =>
       if ptr_eqb (expected_type a) NoneTypeObj then (true, inner)
       else if is_model_class (expected_type a) then (opt, Some (expected_type a))
       else (opt, inner))
    candidates (false, None).

Definition first_model (candidates : list TypeSchema) (i : nat) : option PyObject :=
  match candidates !! i with
  | Some a => if is_model_class (expected_type a) then Some (expected_type a) else None
  | None => None
  end.

Definition handle_container_kind (ts : TypeSchema) : TypeSchema :=
  let o := origin ts in
  let n := num_args ts in
  let set kind opt inner :=
    mkTypeSchema (expected_type ts) o (args ts) (is_data_model ts) opt kind inner in
  if negb (ptr_eqb o Py_None) then
    if PyObject_RichCompareBool_EQ o UnionType then
      let '(opt, inner) := union_flags (args ts) in
      set CK_UNION opt
          (match inner with Some m => Some m | None => inner_model_type ts end)
    else if PyObject_RichCompareBool_EQ o PyDict_Type && Nat.eqb n 2 then
      set CK_DICT (is_optional ts) (first_model (args ts) 1)
    else if PyObject_RichCompareBool_EQ o PyList_Type && Nat.eqb n 1 then
      set CK_LIST (is_optional ts) (first_model (args ts) 0)
    else if PyObject_RichCompareBool_EQ o PyTuple_Type then
      set CK_TUPLE (is_optional ts)
          (if Nat.eqb n 1 then first_model (args ts) 0 else None)
    else if PyObject_RichCompareBool_EQ o PySet_Type then
      set CK_SET (is_optional ts)
          (if Nat.eqb n 1 then first_model (args ts) 0 else None)
    else set CK_NONE (is_optional ts) None
  else set CK_NONE (is_optional ts) None.

Fixpoint compile_type_schema (expected_type : PyObject) : TypeSchema :=
  let is_sub :=
    if PyType_Check expected_type then PyObject_IsSubclass expected_type DataModelType
    else 0 in
  let is_data_model := negb (Z.ltb is_sub 0) && negb (Z.eqb is_sub 0) in
  match expected_type with
  | PyAlias o type_args =>
      handle_container_kind
        (mkTypeSchema expected_type (normalize_origin o)
           (map compile_type_schema type_args) is_data_model false CK_NONE None)
  | PyGeneric o =>
      (* handle_no_args *)
      mkTypeSchema expected_type (normalize_origin o) [] is_data_model false
        CK_NONE None
  | _ =>
      (* handle_no_origin *)
      mkTypeSchema expected_type Py_None [] is_data_model false CK_NONE None
  end.

(** [is_class_var] of data_model.cpp. *)
Definition is_class_var (expected_type : PyObject) : bool :=
  match expected_type with
  | PyAlias o _ | PyGeneric o => ptr_eqb o ClassVarType
  | _ => false
  end.

End Schema.

(** ** schema/schema.hpp: field and model schemas *)

(** [struct FieldSchema].  [alias] is a nullable pointer; [field_name_c] is
    the C string [PyUnicode_AsUTF8(field_name)]. *)
Record FieldSchema : Type := mkFieldSchema {
  field_name : PyObject;
  field_name_c : string;
  alias : option PyObject;
  default_value : PyObject;
  default_factory : PyObject;
  type_schema : TypeSchema;
}.

(** [struct SchemaCache], without the serializer slots, which construction
    and assignment do not read. *)
Record SchemaCache : Type := mkSchemaCache {
  fields : list FieldSchema;
  instance_annotations : PyObject;
  validators : PyObject;
  has_field_before : bool;
  has_field_after : bool;
  has_model_before : bool;
  has_model_after : bool;
  deserializers : option Deserializers;
}.

(** [InstanceData::fields], a [std::unordered_map<std::string, PyObject *>]. *)
Abbreviation InstanceData := (gmap string PyObject).

(** Runs [m] against a fresh local [ErrorCollector collector] and hands it
    back with the result. *)
Definition with_local_collector {A : Type} (m : M A) : M (A * ErrorCollector.t) :=
  fun w =>
    let '(r, w') := m (mkWorld ErrorCollector.new (err_indicator w) (call_log w)) in
    ((r, collector w'), mkWorld (collector w) (err_indicator w') (call_log w')).

(** ** data_model.cpp *)

Section DataModel.
Context `{Host}.

(** The object handed to validators as [self]. *)
Definition self_object (cls : PyObject) (data : InstanceData) : PyObject :=
  PyInstance (safe_type_name cls) (map_to_list data).

Definition DataModel_getattro (cls : PyObject) (data : InstanceData)
    (name : string) : option PyObject :=
  match data !! c_str name with
  | Some v => Some v
  | None => PyObject_GenericGetAttr cls name
  end.

(** [schema] is what [get_schema_cached(Py_TYPE(self))] gave, [None] when
    it gave no capsule.  The status is the C return value. *)
Definition DataModel_setattro (schema : option SchemaCache)
    (data : InstanceData) (name : string) (value : PyObject)
    : M (Z * InstanceData) :=
  match schema with
  | None =>
      PyErr_Set (PyExc_TypeError "Could not retrieve model schema");;
      mret (-1, data)
  | Some schema =>
      let attr_name := c_str name in
      match PyDict_GetItem (instance_annotations schema) (PyUnicode name) with
      | Some expected_type =>
          if is_class_var expected_type then
            PyErr_Set (PyExc_AttributeError "Cannot set ClassVar attribute");;
            mret (-1, data)
          else
            let ts := compile_type_schema expected_type in
            '(converted, collector) ←
               with_local_collector
                 (validate_and_convert value ts attr_name (deserializers schema));
            match converted with
            | None =>
                (if ErrorCollector.has_errors collector
                 then PyErr_Set (PyExc_TypeError (to_json collector))
                 else PyErr_Set
                        (PyExc_TypeError ("Invalid value for attribute " ++
                                          PyObject_Repr (PyUnicode name))));;
                mret (-1, data)
            | Some converted => mret (0, <[attr_name := converted]> data)
            end
      | None => mret (0, <[attr_name := value]> data)
      end
  end.

(** *** DataModel_init: resolving one field's input (lines 172-190) *)

(** The loop over [fs->alias]: the value under the first alias that is a
    key of [kwds]. *)
Fixpoint first_alias (kwds : PyObject) (aliases : list PyObject) : option PyObject :=
  match aliases with
  | [] => None
  | alias_key :: rest =>
      match PyDict_GetItem kwds alias_key with
      | Some value => Some value
      | None => first_alias kwds rest
      end
  end.

Definition resolve_input (kwds : option PyObject) (fs : FieldSchema)
    : option PyObject :=
  match kwds with
  | Some (PyDict entries) =>
      let kwds := PyDict entries in
      let value :=
        match alias fs with
        | Some (PyList aliases) => first_alias kwds aliases
        | _ => None
        end in
      match value with
      | Some v => Some v
      | None => PyDict_GetItem kwds (field_name fs)
      end
  | _ => None
  end.

(** *** DataModel_init: defaults (lines 192-212)

    [inl value] is the value to validate, [inr tt] is the [continue] taken
    after an error was recorded. *)
Definition resolve_missing (fs : FieldSchema) : M (PyObject + unit) :=
  let field_path := field_name_c fs in
  if negb (ptr_eqb (default_factory fs) Py_None)
     && PyCallable_Check (default_factory fs) then
    value ← call_function (default_factory fs) [];
    match value with
    | Some v => mret (inl v)
    | None =>
        record_error field_path
          "Missing required field and default factory call failed";;
        mret (inr tt)
    end
  else if negb (ptr_eqb (default_value fs) VLDTUndefined) then
    mret (inl (default_value fs))
  else if is_optional (type_schema fs) then mret (inl Py_None)
  else record_error field_path "Missing required field";; mret (inr tt).

(** *** DataModel_init: validating and storing (lines 214-232)

    On failure the value that was to be validated is stored as it is. *)
Definition validate_field (deserializers : option Deserializers)
    (data : InstanceData) (fs : FieldSchema) (value : PyObject) : M InstanceData :=
  let field_path := field_name_c fs in
  new_value ← validate_and_convert value (type_schema fs) field_path deserializers;
  match new_value with
  | None => mret (<[field_path := value]> data)
  | Some new_value => mret (<[field_path := new_value]> data)
  end.

(** *** DataModel_init: one iteration of the field loop (lines 167-233) *)
Definition init_field (deserializers : option Deserializers)
    (kwds : option PyObject) (data : InstanceData) (fs : FieldSchema)
    : M InstanceData :=
  resolved ← match resolve_input kwds fs with
             | Some value => mret (inl value)
             | None => resolve_missing fs
             end;
  match resolved with
  | inr _ => mret data
  | inl value => validate_field deserializers data fs value
  end.

(** The whole [for] loop. *)
Fixpoint init_fields (deserializers : option Deserializers)
    (kwds : option PyObject) (data : InstanceData) (fs : list FieldSchema)
    : M InstanceData :=
  match fs with
  | [] => mret data
  | f :: rest =>
      data' ← init_field deserializers kwds data f;
      init_fields deserializers kwds data' rest
  end.

End DataModel.

(** ** validation_validators.cpp and the whole of DataModel_init

    [kwds] is a nullable pointer to a dict that is updated in place, by the
    stages and by the model-before validators it is handed to; the updated
    dict is handed on explicitly.  What a validator does to [self] other
    than through its return value is not modelled. *)

Section Construction.
Context `{Host}.

Definition get_callable_validator (validator : PyObject) : option PyObject :=
  if PyCallable_Check validator then Some validator
  else
    match PyObject_GetAttrString validator "__func__" with
    | Some func => if PyCallable_Check func then Some func else None
    | None => None
    end.

(** [PyDict_Update(a, b)] on two dicts. *)
Fixpoint PyDict_Update (a b : list (PyObject * PyObject))
    : option (list (PyObject * PyObject)) :=
  match b with
  | [] => Some a
  | (k, v) :: rest =>
      match PyDict_SetItem a k v with
      | Some a' => PyDict_Update a' rest
      | None => None
      end
  end.

(** A null [target] ends the argument list of
    [PyObject_CallFunctionObjArgs] early. *)
Definition varargs (front : list PyObject) (target : option PyObject) : list PyObject :=
  match target with
  | Some t => (front ++ [t])%list
  | None => front
  end.

(** [target] once [f(arguments...)] is over: the validator was handed the
    dict itself. *)
Definition updated_in_place (f : PyObject) (arguments : list PyObject)
    (target : option PyObject) : option PyObject :=
  match target with
  | Some (PyDict entries) => Some (PyDict (dict_after_call f arguments entries))
  | other => other
  end.

Fixpoint run_model_validators (cls : PyObject) (validator_list : list PyObject)
    (target : option PyObject) (call_with_cls : bool) : M (Z * option PyObject) :=
  match validator_list with
  | [] => mret (0, target)
  | validator :: rest =>
      match get_callable_validator validator with
      | None => run_model_validators cls rest target call_with_cls
      | Some callable_validator =>
          let arguments := varargs (if call_with_cls then [cls] else []) target in
          result ← call_function callable_validator arguments;
          let target := updated_in_place callable_validator arguments target in
          match result with
          | None => mret (-1, target)
          | Some (PyDict updates) =>
              if call_with_cls then
                match target with
                | Some (PyDict entries) =>
                    match PyDict_Update entries updates with
                    | Some entries' =>
                        run_model_validators cls rest (Some (PyDict entries'))
                          call_with_cls
                    | None => PyErr_Set PyExc_FromHost;; mret (-1, target)
                    end
                | _ => PyErr_Set PyExc_FromHost;; mret (-1, target)
                end
              else run_model_validators cls rest target call_with_cls
          | Some _ => run_model_validators cls rest target call_with_cls
          end
      end
  end.

(** The chain of validators of one field: each gets [(cls, current_value)]
    and its result is the next [current_value]. *)
Fixpoint run_chain (cls : PyObject) (chain : list PyObject)
    (current_value : PyObject) : M (option PyObject) :=
  match chain with
  | [] => mret (Some current_value)
  | validator :: rest =>
      match get_callable_validator validator with
      | Some callable_validator =>
          new_value ← call_function callable_validator [cls; current_value];
          match new_value with
          | None => mret None
          | Some v => run_chain cls rest v
          end
      | None => run_chain cls rest current_value
      end
  end.

Fixpoint field_before_loop (cls : PyObject)
    (field_before : list (PyObject * PyObject)) (kwds : option PyObject)
    : M (Z * option PyObject) :=
  match field_before with
  | [] => mret (0, kwds)
  | (key, val) :: rest =>
      match kwds with
      | Some (PyDict entries) =>
          match PyDict_GetItem (PyDict entries) key with
          | None => field_before_loop cls rest kwds
          | Some current_value =>
              validated ← match val with
                          | PyList chain => run_chain cls chain current_value
                          | _ => mret (Some current_value)
                          end;
              match validated with
              | None => mret (-1, kwds)
              | Some v =>
                  match PyDict_SetItem entries key v with
                  | Some entries' =>
                      field_before_loop cls rest (Some (PyDict entries'))
                  | None => PyErr_Set PyExc_FromHost;; mret (-1, kwds)
                  end
              end
          end
      | _ => PyErr_Set Fault;; mret (-1, kwds)
      end
  end.

Definition run_field_before_validators (schema : SchemaCache) (cls : PyObject)
    (kwds : option PyObject) : M (Z * option PyObject) :=
  if negb (has_field_before schema) then mret (0, kwds)
  else
    match PyDict_GetItem (validators schema) (PyUnicode "field_before") with
    | Some (PyDict field_before) => field_before_loop cls field_before kwds
    | _ => mret (0, kwds)
    end.

Definition run_model_before_validators (schema : SchemaCache) (cls : PyObject)
    (kwds : option PyObject) : M (Z * option PyObject) :=
  if negb (has_model_before schema) then mret (0, kwds)
  else
    match PyDict_GetItem (validators schema) (PyUnicode "model_before") with
    | Some (PyList model_before) => run_model_validators cls model_before kwds true
    | _ => mret (0, kwds)
    end.

Fixpoint field_after_loop (schema : SchemaCache) (cls : PyObject)
    (field_after : list (PyObject * PyObject)) (data : InstanceData)
    : M (Z * InstanceData) :=
  match field_after with
  | [] => mret (0, data)
  | (key, val) :: rest =>
      match key, val with
      | PyUnicode name, PyList chain =>
          match DataModel_getattro cls data name with
          | Some current_value =>
              validated ← run_chain cls chain current_value;
              match validated with
              | None => mret (-1, data)
              | Some v =>
                  '(status, data') ← DataModel_setattro (Some schema) data name v;
                  if Z.ltb status 0 then mret (-1, data')
                  else field_after_loop schema cls rest data'
              end
          | None => field_after_loop schema cls rest data
          end
      | _, _ => field_after_loop schema cls rest data
      end
  end.

Definition run_field_after_validators (schema : SchemaCache) (cls : PyObject)
    (data : InstanceData) : M (Z * InstanceData) :=
  if negb (has_field_after schema) then mret (0, data)
  else
    match PyDict_GetItem (validators schema) (PyUnicode "field_after") with
    | Some (PyDict field_after) => field_after_loop schema cls field_after data
    | _ => mret (0, data)
    end.

(** [static_cast<int>(PyLong_AsLong(obj))]. *)
Definition int_of_long (n : Z) : Z :=
  let as_long := if Z.leb (- 2 ^ 63) n && Z.ltb n (2 ^ 63) then n else -1 in
  (as_long + 2 ^ 31) mod 2 ^ 32 - 2 ^ 31.

Definition co_argcount (validator : PyObject) : Z :=
  match PyObject_GetAttrString validator "__code__" with
  | Some code =>
      match PyObject_GetAttrString code "co_argcount" with
      | Some (PyLong n) => int_of_long n
      | Some (PyBool b) => if b then 1 else 0
      | _ => 0
      end
  | None => 0
  end.

Fixpoint model_after_loop (cls self : PyObject) (model_after : list PyObject) : M Z :=
  match model_after with
  | [] => mret 0
  | validator :: rest =>
      match get_callable_validator validator with
      | None => model_after_loop cls self rest
      | Some callable_validator =>
          result ← call_function callable_validator
                     (if Z.eqb (co_argcount validator) 1 then [self] else [cls; self]);
          match result with
          | None => mret (-1)
          | Some _ => model_after_loop cls self rest
          end
      end
  end.

Definition run_model_after_validators (schema : SchemaCache) (cls : PyObject)
    (data : InstanceData) : M Z :=
  if negb (has_model_after schema) then mret 0
  else
    match PyDict_GetItem (validators schema) (PyUnicode "model_after") with
    | Some (PyList model_after) => model_after_loop cls (self_object cls data) model_after
    | _ => mret 0
    end.

(** [schema] is what [get_schema_cached(cls)] gave; [data] is
    [self->instance_data->fields] on entry.  The result is the C return
    value and [fields] on exit. *)
Definition DataModel_init (schema : option SchemaCache) (cls : PyObject)
    (data : InstanceData) (kwds : option PyObject) : M (Z * InstanceData) :=
  match schema with
  | None =>
      PyErr_Set (PyExc_TypeError "Could not compile model schema");;
      mret (-1, data)
  | Some schema =>
      '(status, kwds) ← run_model_before_validators schema cls kwds;
      if negb (Z.eqb status 0) then mret (-1, data)
      else
        '(status, kwds) ← run_field_before_validators schema cls kwds;
        if negb (Z.eqb status 0) then mret (-1, data)
        else
          '(data, collector) ←
             with_local_collector
               (init_fields (deserializers schema) kwds data (fields schema));
          if ErrorCollector.has_errors collector then
            PyErr_Set (PyExc_TypeError (to_json collector));;
            mret (-1, data)
          else
            '(status, data) ← run_field_after_validators schema cls data;
            if negb (Z.eqb status 0) then mret (-1, data)
            else
              status ← run_model_after_validators schema cls data;
              if negb (Z.eqb status 0) then mret (-1, data)
              else mret (0, data)
  end.

(** Calling the class, as CPython does: [DataModel_new] allocates empty
    instance data, [type_call] drops the object when [DataModel_init]
    returns -1, and the check of the call's result turns an object that
    comes with an exception pending into a [SystemError]. *)
Definition DataModel_call (schema : option SchemaCache) (cls : PyObject)
    (kwds : option PyObject) : M (option InstanceData) :=
  '(status, data) ← DataModel_init schema cls ∅ kwds;
  if Z.ltb status 0 then mret None
  else
    pending ← PyErr_Occurred;
    match pending with
    | Some _ =>
        PyErr_Set (PyExc_SystemError
                     (PyObject_Repr cls ++ " returned a result with an exception set"));;
        mret None
    | None => mret (Some data)
    end.

End Construction.

(** ** A reference host

    One interpretation of [Host], used to run the engine on concrete
    inputs.  It answers as CPython does for the built-in classes [int],
    [float], [str], [bool], [list], [tuple], [set] and [dict] applied to
    [None], booleans, integers, floats, strings of decimal digits with an
    optional sign, and lists, tuples, sets and dicts of those.  It has no
    user classes and no functions.  Of floats it knows the encoding,
    truncation and the conversion from integers, not how they are printed
    or parsed: [str] of a float and [float] of a string with a fraction
    are not among its inputs.  Its writer renders as rapidjson's
    [PrettyWriter] does for ASCII text. *)

Module RefHost.

Definition digit_of (c : ascii) : option Z :=
  let n := Z.of_nat (nat_of_ascii c) in
  if Z.leb 48 n && Z.leb n 57 then Some (n - 48) else None.

Fixpoint parse_digits (s : string) (acc : Z) : option Z :=
  match s with
  | EmptyString => Some acc
  | String c rest =>
      match digit_of c with
      | Some d => parse_digits rest (10 * acc + d)
      | None => None
      end
  end.

Definition parse_int (s : string) : option Z :=
  match s with
  | EmptyString => None
  | String "-" (String c rest) => Z.opp <$> parse_digits (String c rest) 0
  | String "+" (String c rest) => parse_digits (String c rest) 0
  | String "-" EmptyString | String "+" EmptyString => None
  | _ => parse_digits s 0
  end.

Definition str_of_int (n : Z) : string :=
  if Z.ltb n 0 then "-" ++ fmt_zd (Z.to_nat (- n)) else fmt_zd (Z.to_nat n).

Definition isinstance_of_class (v : PyObject) (n : string) : Z :=
  let yes (b : bool) : Z := if b then 1 else 0 in
  if bool_decide (n = "object") then 1
  else if bool_decide (n = "int") then yes (PyLong_Check v)
  else if bool_decide (n = "bool") then yes (PyBool_Check v)
  else if bool_decide (n = "float") then yes (PyFloat_Check v)
  else if bool_decide (n = "str") then yes (PyUnicode_Check v)
  else if bool_decide (n = "list") || bool_decide (n = "List")
  then yes (PyList_Check v)
  else if bool_decide (n = "tuple") || bool_decide (n = "Tuple")
  then yes (PyTuple_Check v)
  else if bool_decide (n = "set") || bool_decide (n = "Set")
  then yes (PySet_Check v)
  else if bool_decide (n = "dict") || bool_decide (n = "Dict")
  then yes (PyDict_Check v)
  else if bool_decide (n = "NoneType") then yes (ptr_eqb v Py_None)
  else if bool_decide (n = "type") then yes (PyType_Check v)
  else if bool_decide (n = "Any") || bool_decide (n = "Union")
          || bool_decide (n = "ClassVar") || bool_decide (n = "Literal")
  then -1
  else yes (ptr_eqb (Py_TYPE v) (PyClass n)).

(** [isinstance(v, t)]: an unsubscripted generic answers for its origin, a
    special form and anything that is no class raise [TypeError]. *)
Definition isinstance (v t : PyObject) : Z :=
  match t with
  | PyClass n | PyGeneric (PyClass n) => isinstance_of_class v n
  | _ => -1
  end.

Definition issubclass (a b : PyObject) : Z :=
  match a, b with
  | PyClass x, PyClass y =>
      if bool_decide (x = y) || bool_decide (y = "object")
         || (bool_decide (x = "bool") && bool_decide (y = "int"))
      then 1 else 0
  | _, _ => -1
  end.

(** A float is the 64 bits of its IEEE 754 binary64 encoding. *)
Definition float_sign (bits : Z) : bool := Z.testbit bits 63.
Definition float_exponent (bits : Z) : Z := Z.land (Z.shiftr bits 52) 2047.
Definition float_fraction (bits : Z) : Z := Z.land bits (2 ^ 52 - 1).

(** [int(x)] of a float: truncation towards zero; [None] for an infinity
    or a NaN. *)
Definition int_of_float (bits : Z) : option Z :=
  let e := float_exponent bits in
  let f := float_fraction bits in
  if Z.eqb e 2047 then None
  else
    let magnitude :=
      if Z.eqb e 0 then 0
      else if Z.leb 1075 e then Z.shiftl (2 ^ 52 + f) (e - 1075)
      else Z.shiftr (2 ^ 52 + f) (1075 - e) in
    Some (if float_sign bits then - magnitude else magnitude).

(** [float(n)] of an integer: rounding to nearest, ties to even; [None]
    is [OverflowError]. *)
Definition float_of_int (n : Z) : option Z :=
  let m := Z.abs n in
  let sign := if Z.ltb n 0 then 2 ^ 63 else 0 in
  if Z.eqb m 0 then Some 0
  else
    let k := Z.log2 m in
    let '(q, e) :=
      if Z.leb k 52 then (Z.shiftl m (52 - k), k)
      else
        let s := k - 52 in
        let q := Z.shiftr m s in
        let r := Z.land m (2 ^ s - 1) in
        let half := 2 ^ (s - 1) in
        let up := Z.ltb half r || (Z.eqb r half && Z.odd q) in
        let q := if up then q + 1 else q in
        if Z.eqb q (2 ^ 53) then (2 ^ 52, k + 1) else (q, k) in
    if Z.leb 1024 e then None
    else Some (sign + Z.shiftl (e + 1023) 52 + (q - 2 ^ 52)).

Definition truthy (v : PyObject) : bool :=
  match v with
  | Py_None => false
  | PyBool b => b
  | PyLong n => negb (Z.eqb n 0)
  | PyFloat bits => negb (Z.eqb (Z.land bits (2 ^ 63 - 1)) 0)
  | PyUnicode s => negb (bool_decide (s = ""))
  | PyList l | PyTuple l | PySet l => negb (bool_decide (List.length l = 0%nat))
  | PyDict d => negb (bool_decide (List.length d = 0%nat))
  | _ => true
  end.

Definition int_of_bool (b : bool) : Z := if b then 1 else 0.

Fixpoint py_eq (a b : PyObject) {struct a} : bool :=
  let all2 :=
    fix all2 (l m : list PyObject) {struct l} : bool :=
      match l, m with
      | [], [] => true
      | x :: l', y :: m' => py_eq x y && all2 l' m'
      | _, _ => false
      end in
  match a, b with
  | Py_None, Py_None => true
  | PyBool x, PyBool y => Bool.eqb x y
  | PyBool x, PyLong n | PyLong n, PyBool x => Z.eqb n (int_of_bool x)
  | PyLong n, PyLong m => Z.eqb n m
  | PyFloat x, PyFloat y => Z.eqb x y
  | PyUnicode s, PyUnicode u => bool_decide (s = u)
  | PyTuple l, PyTuple m => all2 l m
  | PyList l, PyList m => all2 l m
  | PyClass x, PyClass y => bool_decide (x = y)
  | PyFunction x, PyFunction y => bool_decide (x = y)
  | VLDTUndefined, VLDTUndefined => true
  | _, _ => false
  end.

Fixpoint hashable (v : PyObject) : bool :=
  match v with
  | PyList _ | PySet _ | PyDict _ => false
  | PyTuple l => forallb hashable l
  | _ => true
  end.

Fixpoint join (sep : string) (l : list string) : string :=
  match l with
  | [] => ""
  | [x] => x
  | x :: rest => x ++ sep ++ join sep rest
  end.

(** [repr(v)], for text without quotes, backslashes and control
    characters. *)
Fixpoint repr (v : PyObject) : string :=
  match v with
  | PyUnicode s => "'" ++ s ++ "'"
  | PyLong n => str_of_int n
  | PyBool b => if b then "True" else "False"
  | Py_None => "None"
  | PyList l => "[" ++ join ", " (List.map repr l) ++ "]"
  | PyTuple [x] => "(" ++ repr x ++ ",)"
  | PyTuple l => "(" ++ join ", " (List.map repr l) ++ ")"
  | PySet [] => "set()"
  | PySet l => "{" ++ join ", " (List.map repr l) ++ "}"
  | PyDict d =>
      "{" ++ join ", " (List.map (fun e => repr (fst e) ++ ": " ++ repr (snd e)) d)
      ++ "}"
  | PyClass n => "<class '" ++ n ++ "'>"
  | _ => "<" ++ safe_type_name v ++ " object>"
  end.

(** What [repr] renders as CPython does: no float and no object that
    prints with its address is inside. *)
Fixpoint printable (v : PyObject) : bool :=
  match v with
  | Py_None | PyBool _ | PyLong _ | PyUnicode _ | PyClass _ => true
  | PyList l | PyTuple l | PySet l => forallb printable l
  | PyDict d => forallb (fun e => printable (fst e) && printable (snd e)) d
  | _ => false
  end.

Definition chars (s : string) : list PyObject :=
  List.map (fun c => PyUnicode (String c EmptyString)) (list_ascii_of_string s).

(** The items [list(v)], [tuple(v)] and [set(v)] iterate over. *)
Definition iterate (v : PyObject) : option (list PyObject) :=
  match v with
  | PyList l | PyTuple l | PySet l => Some l
  | PyDict d => Some (List.map fst d)
  | PyUnicode s => Some (chars s)
  | _ => None
  end.

(** [set.add] over a list of items; [None] is an unhashable item. *)
Fixpoint set_of (items acc : list PyObject) : option (list PyObject) :=
  match items with
  | [] => Some acc
  | x :: rest =>
      if hashable x then
        set_of rest (if existsb (fun y => py_eq y x) acc then acc
                     else (acc ++ [x])%list)
      else None
  end.

Definition call (f : PyObject) (arguments : list PyObject) : option PyObject :=
  match f, arguments with
  | PyClass n, [v] =>
      if bool_decide (n = "int") then
        match v with
        | PyLong k => Some (PyLong k)
        | PyBool b => Some (PyLong (if b then 1 else 0))
        | PyFloat bits => PyLong <$> int_of_float bits
        | PyUnicode s => PyLong <$> parse_int s
        | _ => None
        end
      else if bool_decide (n = "float") then
        match v with
        | PyFloat bits => Some (PyFloat bits)
        | PyLong k => PyFloat <$> float_of_int k
        | PyBool b => PyFloat <$> float_of_int (int_of_bool b)
        | PyUnicode s => PyFloat <$> (parse_int s ≫= float_of_int)
        | _ => None
        end
      else if bool_decide (n = "str") then
        match v with
        | PyUnicode s => Some (PyUnicode s)
        | _ => if printable v then Some (PyUnicode (repr v)) else None
        end
      else if bool_decide (n = "bool") then Some (PyBool (truthy v))
      else if bool_decide (n = "list") then PyList <$> iterate v
      else if bool_decide (n = "tuple") then PyTuple <$> iterate v
      else if bool_decide (n = "set") then
        PySet <$> (iterate v ≫= fun items => set_of items [])
      else if bool_decide (n = "dict") then
        match v with
        | PyDict d => Some (PyDict d)
        | _ => None
        end
      else None
  | PyClass n, [] =>
      if bool_decide (n = "int") then Some (PyLong 0)
      else if bool_decide (n = "float") then Some (PyFloat 0)
      else if bool_decide (n = "str") then Some (PyUnicode "")
      else if bool_decide (n = "bool") then Some (PyBool false)
      else if bool_decide (n = "list") then Some (PyList [])
      else if bool_decide (n = "tuple") then Some (PyTuple [])
      else if bool_decide (n = "dict") then Some (PyDict [])
      else if bool_decide (n = "set") then Some (PySet [])
      else None
  | _, _ => None
  end.

Definition nl : string := String (ascii_of_nat 10) EmptyString.

Fixpoint spaces (n : nat) : string :=
  match n with O => "" | S n' => " " ++ spaces n' end.

Definition dquote : ascii := ascii_of_nat 34.
Definition backslash : ascii := ascii_of_nat 92.

Definition escape_char (c : ascii) : string :=
  if decide (c = dquote) then String backslash (String dquote EmptyString)
  else if decide (c = backslash) then String backslash (String backslash EmptyString)
  else if decide (c = ascii_of_nat 10) then String backslash "n"
  else if decide (c = ascii_of_nat 13) then String backslash "r"
  else if decide (c = ascii_of_nat 9) then String backslash "t"
  else String c EmptyString.

Fixpoint escape (s : string) : string :=
  match s with
  | EmptyString => EmptyString
  | String c rest => escape_char c ++ escape rest
  end.

Definition quote (s : string) : string :=
  String dquote (escape s ++ String dquote EmptyString).

Fixpoint write_value (level : nat) (v : JValue) {struct v} : string :=
  match v with
  | JNull => "null"
  | JBool b => if b then "true" else "false"
  | JNumber lexeme => lexeme
  | JString s => quote s
  | JArray [] => "[]"
  | JArray elems =>
      "[" ++ nl ++
      join ("," ++ nl)
        (map (fun e => spaces (2 * S level) ++ write_value (S level) e) elems) ++
      nl ++ spaces (2 * level) ++ "]"
  | JObject [] => "{}"
  | JObject members =>
      "{" ++ nl ++
      join ("," ++ nl)
        (map (fun m => spaces (2 * S level) ++ quote (fst m) ++ ": " ++
                       write_value (S level) (snd m)) members) ++
      nl ++ spaces (2 * level) ++ "}"
  end.

End RefHost.

Definition ref_host : Host := {|
  PyObject_IsInstance := RefHost.isinstance;
  PyObject_IsSubclass := RefHost.issubclass;
  PyObject_CallFunctionObjArgs := RefHost.call;
  dict_after_call := fun _ _ entries => entries;
  PyObject_Call := fun _ _ => inr "object is not a model class";
  PyCallable_Check :=
    fun o =>
      match o with
      | PyClass _ | PyFunction _ | PyAlias _ _ | PyGeneric _ => true
      | _ => false
      end;
  PyObject_RichCompareBool_EQ := RefHost.py_eq;
  PyObject_Hashable := RefHost.hashable;
  PyObject_Repr := RefHost.repr;
  PyObject_GetAttrString := fun _ _ => None;
  PyObject_GenericGetAttr := fun _ _ => None;
  rapidjson_Parse := fun _ => None;
  rapidjson_Write := fun d => RefHost.write_value 0 (JObject d);
|}.

(** The world before the first call. *)
Definition world0 : World := mkWorld ErrorCollector.new None [].

(** * Vocabulary of the properties *)

(** The messages a run of [add_error] calls sent to [path], oldest first. *)
Definition messages_for (path : string) (es : list (string * string)) : list string :=
  List.map snd (List.filter (fun e => bool_decide (fst e = path)) es).

(** How a collector holds the messages of one path: nothing, a scalar, or
    an array in the order of arrival. *)
Definition stored_form (ms : list string) : option JValue :=
  match ms with
  | [] => None
  | [m] => Some (JString m)
  | _ => Some (JArray (List.map JString ms))
  end.

(** The messages under [path], whichever form they are in. *)
Definition recorded (c : ErrorCollector.t) (path : string) : list JValue :=
  match ErrorCollector.entry c path with
  | None => []
  | Some (JArray l) => l
  | Some v => [v]
  end.

(** An int position: what [compile_type_schema] makes of [int]. *)
Definition int_position (ts : TypeSchema) : Prop :=
  expected_type ts = IntType /\ origin ts = Py_None /\ container_kind ts = CK_NONE.

(** The key of a field is nowhere in the input: not under an alias, not
    under the canonical name. *)
Definition absent_everywhere `{Host} (kwds : option PyObject) (fs : FieldSchema) : Prop :=
  match kwds with
  | Some (PyDict entries) =>
      (forall aliases, alias fs = Some (PyList aliases) ->
         Forall (fun a => PyDict_GetItem (PyDict entries) a = None) aliases)
      /\ PyDict_GetItem (PyDict entries) (field_name fs) = None
  | _ => True
  end.

(** A default factory is declared. *)
Definition has_factory `{Host} (fs : FieldSchema) : bool :=
  negb (ptr_eqb (default_factory fs) Py_None) && PyCallable_Check (default_factory fs).

(** A fixed default value is declared. *)
Definition has_default (fs : FieldSchema) : bool :=
  negb (ptr_eqb (default_value fs) VLDTUndefined).

(** The world after [f] was called with [arguments]. *)
Definition after_call `{Host} (f : PyObject) (arguments : list PyObject) (w : World) : World :=
  snd (call_function f arguments w).

(** The world after an error was recorded. *)
Definition with_error (path message : string) (w : World) : World :=
  mkWorld (ErrorCollector.add_error path message (collector w))
          (err_indicator w) (call_log w).

(** The world a scratch collector is run in, and the world once it is
    dropped again. *)
Definition scratch (w : World) : World :=
  mkWorld ErrorCollector.new (err_indicator w) (call_log w).

Definition restore (w w' : World) : World :=
  mkWorld (collector w) (err_indicator w') (call_log w').

Definition cleared (w : World) : World :=
  mkWorld (collector w) None (call_log w).

(** Every candidate of the list, tried in order from world [w], fails to
    convert [value]; [w'] is the world after the last one. *)
Inductive all_fail `{Host} (value : PyObject) (error_path : string)
    (deserializers : option Deserializers) : list TypeSchema -> World -> World -> Prop :=
| all_fail_nil w : all_fail value error_path deserializers [] w w
| all_fail_cons c cs w w1 w2 :
    validate_and_convert value c error_path deserializers w = (None, w1) ->
    all_fail value error_path deserializers cs (cleared w1) w2 ->
    all_fail value error_path deserializers (c :: cs) w w2.

Definition Union_ (alternatives : list PyObject) : PyObject :=
  PyAlias UnionType alternatives.
Definition List_ (element : PyObject) : PyObject := PyAlias PyList_Type [element].
Definition Set_ (element : PyObject) : PyObject := PyAlias PySet_Type [element].

(** What [compile_type_schema] makes of a class that is not a model. *)
Definition plain_schema (t : PyObject) : TypeSchema :=
  mkTypeSchema t Py_None [] false false CK_NONE None.

Definition int_schema : TypeSchema := plain_schema IntType.

(** A list position over the element schema [elem]. *)
Definition list_position (ts elem : TypeSchema) : Prop :=
  container_kind ts = CK_LIST /\ args ts = [elem]
  /\ ptr_eqb (expected_type ts) AnyType = false.

(** [List[int]], compiled. *)
Definition list_int_schema : TypeSchema :=
  mkTypeSchema (List_ IntType) PyList_Type [int_schema] false false CK_LIST None.

(** The path of element [i] under [path]. *)
Definition index_path (path : string) (i : nat) : string := path ++ "." ++ fmt_zd i.

(** C2 as it is worded: every element of a [List[int]] input that does not
    validate as an int on its own has an error under its index once the list
    was validated. *)
Definition each_failing_element_reported `{Host} : Prop :=
  forall (items : list PyObject) (path : string) (i : nat) (x : PyObject),
    items !! i = Some x ->
    fst (validate_and_convert x int_schema (index_path path i) None world0) = None ->
    ErrorCollector.entry
      (collector (snd (validate_and_convert (PyList items) list_int_schema path
                         None world0)))
      (index_path path i) <> None.

(** *** The plain-value path, after the words of the specification

    The reference definition X21 compares [validate_plain] with.  It says
    what comes out, not how: the value as it is, a converted value, or a
    rejection with its message. *)
Inductive PlainOutcome : Type :=
| Unchanged
| Converted (result : PyObject)
| Rejected (message : string).

Definition instance_of `{Host} (value type : PyObject) : bool :=
  Z.eqb (PyObject_IsInstance value type) 1.

(** The four kinds with a coercion of their own: the test for the kind and
    its name. *)
Definition primitive_kind (declared : PyObject) : option ((PyObject -> bool) * string) :=
  if ptr_eqb declared IntType then Some (PyLong_Check, "int")
  else if ptr_eqb declared StrType then Some (PyUnicode_Check, "str")
  else if ptr_eqb declared FloatType then Some (PyFloat_Check, "float")
  else if ptr_eqb declared BoolType then Some (PyBool_Check, "bool")
  else None.

(** Call the constructor on the value and accept the result only if it
    passes [conforms]. *)
Definition construct `{Host} (conforms : PyObject -> bool) (ctor value : PyObject)
    (type_name : string) : PlainOutcome :=
  let rejected :=
    Rejected ("Expected type " ++ type_name ++ ", got " ++ safe_type_name value) in
  match PyObject_CallFunctionObjArgs ctor [value] with
  | Some c => if conforms c then Converted c else rejected
  | None => rejected
  end.

(** The function of the first entry of the registry whose key is the pair
    (declared type, runtime type of the value), as objects. *)
Definition registered (registry : option Deserializers) (declared value : PyObject)
    : option PyObject :=
  match registry with
  | Some d =>
      head (List.map snd
              (List.filter
                 (fun e => ptr_eqb (fst (fst e)) declared
                           && ptr_eqb (snd (fst e)) (Py_TYPE value))
                 d))
  | None => None
  end.

Definition plain_value_spec `{Host} (value declared : PyObject)
    (registry : option Deserializers) : PlainOutcome :=
  if instance_of value declared then Unchanged
  else
    let by_constructor :=
      match primitive_kind declared with
      | Some (is_kind, kind_name) =>
          if is_kind value then Unchanged
          else construct is_kind declared value kind_name
      | None =>
          construct (fun c => instance_of c declared) declared value
            (safe_type_name declared)
      end in
    match registered registry declared value with
    | Some deserializer =>
        match PyObject_CallFunctionObjArgs deserializer [value] with
        | Some d => if instance_of d declared then Converted d else by_constructor
        | None => by_constructor
        end
    | None => by_constructor
    end.

Definition result_of (value : PyObject) (o : PlainOutcome) : option PyObject :=
  match o with
  | Unchanged => Some value
  | Converted c => Some c
  | Rejected _ => None
  end.

Definition errors_of (path : string) (o : PlainOutcome) (c : ErrorCollector.t)
    : ErrorCollector.t :=
  match o with
  | Rejected message => ErrorCollector.add_error path message c
  | _ => c
  end.

(** The instance check against [type] always answers yes or no. *)
Definition decides_instances `{Host} (type : PyObject) : Prop :=
  forall x, PyObject_IsInstance x type = 0 \/ PyObject_IsInstance x type = 1.

(** The registry holds callables only, as [create_deserializers] builds
    it. *)
Definition holds_callables (registry : option Deserializers) : Prop :=
  forall d, registry = Some d -> Forall (fun e => snd e <> Py_None) d.

(** A required field: no factory, no default, and a type that is not
    optional. *)
Definition required `{Host} (fs : FieldSchema) : Prop :=
  has_factory fs = false /\ has_default fs = false
  /\ is_optional (type_schema fs) = false.

(** What a required field that is missing leaves in the collector. *)
Definition missing_entry (fs : FieldSchema) : string * JValue :=
  (field_name_c fs, JString "Missing required field").

(** The world in which a call raised [e]. *)
Definition raising (e : PyErr) (w : World) : World :=
  mkWorld (collector w) (Some e) (call_log w).

(** C9 as it is worded: whenever the validation run by an assignment fails,
    the exception raised is a [TypeError] whose message is the rendering of
    the errors that validation collected. *)
Definition assignment_failure_carries_tree `{Host} : Prop :=
  forall (schema : SchemaCache) (data : InstanceData) (name : string)
         (value expected : PyObject) (c : ErrorCollector.t) (w w1 : World),
    PyDict_GetItem (instance_annotations schema) (PyUnicode name) = Some expected ->
    is_class_var expected = false ->
    with_local_collector
      (validate_and_convert value (compile_type_schema expected) (c_str name)
         (deserializers schema)) w = ((None, c), w1) ->
    err_indicator (snd (DataModel_setattro (Some schema) data name value w))
    = Some (PyExc_TypeError (to_json c)).

(** A model with one field, [s : Set[list]], compiled on the reference
    host. *)
Definition set_of_lists_model : SchemaCache :=
  mkSchemaCache
    [mkFieldSchema (PyUnicode "s") "s" None VLDTUndefined Py_None
       (compile_type_schema (H := ref_host) (Set_ PyList_Type))]
    (PyDict [(PyUnicode "s", Set_ PyList_Type)]) Py_None
    false false false false None.

(** A required field of type [int]. *)
Definition required_int (name : string) : FieldSchema :=
  mkFieldSchema (PyUnicode name) name None VLDTUndefined Py_None int_schema.

(** A model with two required fields, [a : int] and [b : int], and no
    validators. *)
Definition two_required_model : SchemaCache :=
  mkSchemaCache [required_int "a"; required_int "b"]
    (PyDict [(PyUnicode "a", IntType); (PyUnicode "b", IntType)]) Py_None
    false false false false None.

Definition two_missing_errors : ErrorCollector.t :=
  ErrorCollector.mk
    (Some [("a", JString "Missing required field");
           ("b", JString "Missing required field")]).

(** A field [name : str] that may also be given as [nick] or [nickname]. *)
Definition aliased_field : FieldSchema :=
  mkFieldSchema (PyUnicode "name") "name"
    (Some (PyList [PyUnicode "nick"; PyUnicode "nickname"]))
    VLDTUndefined Py_None (plain_schema StrType).

(** *** Vocabulary of the further properties *)

(** What is held under a path, as a list. *)
Definition held (e : option JValue) : list JValue :=
  match e with
  | None => []
  | Some (JArray l) => l
  | Some v => [v]
  end.

(** [c'] has everything [c] has: every path of [c] is a path of [c'], and
    what [c] holds under a path is the beginning of what [c'] holds there. *)
Definition extends (c c' : ErrorCollector.t) : Prop :=
  forall path,
    (ErrorCollector.entry c path <> None -> ErrorCollector.entry c' path <> None)
    /\ list.prefix (recorded c path) (recorded c' path).

(** A sub-error payload that adds no member: an object without members. *)
Definition carries_nothing (subdoc : option JValue) : bool :=
  match subdoc with
  | Some (JObject []) => true
  | _ => false
  end.

(** The member of a sub-error as it is stored under [field]. *)
Definition under (field : string) (member : string * JValue) : string * JValue :=
  (field ++ "." ++ fst member, snd member).

(** [m] leaves the collector alone. *)
Definition silent {A : Type} (m : M A) : Prop :=
  forall w, collector (snd (m w)) = collector w.

(** [m] only ever adds to the collector, and adds nothing when it returns a
    result. *)
Definition grows_only {A : Type} (m : M (option A)) : Prop :=
  forall w,
    extends (collector w) (collector (snd (m w)))
    /\ (fst (m w) <> None -> collector (snd (m w)) = collector w).

(** [m] does not read [args] out of range unless that happened before. *)
Definition fault_free {A : Type} (m : M A) : Prop :=
  forall w, err_indicator w <> Some Fault -> err_indicator (snd (m w)) <> Some Fault.

(** [P] holds of a schema and of every schema below it. *)
#[warnings="-register-all"]
Inductive everywhere (P : TypeSchema -> Prop) : TypeSchema -> Prop :=
| everywhere_node ts :
    P ts -> Forall (everywhere P) (args ts) -> everywhere P ts.

(** The arguments a validator reads are there: a list node has its element
    schema, a dict node its key and value schemas, a set node its element
    schema. *)
Definition args_in_range (ts : TypeSchema) : Prop :=
  (container_kind ts = CK_LIST -> args ts <> [])
  /\ (container_kind ts = CK_DICT -> (2 <= List.length (args ts))%nat)
  /\ (container_kind ts = CK_SET -> args ts <> []).

(** What the compiler guarantees of each node it builds. *)
Definition compiled_shape (ts : TypeSchema) : Prop :=
  (container_kind ts = CK_LIST -> List.length (args ts) = 1%nat)
  /\ (container_kind ts = CK_DICT -> List.length (args ts) = 2%nat)
  /\ (origin ts = Py_None -> container_kind ts = CK_NONE)
  /\ (is_optional ts = true -> container_kind ts = CK_UNION)
  /\ (inner_model_type ts <> None -> container_kind ts <> CK_NONE).

(** The type arguments of a subscripted generic. *)
Definition type_args (t : PyObject) : list PyObject :=
  match t with
  | PyAlias _ a => a
  | _ => []
  end.

(** Every subscripted generic inside [t], and [t] itself, has at least
    one type argument. *)
#[warnings="-register-all"]
Inductive fully_subscripted : PyObject -> Prop :=
| fully_subscripted_node t :
    (forall o, t <> PyAlias o []) ->
    Forall fully_subscripted (type_args t) ->
    fully_subscripted t.

(** Every key of [data] is a key of [data']. *)
Definition keeps_fields (data data' : InstanceData) : Prop :=
  forall name, is_Some (data !! name) -> is_Some (data' !! name).

(** The keys of a dict, in insertion order. *)
Definition keys (entries : list (PyObject * PyObject)) : list PyObject :=
  List.map fst entries.

(** The entries of [kwds]; a null pointer has none. *)
Definition entries_of (kwds : option PyObject) : list (PyObject * PyObject) :=
  match kwds with
  | Some (PyDict entries) => entries
  | _ => []
  end.

(** The registrations a nested dict of deserializers lists, in iteration
    order: one per function, under the pair (outer key, inner key). *)
Definition registrations (outer : list (PyObject * PyObject)) : Deserializers :=
  List.concat
    (List.map
       (fun e =>
          match snd e with
          | PyDict inner => List.map (fun f => ((fst e, fst f), snd f)) inner
          | _ => []
          end)
       outer).

(** Every outer value is a dict, and every function in it is callable. *)
Definition dicts_of_callables `{Host} (outer : list (PyObject * PyObject)) : Prop :=
  Forall
    (fun e =>
       match snd e with
       | PyDict inner => Forall (fun f => PyCallable_Check (snd f) = true) inner
       | _ => False
       end)
    outer.

(** The descriptor's origin is taken for a union. *)
Definition union_origin `{Host} (o : PyObject) : Prop :=
  ptr_eqb (normalize_origin o) Py_None = false
  /\ PyObject_RichCompareBool_EQ (normalize_origin o) UnionType = true.

(** A tuple position: a tuple node that is not [Any]. *)
Definition tuple_position (ts : TypeSchema) : Prop :=
  container_kind ts = CK_TUPLE /\ ptr_eqb (expected_type ts) AnyType = false.

(** [Tuple[int, str]], compiled. *)
Definition tuple_int_str_schema : TypeSchema :=
  mkTypeSchema (PyAlias PyTuple_Type [IntType; StrType]) PyTuple_Type
    [int_schema; plain_schema StrType] false false CK_TUPLE None.



(** The type the first pass of a union checks an alternative against: its
    normalized origin when it has one, else its declared type. *)
Definition as_is_type (c : TypeSchema) : PyObject :=
  if ptr_eqb (origin c) Py_None then expected_type c else origin c.

(** [Literal[...]]: its origin is the special form [typing.Literal]. *)
Definition Literal_ (values : list PyObject) : PyObject :=
  PyAlias (PyClass "Literal") values.

(** A [NewType]: a callable that is no class. *)
Definition UserId : PyObject := PyFunction "UserId".

(* end of vocabulary *)

(** * Properties *)

(** ** The error collector *)

Section CollectorFacts.
Import ErrorCollector.

Lemma FindMember_update_same key f d :
  FindMember key (update_member key f d) = f <$> FindMember key d.
Proof.
  induction d as [|[k v] d IH]; simpl; [done|].
  destruct (decide (k = key)) as [->|Hne]; simpl.
  - by rewrite decide_True.
  - by rewrite decide_False.
Qed.

Lemma FindMember_update_other key key' f d :
  key' <> key -> FindMember key' (update_member key f d) = FindMember key' d.
Proof.
  intros Hne. induction d as [|[k v] d IH]; simpl; [done|].
  destruct (decide (k = key)) as [->|Hk]; simpl.
  - by rewrite !decide_False.
  - destruct (decide (k = key')); [done|apply IH].
Qed.

Lemma FindMember_snoc key key' v d :
  FindMember key' (d ++ [(key, v)])%list =
  match FindMember key' d with
  | Some e => Some e
  | None => if decide (key = key') then Some v else None
  end.
Proof.
  induction d as [|[k e] d IH]; simpl; [done|].
  destruct (decide (k = key')); [done|apply IH].
Qed.

Lemma FindMember_put_same key v d :
  FindMember key (put_value key v d) =
  Some match FindMember key d with
       | None => v
       | Some e => PushBack (if IsArray e then e else JArray [e]) v
       end.
Proof.
  unfold put_value, HasMember.
  destruct (FindMember key d) as [e|] eqn:E.
  - by rewrite FindMember_update_same, E.
  - by rewrite FindMember_snoc, E, decide_True.
Qed.

Lemma FindMember_put_other key key' v d :
  key' <> key -> FindMember key' (put_value key v d) = FindMember key' d.
Proof.
  intros Hne. unfold put_value, HasMember.
  destruct (FindMember key d) as [e|] eqn:E.
  - by apply FindMember_update_other.
  - rewrite FindMember_snoc. destruct (FindMember key' d); [done|].
    by rewrite decide_False.
Qed.

Lemma put_value_nonempty key v d : put_value key v d <> [].
Proof.
  unfold put_value, HasMember.
  destruct (FindMember key d) eqn:E.
  - destruct d as [|[k e] d]; [done|]. simpl. by destruct (decide (k = key)).
  - by destruct d.
Qed.

Lemma has_errors_add_error path message c :
  has_errors (add_error path message c) = true.
Proof.
  unfold has_errors, add_error; simpl.
  rewrite bool_decide_false; [done|apply put_value_nonempty].
Qed.

Lemma entry_add_error_same path message c :
  entry (add_error path message c) path =
  Some match entry c path with
       | None => JString message
       | Some e => PushBack (if IsArray e then e else JArray [e]) (JString message)
       end.
Proof. unfold entry, add_error; simpl. apply FindMember_put_same. Qed.

Lemma entry_add_error_other path path' message c :
  path' <> path -> entry (add_error path message c) path' = entry c path'.
Proof. intros. unfold entry, add_error; simpl. by apply FindMember_put_other. Qed.

End CollectorFacts.

Lemma stored_form_step ms m e :
  stored_form ms = e ->
  Some match e with
       | None => JString m
       | Some e => PushBack (if IsArray e then e else JArray [e]) (JString m)
       end = stored_form (ms ++ [m])%list.
Proof.
  intros <-. destruct ms as [|m1 [|m2 ms]]; simpl; [done..|].
  by rewrite List.map_app.
Qed.

Lemma entry_add_errors es : forall es0 c path,
  ErrorCollector.entry c path = stored_form (messages_for path es0) ->
  ErrorCollector.entry (ErrorCollector.add_errors es c) path =
  stored_form (messages_for path (es0 ++ es)%list).
Proof.
  induction es as [|[p m] es IH]; intros es0 c path Hc; simpl.
  - by rewrite app_nil_r.
  - replace (es0 ++ (p, m) :: es)%list with ((es0 ++ [(p, m)]) ++ es)%list
      by (by rewrite <- app_assoc).
    apply IH. unfold messages_for.
    rewrite List.filter_app, List.map_app; simpl.
    destruct (decide (p = path)) as [->|Hne].
    + rewrite bool_decide_true by done. simpl.
      rewrite entry_add_error_same. by apply stored_form_step.
    + rewrite bool_decide_false by done. simpl. rewrite app_nil_r.
      rewrite entry_add_error_other by done. exact Hc.
Qed.

Lemma has_errors_add_errors es : forall c,
  ErrorCollector.has_errors (ErrorCollector.add_errors es c) =
  ErrorCollector.has_errors c || negb (bool_decide (es = [])).
Proof.
  induction es as [|[p m] es IH]; intros c; simpl.
  - by rewrite orb_false_r.
  - rewrite IH, has_errors_add_error. simpl. by rewrite orb_true_r.
Qed.

(** C8.  [add_error] appends.  For any collector, a new message leaves what
    other paths hold untouched and goes to the end of what its own path
    holds; and after any run of [add_error] calls on a fresh collector, each
    path holds exactly the messages sent to it, in order -- a scalar for
    one, an array for two or more -- and [has_errors] is true exactly when
    the run is not empty. *)
Theorem add_error_appends (es : list (string * string)) (path : string) :
  (forall c p m,
      recorded (ErrorCollector.add_error p m c) p
      = (recorded c p ++ [JString m])%list
      /\ (forall p', p' <> p ->
            ErrorCollector.entry (ErrorCollector.add_error p m c) p'
            = ErrorCollector.entry c p'))
  /\ (forall m1 m2,
        ErrorCollector.entry
          (ErrorCollector.add_error path m2
             (ErrorCollector.add_error path m1 ErrorCollector.new)) path
        = Some (JArray [JString m1; JString m2])
        /\ ErrorCollector.entry
             (ErrorCollector.add_error path m1 ErrorCollector.new) path
           = Some (JString m1))
  /\ ErrorCollector.entry (ErrorCollector.add_errors es ErrorCollector.new) path
     = stored_form (messages_for path es)
  /\ ErrorCollector.has_errors (ErrorCollector.add_errors es ErrorCollector.new)
     = negb (bool_decide (es = [])).
Proof.
  split; [|split; [|split]].
  - intros c p m. split.
    + unfold recorded. rewrite entry_add_error_same.
      destruct (ErrorCollector.entry c p) as [[]|]; done.
    + intros p' Hne. by apply entry_add_error_other.
  - intros m1 m2. by rewrite !entry_add_error_same.
  - by apply (entry_add_errors es [] ErrorCollector.new path).
  - by rewrite has_errors_add_errors.
Qed.

(** ** Running the monad *)

Ltac run_m := unfold mbind, mret, M_bind, M_ret in *.

Section EngineFacts.
Context `{Host}.

Lemma is_instance_yes value type w :
  PyObject_IsInstance value type = 1 -> is_instance value type w = (1, w).
Proof. intros E. unfold is_instance. by rewrite E. Qed.

Lemma is_instance_no value type w :
  PyObject_IsInstance value type = 0 -> is_instance value type w = (0, w).
Proof. intros E. unfold is_instance. by rewrite E. Qed.

(** ** Booleans at an int position *)

(** C10.  At an int position a boolean validates and comes back as the same
    boolean, with nothing recorded and nothing called: [validate_plain]
    returns it at the instance check, bool being a subclass of int, and
    [validate_int] would return it at [PyLong_Check]. *)
Theorem bool_passes_int (b : bool) (ts : TypeSchema) (error_path : string)
    (deserializers : option Deserializers) (w : World) :
  int_position ts ->
  PyObject_IsInstance (PyBool b) IntType = 1 ->
  validate_and_convert (PyBool b) ts error_path deserializers w
  = (Some (PyBool b), w)
  /\ validate_plain (PyBool b) ts error_path deserializers w = (Some (PyBool b), w)
  /\ validate_int (PyBool b) error_path w = (Some (PyBool b), w).
Proof.
  intros (Hty & Hor & Hck) Hinst.
  assert (Hplain : validate_plain (PyBool b) ts error_path deserializers w
                   = (Some (PyBool b), w)).
  { unfold validate_plain. run_m. rewrite Hty, (is_instance_yes _ _ _ Hinst). done. }
  split; [|split; [exact Hplain|done]].
  destruct ts as [ety o a dm opt ck inner]; simpl in *; subst.
  rewrite andb_false_r. simpl. exact Hplain.
Qed.

(** ** Resolving a field's input *)

Lemma first_alias_hit kwds pre a post v :
  Forall (fun b => PyDict_GetItem kwds b = None) pre ->
  PyDict_GetItem kwds a = Some v ->
  first_alias kwds (pre ++ a :: post) = Some v.
Proof.
  intros Hpre Ha. induction Hpre as [|b pre Hb _ IH]; simpl.
  - by rewrite Ha.
  - by rewrite Hb.
Qed.

Lemma first_alias_miss kwds aliases :
  Forall (fun b => PyDict_GetItem kwds b = None) aliases ->
  first_alias kwds aliases = None.
Proof. induction 1 as [|b l Hb _ IH]; simpl; [done|by rewrite Hb]. Qed.

(** C6.  Aliases come first, in the order declared, and the canonical name
    last: the value under the first alias that is a key of the input is the
    field's input whether or not the canonical name is a key too, and the
    canonical name is looked up only when no alias is a key. *)
Theorem alias_before_canonical (entries : list (PyObject * PyObject))
    (fs : FieldSchema) (aliases : list PyObject) :
  alias fs = Some (PyList aliases) ->
  (forall pre a post v,
      aliases = (pre ++ a :: post)%list ->
      Forall (fun b => PyDict_GetItem (PyDict entries) b = None) pre ->
      PyDict_GetItem (PyDict entries) a = Some v ->
      resolve_input (Some (PyDict entries)) fs = Some v)
  /\ (Forall (fun b => PyDict_GetItem (PyDict entries) b = None) aliases ->
      resolve_input (Some (PyDict entries)) fs
      = PyDict_GetItem (PyDict entries) (field_name fs)).
Proof.
  intros Halias. unfold resolve_input. rewrite Halias. split.
  - intros pre a post v -> Hpre Ha. by rewrite (first_alias_hit _ _ _ _ _ Hpre Ha).
  - intros Hall. by rewrite (first_alias_miss _ _ Hall).
Qed.

Lemma absent_everywhere_resolve kwds fs :
  absent_everywhere kwds fs -> resolve_input kwds fs = None.
Proof.
  unfold absent_everywhere, resolve_input.
  destruct kwds as [[]|]; try done.
  intros [Hal Hcan].
  destruct (alias fs) as [[]|] eqn:E; try done.
  by rewrite (first_alias_miss _ _ (Hal _ eq_refl)).
Qed.

(** ** Defaults of a missing field *)

(** What one iteration of the field loop does for a field that is nowhere
    in the input. *)
Lemma init_field_when_absent (deserializers : option Deserializers)
    (kwds : option PyObject) (data : InstanceData) (fs : FieldSchema) (w : World) :
  absent_everywhere kwds fs ->
  init_field deserializers kwds data fs w =
    if has_factory fs then
      match PyObject_CallFunctionObjArgs (default_factory fs) [] with
      | Some v =>
          validate_field deserializers data fs v (after_call (default_factory fs) [] w)
      | None =>
          (data,
           with_error (field_name_c fs)
             "Missing required field and default factory call failed"
             (after_call (default_factory fs) [] w))
      end
    else if has_default fs then
      validate_field deserializers data fs (default_value fs) w
    else if is_optional (type_schema fs) then
      validate_field deserializers data fs Py_None w
    else (data, with_error (field_name_c fs) "Missing required field" w).
Proof.
  intros Habs. unfold init_field. rewrite (absent_everywhere_resolve _ _ Habs).
  unfold resolve_missing, has_factory, has_default, after_call, with_error.
  destruct (negb (ptr_eqb (default_factory fs) Py_None)
            && PyCallable_Check (default_factory fs)).
  - run_m. unfold call_function.
    destruct (PyObject_CallFunctionObjArgs (default_factory fs) []); done.
  - destruct (negb (ptr_eqb (default_value fs) VLDTUndefined)); [done|].
    destruct (is_optional (type_schema fs)); done.
Qed.



End EngineFacts.

(** ** Unions *)

Section UnionFacts.
Context `{Host}.

Lemma union_match_world candidates value : forall w,
  collector (snd (union_match candidates value w)) = collector w
  /\ call_log (snd (union_match candidates value w)) = call_log w.
Proof.
  induction candidates as [|c cs IH]; intros w; simpl; [done|].
  run_m. unfold is_instance. cbn beta iota.
  destruct (Z.eqb (PyObject_IsInstance value (check_type_of c)) 0) eqn:E; simpl.
  - apply Z.eqb_eq in E. rewrite E. simpl. apply IH.
  - by destruct (Z.ltb _ 0).
Qed.

Lemma union_match_hit candidates value c : forall w,
  c ∈ candidates ->
  PyObject_IsInstance value (check_type_of c) = 1 ->
  fst (union_match candidates value w) = true.
Proof.
  induction candidates as [|c' cs IH]; intros w Hin Hc.
  - by apply elem_of_nil in Hin.
  - simpl. run_m. unfold is_instance at 1. cbn beta iota.
    destruct (Z.eqb (PyObject_IsInstance value (check_type_of c')) 0) eqn:E; simpl.
    + apply Z.eqb_eq in E. rewrite E. simpl.
      apply elem_of_cons in Hin as [->|Hin]; [congruence|by apply IH].
    + done.
Qed.

Lemma union_match_miss candidates value : forall w,
  Forall (fun c => PyObject_IsInstance value (check_type_of c) = 0) candidates ->
  union_match candidates value w = (false, w).
Proof.
  induction candidates as [|c cs IH]; intros w Hall; simpl; [done|].
  inversion Hall as [|? ? Hc Hcs]; subst.
  run_m. rewrite (is_instance_no _ _ _ Hc). simpl. by apply IH.
Qed.

Lemma union_convert_first value error_path deserializers pre c post v :
  forall w w1 w2,
  all_fail value error_path deserializers pre w w1 ->
  validate_and_convert value c error_path deserializers w1 = (Some v, w2) ->
  union_convert validate_and_convert (pre ++ c :: post) value error_path
    deserializers w = (Some v, w2).
Proof.
  intros w w1 w2 Hpre Hc. induction Hpre as [w|c' cs w wa wb Hc' _ IH]; simpl.
  - run_m. by rewrite Hc.
  - run_m. rewrite Hc'. by apply IH.
Qed.

Lemma union_convert_none value error_path deserializers candidates :
  forall w w1,
  all_fail value error_path deserializers candidates w w1 ->
  union_convert validate_and_convert candidates value error_path deserializers w
  = (None, w1).
Proof.
  intros w w1 Hall. induction Hall as [w|c cs w wa wb Hc _ IH]; simpl; [done|].
  run_m. rewrite Hc. apply IH.
Qed.

Lemma check_type_of_as_is c : check_type_of c = as_is_type c.
Proof. unfold check_type_of, as_is_type. by destruct (ptr_eqb (origin c) Py_None). Qed.

Lemma union_match_first value pre c post : forall w,
  Forall (fun a => PyObject_IsInstance value (as_is_type a) = 0) pre ->
  PyObject_IsInstance value (as_is_type c) <> 0 ->
  union_match (pre ++ c :: post) value w
  = (true,
     if Z.ltb (PyObject_IsInstance value (as_is_type c)) 0
     then raising PyExc_FromHost w else w).
Proof.
  intros w Hpre Hc. induction Hpre as [|a pre Ha _ IH]; simpl; run_m.
  - unfold is_instance. rewrite check_type_of_as_is. cbn beta iota zeta.
    apply Z.eqb_neq in Hc. by rewrite Hc.
  - rewrite <- check_type_of_as_is in Ha. by rewrite (is_instance_no _ _ _ Ha).
Qed.

Lemma union_match_none value candidates : forall w,
  Forall (fun a => PyObject_IsInstance value (as_is_type a) = 0) candidates ->
  union_match candidates value w = (false, w).
Proof.
  intros w Hall. apply union_match_miss.
  eapply Forall_impl; [exact Hall|]. intros a Ha. by rewrite check_type_of_as_is.
Qed.

(** C1.  An instance check that raises counts as a match.  When the check
    of an alternative answers -1, and every alternative before it answered
    0, the first pass of [validate_union] returns the value as it is, with
    the host's exception pending: the value is an instance of no
    alternative checked so far, and the second pass never runs. *)
Theorem union_takes_check_error_for_match (value : PyObject) (ts : TypeSchema)
    (error_path : string) (deserializers : option Deserializers) (w : World)
    (pre : list TypeSchema) (c : TypeSchema) (post : list TypeSchema) :
  args ts = (pre ++ c :: post)%list ->
  Forall (fun a => PyObject_IsInstance value (as_is_type a) = 0) pre ->
  PyObject_IsInstance value (as_is_type c) < 0 ->
  validate_union validate_and_convert value ts error_path deserializers w
  = (Some value, raising PyExc_FromHost w).
Proof.
  intros Hargs Hpre Hc. unfold validate_union. run_m. rewrite Hargs.
  rewrite (union_match_first value pre c post w Hpre) by lia.
  apply Z.ltb_lt in Hc. by rewrite Hc.
Qed.

(** X20.  [validate_union] makes two passes over the alternatives, both in
    the order declared, and every outcome of the first pass is covered.
    The check type of an alternative is its normalized origin when it has
    one, else its declared type.  At the first alternative whose check does
    not answer 0 the value itself is the result: nothing is recorded,
    nothing is called, and the world is untouched unless the check raised.
    If every check answers 0, the alternatives are converted one after the
    other against a scratch collector; the first that succeeds gives the
    result while the caller's collector stays as it was, and when all fail
    one error goes to the caller's collector.  For 5 against
    [Union[str, int]] the result is 5 and [str] is never called; a list
    against [Union[List[int], str]] matches by the origin [list] and comes
    back with its elements as they are. *)
Theorem validate_union_two_pass (value : PyObject) (ts : TypeSchema)
    (error_path : string) (deserializers : option Deserializers) (w : World) :
  (forall pre c post,
     args ts = (pre ++ c :: post)%list ->
     Forall (fun a => PyObject_IsInstance value (as_is_type a) = 0) pre ->
     PyObject_IsInstance value (as_is_type c) <> 0 ->
     validate_union validate_and_convert value ts error_path deserializers w
     = (Some value,
        if Z.ltb (PyObject_IsInstance value (as_is_type c)) 0
        then raising PyExc_FromHost w else w))
  /\ (Forall (fun a => PyObject_IsInstance value (as_is_type a) = 0) (args ts) ->
      (forall pre c post v w1 w2,
          args ts = (pre ++ c :: post)%list ->
          all_fail value error_path deserializers pre (scratch w) w1 ->
          validate_and_convert value c error_path deserializers w1 = (Some v, w2) ->
          validate_union validate_and_convert value ts error_path deserializers w
          = (Some v, restore w w2))
      /\ (forall w1,
            all_fail value error_path deserializers (args ts) (scratch w) w1 ->
            validate_union validate_and_convert value ts error_path deserializers w
            = (None,
               with_error error_path
                 ("Value did not match any candidate in Union: got " ++
                  safe_type_name value) (restore w w1))))
  /\ validate_and_convert (H := ref_host) (PyLong 5)
       (compile_type_schema (H := ref_host) (Union_ [StrType; IntType]))
       "f" None world0
     = (Some (PyLong 5), world0)
  /\ validate_and_convert (H := ref_host) (PyList [PyUnicode "1"])
       (compile_type_schema (H := ref_host) (Union_ [List_ IntType; StrType]))
       "f" None world0
     = (Some (PyList [PyUnicode "1"]), world0).
Proof.
  split; [|split; [|split]].
  - intros pre c post Hargs Hpre Hc. unfold validate_union. run_m. rewrite Hargs.
    by rewrite (union_match_first value pre c post w Hpre Hc).
  - intros Hmiss. split.
    + intros pre c post v w1 w2 Hargs Hpre Hc. unfold validate_union. run_m.
      rewrite (union_match_none _ _ _ Hmiss). unfold with_temp_collector.
      rewrite Hargs. fold (scratch w).
      by rewrite (union_convert_first _ _ _ _ _ _ _ _ _ _ Hpre Hc).
    + intros w1 Hall. unfold validate_union. run_m.
      rewrite (union_match_none _ _ _ Hmiss). unfold with_temp_collector.
      fold (scratch w). by rewrite (union_convert_none _ _ _ _ _ _ Hall).
  - vm_compute. reflexivity.
  - vm_compute. reflexivity.
Qed.

End UnionFacts.

(** ** Lists *)

Section ListFacts.
Context `{Host}.

Lemma str_take_all s n : (String.length s <= n)%nat -> str_take n s = s.
Proof.
  revert n. induction s as [|c s IH]; intros [|n] Hn; simpl in *; try done; try lia.
  f_equal. apply IH. lia.
Qed.

Lemma path_at_fits path suffix :
  (String.length path + 1 + String.length suffix <= 255)%nat ->
  path_at path suffix = path ++ "." ++ suffix.
Proof.
  intros Hfit. unfold path_at, base_len_of, snprintf.
  destruct (decide (256 - 2 <= String.length path)%nat) as [Hbig|Hsmall].
  - assert (String.length path = 254%nat) as Hlen by lia.
    rewrite <- Hlen at 1. rewrite str_take_all by lia.
    rewrite str_take_all by lia. done.
  - rewrite str_take_all by lia. rewrite str_take_all by lia. done.
Qed.

Lemma try_deserializer_collector value ts deserializers w :
  collector (snd (try_deserializer value ts deserializers w)) = collector w.
Proof.
  unfold try_deserializer. destruct (deserializer_for deserializers ts value); [|done].
  run_m. unfold call_function. cbn beta iota.
  destruct (PyObject_CallFunctionObjArgs p [value]); [|done].
  unfold is_instance. cbn beta iota.
  destruct (negb (Z.eqb (PyObject_IsInstance p0 (expected_type ts)) 0));
    destruct (Z.ltb _ 0); done.
Qed.

Lemma int_schema_plain x path deserializers :
  validate_and_convert x int_schema path deserializers
  = validate_plain x int_schema path deserializers.
Proof.
  unfold int_schema, plain_schema. cbn [validate_and_convert is_optional expected_type
    is_data_model container_kind origin].
  by rewrite andb_false_r.
Qed.

(** When a value fails at an int position, exactly the int message was
    added to the collector. *)
Lemma int_failure_recorded x path deserializers w :
  fst (validate_and_convert x int_schema path deserializers w) = None ->
  collector (snd (validate_and_convert x int_schema path deserializers w))
  = ErrorCollector.add_error path ("Expected type int, got " ++ safe_type_name x)
      (collector w).
Proof.
  rewrite int_schema_plain. unfold validate_plain. run_m.
  change (expected_type int_schema) with IntType.
  unfold is_instance. cbn beta iota.
  destruct (Z.eqb (PyObject_IsInstance x IntType) 0) eqn:E; [|done].
  apply Z.eqb_eq in E. rewrite E. cbn [negb Z.ltb Z.compare].
  pose proof (try_deserializer_collector x int_schema deserializers w) as Hd.
  destruct (try_deserializer x int_schema deserializers w) as [[d|] wd]; [done|].
  simpl in Hd. change (ptr_eqb IntType IntType) with true. cbn iota.
  unfold validate_int, validate_primitive.
  destruct (PyLong_Check x); [done|].
  run_m. unfold call_function. cbn beta iota.
  destruct (PyObject_CallFunctionObjArgs IntType [x]) as [c|]; simpl.
  - destruct (PyLong_Check c); [done|]. simpl. intros _. by rewrite Hd.
  - intros _. by rewrite Hd.
Qed.

Lemma list_items_stop elem pre x post path deserializers :
  forall i w w1 convs,
  list_items validate_and_convert [elem] pre i path deserializers w
  = (Some convs, w1) ->
  fst (validate_and_convert x elem (path_at path (fmt_zd (i + List.length pre)))
         deserializers w1) = None ->
  list_items validate_and_convert [elem] (pre ++ x :: post) i path deserializers w
  = (None, snd (validate_and_convert x elem
                  (path_at path (fmt_zd (i + List.length pre))) deserializers w1)).
Proof.
  induction pre as [|y pre IH]; intros i w w1 convs Hpre Hx.
  - simpl in *. run_m. injection Hpre as _ <-. rewrite Nat.add_0_r in *.
    destruct (validate_and_convert x elem _ deserializers w) as [[c|] wx]; done.
  - simpl in Hpre |- *. run_m.
    destruct (validate_and_convert y elem _ deserializers w) as [[c|] wy]; [|done].
    destruct (list_items validate_and_convert [elem] pre (S i) path deserializers wy)
      as [[t|] wt] eqn:Et; [|done].
    injection Hpre as _ <-. cbn [List.length] in Hx |- *.
    replace (i + S (List.length pre))%nat with (S i + List.length pre)%nat in * by lia.
    by rewrite (IH (S i) wy wt t Et Hx).
Qed.

Lemma list_position_dispatch ts elem items path deserializers :
  list_position ts elem ->
  validate_and_convert (PyList items) ts path deserializers
  = validate_list validate_and_convert (PyList items) ts path deserializers.
Proof.
  intros (Hck & Hargs & Hany). destruct ts as [ety o a dm opt ck inner].
  cbn [container_kind args expected_type] in Hck, Hargs, Hany. subst.
  cbn [validate_and_convert is_optional expected_type is_data_model container_kind
       origin ptr_eqb PyDict_Check andb].
  rewrite Hany, andb_false_r. done.
Qed.

(** C2, amended.  A list position validates its elements in order and stops
    at the first one that fails: the list fails, and the world is the one
    that element left, so nothing after it is attempted.  Over int elements
    that element has added "Expected type int, got <type>" at
    [<path>.<index>], provided the path fits the 256-byte buffer. *)
Theorem list_stops_at_first_failure (ts : TypeSchema)
    (pre : list PyObject) (x : PyObject) (post : list PyObject)
    (path : string) (deserializers : option Deserializers)
    (w w1 : World) (convs : list PyObject) :
  list_position ts int_schema ->
  (String.length path + 1 + String.length (fmt_zd (List.length pre)) <= 255)%nat ->
  list_items validate_and_convert [int_schema] pre 0 path deserializers w
  = (Some convs, w1) ->
  fst (validate_and_convert x int_schema (index_path path (List.length pre))
         deserializers w1) = None ->
  validate_and_convert (PyList (pre ++ x :: post)) ts path deserializers w
  = (None, snd (validate_and_convert x int_schema
                  (index_path path (List.length pre)) deserializers w1))
  /\ collector (snd (validate_and_convert x int_schema
                       (index_path path (List.length pre)) deserializers w1))
     = ErrorCollector.add_error (index_path path (List.length pre))
         ("Expected type int, got " ++ safe_type_name x) (collector w1).
Proof.
  intros (Hck & Hargs & Hany) Hfit Hpre Hx. split.
  - rewrite (list_position_dispatch ts int_schema _ _ _ (conj Hck (conj Hargs Hany))).
    unfold validate_list. run_m. rewrite Hargs.
    unfold index_path in Hx |- *. rewrite <- (path_at_fits _ _ Hfit) in Hx |- *.
    by rewrite (list_items_stop int_schema pre x post path deserializers 0 w w1
                  convs Hpre Hx).
  - by apply int_failure_recorded.
Qed.

End ListFacts.

(** ** The plain-value path *)

Section PlainFacts.
Context `{Host}.

Lemma ptr_eqb_None x : ptr_eqb x Py_None = true -> x = Py_None.
Proof. by destruct x. Qed.

Lemma ptr_eqb_class x n : ptr_eqb x (PyClass n) = true -> x = PyClass n.
Proof.
  destruct x; simpl; try done. intros E. apply bool_decide_eq_true in E. by subst.
Qed.

Lemma is_instance_decided x type w :
  decides_instances type ->
  is_instance x type w = (PyObject_IsInstance x type, w)
  /\ negb (Z.eqb (PyObject_IsInstance x type) 0) = instance_of x type.
Proof.
  intros Hdec. unfold is_instance, instance_of. by destruct (Hdec x) as [-> | ->].
Qed.

Lemma map_find_first to from m :
  map_find to from m
  = head (List.map snd
            (List.filter
               (fun e => ptr_eqb (fst (fst e)) to && ptr_eqb (snd (fst e)) from) m)).
Proof.
  induction m as [|[[t f] fn] rest IH]; simpl; [done|].
  by destruct (ptr_eqb t to && ptr_eqb f from).
Qed.

Lemma map_find_in to from fn m :
  map_find to from m = Some fn -> exists key, (key, fn) ∈ m.
Proof.
  induction m as [|[[t f] g] m IH]; simpl; [done|].
  destruct (ptr_eqb t to && ptr_eqb f from).
  - intros [= ->]. exists (t, f). apply elem_of_cons. by left.
  - intros E. destruct (IH E) as [key Hkey]. exists key. apply elem_of_cons. by right.
Qed.

Lemma deserializer_for_registered registry ts value :
  holds_callables registry ->
  deserializer_for registry ts value = registered registry (expected_type ts) value.
Proof.
  intros Hreg. unfold deserializer_for, registered, get_deserializer.
  destruct registry as [d|]; [|done]. rewrite <- map_find_first.
  destruct (map_find (expected_type ts) (Py_TYPE value) d) as [fn|] eqn:E; [|done].
  destruct (ptr_eqb fn Py_None) eqn:Efn; [|done].
  apply ptr_eqb_None in Efn. subst. destruct (map_find_in _ _ _ _ E) as [key Hkey].
  specialize (Hreg d eq_refl). rewrite Forall_forall in Hreg.
  by destruct (Hreg _ Hkey).
Qed.

(** A registry built by [create_deserializers] holds callables only. *)
Lemma map_find_elem to from fn m :
  map_find to from m = Some fn -> fn ∈ List.map snd m.
Proof.
  induction m as [|[[t f] g] m IH]; simpl; [done|].
  destruct (ptr_eqb t to && ptr_eqb f from).
  - intros [= ->]. apply elem_of_cons. by left.
  - intros E. apply elem_of_cons. right. by apply IH.
Qed.

Lemma insert_inner_callables outer_key inner : forall m m',
  Forall (fun fn => PyCallable_Check fn = true) (List.map snd m) ->
  insert_inner outer_key inner m = Some m' ->
  Forall (fun fn => PyCallable_Check fn = true) (List.map snd m').
Proof.
  induction inner as [|[k v] inner IH]; intros m m' Hm; simpl.
  - by intros [= <-].
  - destruct (PyCallable_Check v) eqn:Ev; [|done]. apply IH.
    unfold map_insert. destruct (map_find outer_key k m); [done|].
    rewrite List.map_app. apply Forall_app. split; [done|]. by constructor.
Qed.

Lemma insert_outer_callables outer : forall m m',
  Forall (fun fn => PyCallable_Check fn = true) (List.map snd m) ->
  insert_outer outer m = Some m' ->
  Forall (fun fn => PyCallable_Check fn = true) (List.map snd m').
Proof.
  induction outer as [|[k v] outer IH]; intros m m' Hm; simpl.
  - by intros [= <-].
  - destruct v; try done.
    destruct (insert_inner k entries m) as [m1|] eqn:E1; [|done].
    apply IH. by apply (insert_inner_callables k entries m).
Qed.

Lemma create_deserializers_holds_callables deserializer_dict d :
  PyCallable_Check Py_None = false ->
  create_deserializers deserializer_dict = Some d ->
  holds_callables (Some d).
Proof.
  intros Hnone Hd d' [= <-].
  destruct deserializer_dict; try done. simpl in Hd.
  pose proof (insert_outer_callables entries [] d (List.Forall_nil _) Hd) as Hall.
  rewrite Forall_forall in Hall. apply Forall_forall. intros e He Heq.
  assert (Hin : snd e ∈ List.map snd d)
    by (apply list_elem_of_In, List.in_map, list_elem_of_In, He).
  specialize (Hall _ Hin). congruence.
Qed.

Lemma try_deserializer_spec value ts registry w :
  decides_instances (expected_type ts) ->
  holds_callables registry ->
  fst (try_deserializer value ts registry w)
  = match registered registry (expected_type ts) value with
    | Some deserializer =>
        match PyObject_CallFunctionObjArgs deserializer [value] with
        | Some d => if instance_of d (expected_type ts) then Some d else None
        | None => None
        end
    | None => None
    end.
Proof.
  intros Hdec Hreg. unfold try_deserializer.
  rewrite (deserializer_for_registered _ _ _ Hreg).
  destruct (registered registry (expected_type ts) value) as [f|]; [|done].
  run_m. unfold call_function. cbn beta iota.
  destruct (PyObject_CallFunctionObjArgs f [value]) as [d|]; [|done].
  match goal with |- context [is_instance d ?t ?w'] =>
    destruct (is_instance_decided d t w' Hdec) as [-> <-] end.
  by destruct (negb _).
Qed.

Lemma validate_primitive_spec check ctor kind value path w :
  fst (validate_primitive check ctor kind value path w)
  = result_of value (if check value then Unchanged else construct check ctor value kind)
  /\ collector (snd (validate_primitive check ctor kind value path w))
     = errors_of path (if check value then Unchanged else construct check ctor value kind)
         (collector w).
Proof.
  unfold validate_primitive, construct. destruct (check value); [done|].
  run_m. unfold call_function. cbn beta iota.
  destruct (PyObject_CallFunctionObjArgs ctor [value]) as [c|]; [|done].
  by destruct (check c).
Qed.

Lemma convert_using_constructor_spec value ts path w :
  decides_instances (expected_type ts) ->
  fst (convert_using_constructor value ts path w)
  = result_of value (construct (fun c => instance_of c (expected_type ts))
                       (expected_type ts) value (safe_type_name (expected_type ts)))
  /\ collector (snd (convert_using_constructor value ts path w))
     = errors_of path (construct (fun c => instance_of c (expected_type ts))
                         (expected_type ts) value (safe_type_name (expected_type ts)))
         (collector w).
Proof.
  intros Hdec. unfold convert_using_constructor, construct, expected_type_error.
  run_m. unfold call_function. cbn beta iota.
  destruct (PyObject_CallFunctionObjArgs (expected_type ts) [value]) as [c|]; [|done].
  match goal with |- context [is_instance c ?t ?w'] =>
    destruct (is_instance_decided c t w' Hdec) as [-> <-] end.
  by destruct (negb _).
Qed.

(** The tail of [validate_plain], once the instance check and the
    deserializer gave nothing. *)
Lemma plain_tail_spec value ts path w :
  decides_instances (expected_type ts) ->
  let tail :=
    if ptr_eqb (expected_type ts) IntType then validate_int value path
    else if ptr_eqb (expected_type ts) StrType then validate_str value path
    else if ptr_eqb (expected_type ts) FloatType then validate_float value path
    else if ptr_eqb (expected_type ts) BoolType then validate_bool value path
    else convert_using_constructor value ts path in
  let by_constructor :=
    match primitive_kind (expected_type ts) with
    | Some (is_kind, kind_name) =>
        if is_kind value then Unchanged
        else construct is_kind (expected_type ts) value kind_name
    | None =>
        construct (fun c => instance_of c (expected_type ts)) (expected_type ts) value
          (safe_type_name (expected_type ts))
    end in
  fst (tail w) = result_of value by_constructor
  /\ collector (snd (tail w)) = errors_of path by_constructor (collector w).
Proof.
  intros Hdec. unfold primitive_kind. cbv zeta.
  destruct (ptr_eqb (expected_type ts) IntType) eqn:E1.
  { rewrite (ptr_eqb_class _ _ E1). apply validate_primitive_spec. }
  destruct (ptr_eqb (expected_type ts) StrType) eqn:E2.
  { rewrite (ptr_eqb_class _ _ E2). apply validate_primitive_spec. }
  destruct (ptr_eqb (expected_type ts) FloatType) eqn:E3.
  { rewrite (ptr_eqb_class _ _ E3). apply validate_primitive_spec. }
  destruct (ptr_eqb (expected_type ts) BoolType) eqn:E4.
  { rewrite (ptr_eqb_class _ _ E4). apply validate_primitive_spec. }
  by apply convert_using_constructor_spec.
Qed.

(** C7.  An instance check that raises counts as an instance.  When the
    check of the value against the declared type answers -1,
    [validate_plain] returns the value as it is with the host's exception
    pending: no deserializer is looked up, no constructor is called and no
    error is recorded, although the value is no instance of the type. *)
Theorem plain_takes_check_error_for_instance (value : PyObject) (ts : TypeSchema)
    (path : string) (registry : option Deserializers) (w : World) :
  PyObject_IsInstance value (expected_type ts) < 0 ->
  validate_plain value ts path registry w
  = (Some value, raising PyExc_FromHost w).
Proof.
  intros Hneg. unfold validate_plain, is_instance. run_m.
  assert (Hnz : Z.eqb (PyObject_IsInstance value (expected_type ts)) 0 = false)
    by (apply Z.eqb_neq; lia).
  apply Z.ltb_lt in Hneg. by rewrite Hnz, Hneg.
Qed.

(** X21.  Where the instance check against the declared type answers yes
    or no, and the registry holds no [None], [validate_plain] is the
    reference definition [plain_value_spec]: it returns what the reference
    returns and records the reference's rejection message, if any, and
    nothing else; and a value that is an instance already comes back as it
    is in an untouched world.  The reference takes the deserializer from
    the first entry of the registry under the pair (declared type, runtime
    type). *)
Theorem validate_plain_refines (value : PyObject) (ts : TypeSchema)
    (path : string) (registry : option Deserializers) (w : World) :
  decides_instances (expected_type ts) ->
  holds_callables registry ->
  fst (validate_plain value ts path registry w)
  = result_of value (plain_value_spec value (expected_type ts) registry)
  /\ collector (snd (validate_plain value ts path registry w))
     = errors_of path (plain_value_spec value (expected_type ts) registry) (collector w)
  /\ (instance_of value (expected_type ts) = true ->
      validate_plain value ts path registry w = (Some value, w)).
Proof.
  intros Hdec Hreg. unfold validate_plain, plain_value_spec. run_m.
  destruct (is_instance_decided value (expected_type ts) w Hdec) as [-> <-].
  destruct (negb (Z.eqb (PyObject_IsInstance value (expected_type ts)) 0)); [done|].
  pose proof (try_deserializer_spec value ts registry w Hdec Hreg) as Hd.
  pose proof (try_deserializer_collector value ts registry w) as Hc.
  destruct (try_deserializer value ts registry w) as [r wd]. simpl in Hd, Hc. subst r.
  pose proof (plain_tail_spec value ts path wd Hdec) as Htail. cbv zeta in Htail.
  rewrite Hc in Htail.
  destruct (registered registry (expected_type ts) value) as [f|].
  - destruct (PyObject_CallFunctionObjArgs f [value]) as [d|].
    + destruct (instance_of d (expected_type ts)).
      * simpl. by rewrite Hc.
      * destruct Htail as [Ht1 Ht2]. by rewrite Ht1, Ht2.
    + destruct Htail as [Ht1 Ht2]. by rewrite Ht1, Ht2.
  - destruct Htail as [Ht1 Ht2]. by rewrite Ht1, Ht2.
Qed.

End PlainFacts.

(** ** Construction and assignment *)

Section ModelFacts.
Context `{Host}.

Lemma init_fields_app deserializers kwds fs1 fs2 : forall data w,
  init_fields deserializers kwds data (fs1 ++ fs2) w
  = let '(data1, w1) := init_fields deserializers kwds data fs1 w in
    init_fields deserializers kwds data1 fs2 w1.
Proof.
  induction fs1 as [|f fs1 IH]; intros data w; simpl; [done|].
  run_m. destruct (init_field deserializers kwds data f w) as [d wf]. apply IH.
Qed.

Lemma validate_field_placeholder deserializers data fs value w :
  fst (validate_and_convert value (type_schema fs) (field_name_c fs) deserializers w)
  = None ->
  fst (validate_field deserializers data fs value w)
  = <[field_name_c fs := value]> data.
Proof.
  unfold validate_field. run_m.
  by destruct (validate_and_convert value (type_schema fs) (field_name_c fs)
                 deserializers w) as [[v|] w'].
Qed.

Lemma required_missing deserializers kwds data fs w :
  required fs -> absent_everywhere kwds fs ->
  init_field deserializers kwds data fs w
  = (data, with_error (field_name_c fs) "Missing required field" w).
Proof.
  intros (Hf & Hd & Ho) Habs.
  rewrite (init_field_when_absent _ _ _ _ _ Habs). by rewrite Hf, Hd, Ho.
Qed.

Lemma init_fields_all_missing deserializers kwds data fs : forall c e l,
  Forall required fs ->
  Forall (absent_everywhere kwds) fs ->
  NoDup (List.map field_name_c fs) ->
  Forall (fun f => ErrorCollector.FindMember (field_name_c f)
                     (ErrorCollector.lazy_init c) = None) fs ->
  init_fields deserializers kwds data fs (mkWorld c e l)
  = (data,
     mkWorld (match fs with
              | [] => c
              | _ => ErrorCollector.mk
                       (Some (ErrorCollector.lazy_init c ++ List.map missing_entry fs)%list)
              end) e l).
Proof.
  induction fs as [|f rest IH]; intros c e l Hreq Habs Hnd Hfresh; [done|].
  inversion Hreq as [|? ? Rf Rrest]; subst.
  inversion Habs as [|? ? Af Arest]; subst.
  inversion Hfresh as [|? ? Ff Frest]; subst.
  apply NoDup_cons in Hnd as [Hnotin Hnd].
  cbn [init_fields]. run_m. rewrite (required_missing _ _ _ _ _ Rf Af).
  unfold with_error. cbn [collector err_indicator call_log].
  assert (Hc1 : ErrorCollector.add_error (field_name_c f) "Missing required field" c
                = ErrorCollector.mk
                    (Some (ErrorCollector.lazy_init c ++ [missing_entry f])%list)).
  { unfold ErrorCollector.add_error, ErrorCollector.put_value, ErrorCollector.HasMember.
    by rewrite Ff. }
  rewrite Hc1, IH; try done.
  - destruct rest; [done|]. cbn [ErrorCollector.lazy_init ErrorCollector.doc_ List.map].
    by rewrite <- app_assoc.
  - cbn [ErrorCollector.lazy_init ErrorCollector.doc_]. unfold missing_entry.
    apply Forall_forall. intros g Hg. rewrite FindMember_snoc.
    rewrite Forall_forall in Frest. rewrite (Frest g Hg).
    rewrite decide_False; [done|]. intros Heq. apply Hnotin.
    rewrite Heq. change (field_name_c g ∈ List.map field_name_c rest).
    apply list_elem_of_In, in_map, list_elem_of_In, Hg.
Qed.

(** C9, amended.  Assigning to a name that is not annotated stores the value
    as it is, without validation.  Assigning to a [ClassVar] raises
    [AttributeError] and stores nothing.  Any other annotated name is
    validated against its compiled type: on success the converted value is
    stored; on failure nothing is stored and a [TypeError] is raised, which
    carries the rendered collector when the collector has errors and says
    "Invalid value for attribute <name>" when it has none. *)
Theorem setattro_validates (schema : SchemaCache) (data : InstanceData)
    (name : string) (value : PyObject) (w : World) :
  (PyDict_GetItem (instance_annotations schema) (PyUnicode name) = None ->
   DataModel_setattro (Some schema) data name value w
   = ((0, <[c_str name := value]> data), w))
  /\ (forall expected,
        PyDict_GetItem (instance_annotations schema) (PyUnicode name) = Some expected ->
        is_class_var expected = true ->
        DataModel_setattro (Some schema) data name value w
        = ((-1, data),
           raising (PyExc_AttributeError "Cannot set ClassVar attribute") w))
  /\ (forall expected converted c w1,
        PyDict_GetItem (instance_annotations schema) (PyUnicode name) = Some expected ->
        is_class_var expected = false ->
        with_local_collector
          (validate_and_convert value (compile_type_schema expected) (c_str name)
             (deserializers schema)) w = ((converted, c), w1) ->
        DataModel_setattro (Some schema) data name value w
        = match converted with
          | Some v => ((0, <[c_str name := v]> data), w1)
          | None =>
              ((-1, data),
               raising
                 (PyExc_TypeError
                    (if ErrorCollector.has_errors c then to_json c
                     else "Invalid value for attribute " ++
                          PyObject_Repr (PyUnicode name))) w1)
          end).
Proof.
  unfold DataModel_setattro. split; [|split].
  - by intros ->.
  - intros expected -> ->. done.
  - intros expected converted c w1 -> -> Hv. run_m. rewrite Hv. cbn beta iota.
    destruct converted; [done|]. by destruct (ErrorCollector.has_errors c).
Qed.

End ModelFacts.

(** * The engine on the reference host *)

Section OnRefHost.
Local Existing Instance ref_host.

(** The schemas used above are what the compiler produces. *)
Example compile_list_int :
  compile_type_schema (List_ IntType) = list_int_schema
  /\ compile_type_schema IntType = int_schema.
Proof. split; reflexivity. Qed.

(** The second pass of a union: "7" is neither an int nor a bool, [int]
    converts it, and [bool] is not tried. *)
Example union_second_pass :
  validate_and_convert (PyUnicode "7")
    (compile_type_schema (Union_ [IntType; BoolType])) "f" None world0
  = (Some (PyLong 7), mkWorld ErrorCollector.new None [(IntType, [PyUnicode "7"])]).
Proof. vm_compute. reflexivity. Qed.

(** C2, the input of the claim: of ["1", 2, "x"] the first two elements
    convert and the only error is at index 2. *)
Lemma list_stops_at_first_failure_witness :
  validate_and_convert
    (PyList [PyUnicode "1"; PyLong 2; PyUnicode "x"]) list_int_schema "f" None world0
  = (None,
     mkWorld
       (ErrorCollector.mk (Some [("f.2", JString "Expected type int, got str")]))
       None [(IntType, [PyUnicode "1"]); (IntType, [PyUnicode "x"])]).
Proof.
  apply (proj1 (list_stops_at_first_failure list_int_schema
                  [PyUnicode "1"; PyLong 2] (PyUnicode "x") [] "f" None world0
                  (mkWorld ErrorCollector.new None [(IntType, [PyUnicode "1"])])
                  [PyLong 1; PyLong 2]
                  (conj eq_refl (conj eq_refl eq_refl))
                  ltac:(vm_compute; lia) eq_refl eq_refl)).
Defined.

(** C2 as worded fails: of ["x", "y"] only index 0 is attempted, and nothing
    is recorded for index 1 although "y" is no int either. *)
Lemma later_elements_are_not_attempted : ~ each_failing_element_reported.
Proof.
  intros Hclaim.
  specialize (Hclaim [PyUnicode "x"; PyUnicode "y"] "f" 1%nat (PyUnicode "y")
                eq_refl eq_refl).
  vm_compute in Hclaim. by apply Hclaim.
Qed.

(** C3 at its failing input.  Against [Set[list]] the tuple in {(1, 2)}
    is converted by [list], the list cannot be added to the new set, and
    [validate_and_convert] returns nothing with an empty collector and the
    exception of the host still pending. *)
Theorem unhashable_element_fails_unreported :
  let r := validate_and_convert (PySet [PyTuple [PyLong 1; PyLong 2]])
             (compile_type_schema (Set_ PyList_Type)) "s" None world0 in
  fst r = None
  /\ ErrorCollector.has_errors (collector (snd r)) = false
  /\ err_indicator (snd r) = Some PyExc_FromHost
  /\ call_log (snd r) = [(PyList_Type, [PyTuple [PyLong 1; PyLong 2]])].
Proof. vm_compute. done. Qed.

(** What the unreported failure does to construction: the field loop stores
    the set as it was given, finds the collector empty, and
    [DataModel_init] returns 0 with the exception still pending. *)
Example construction_keeps_unvalidated_value :
  DataModel_init (Some set_of_lists_model) (PyClass "M") ∅
    (Some (PyDict [(PyUnicode "s", PySet [PyTuple [PyLong 1; PyLong 2]])])) world0
  = ((0, {["s" := PySet [PyTuple [PyLong 1; PyLong 2]]]}),
     mkWorld ErrorCollector.new (Some PyExc_FromHost)
       [(PyList_Type, [PyTuple [PyLong 1; PyLong 2]])]).
Proof. vm_compute. reflexivity. Qed.

(** C5.  A field that fails without a recorded error does not stop
    construction.  For [s : Set[list]] given {(1, 2)} the validation of the
    field fails, yet the collector of the field loop is empty:
    [DataModel_init] stores the set as it was given and returns 0 with the
    host's exception pending, no [TypeError] with the errors is raised, and
    what the caller of the class gets is a [SystemError]. *)
Theorem unreported_failure_passes_construction :
  fst (validate_and_convert (PySet [PyTuple [PyLong 1; PyLong 2]])
         (compile_type_schema (Set_ PyList_Type)) "s" None world0) = None
  /\ DataModel_init (Some set_of_lists_model) (PyClass "M") ∅
       (Some (PyDict [(PyUnicode "s", PySet [PyTuple [PyLong 1; PyLong 2]])])) world0
     = ((0, {["s" := PySet [PyTuple [PyLong 1; PyLong 2]]]}),
        mkWorld ErrorCollector.new (Some PyExc_FromHost)
          [(PyList_Type, [PyTuple [PyLong 1; PyLong 2]])])
  /\ DataModel_call (Some set_of_lists_model) (PyClass "M")
       (Some (PyDict [(PyUnicode "s", PySet [PyTuple [PyLong 1; PyLong 2]])])) world0
     = (None,
        mkWorld ErrorCollector.new
          (Some (PyExc_SystemError
                   "<class 'M'> returned a result with an exception set"))
          [(PyList_Type, [PyTuple [PyLong 1; PyLong 2]])]).
Proof. vm_compute. done. Qed.


(** C6: [nickname] is given and [nick] is not, so [nickname] wins over the
    canonical [name]. *)
Lemma alias_before_canonical_witness :
  resolve_input
    (Some (PyDict [(PyUnicode "name", PyUnicode "a");
                   (PyUnicode "nickname", PyUnicode "b")])) aliased_field
  = Some (PyUnicode "b").
Proof.
  apply (proj1 (alias_before_canonical
                  [(PyUnicode "name", PyUnicode "a");
                   (PyUnicode "nickname", PyUnicode "b")]
                  aliased_field [PyUnicode "nick"; PyUnicode "nickname"] eq_refl)
           [PyUnicode "nick"] (PyUnicode "nickname") [] (PyUnicode "b") eq_refl).
  - repeat constructor.
  - reflexivity.
Defined.

Lemma ref_host_decides_int : decides_instances IntType.
Proof. intros x. destruct x; vm_compute; auto. Defined.

Lemma bool_registry_holds_callables :
  holds_callables (Some [((IntType, StrType), BoolType)]).
Proof. intros d [= <-]. by repeat constructor. Defined.

(** X21: [bool] is registered for (int, str), so "12" at an int position
    becomes [True], which is an int, and [int] is not asked. *)
Lemma validate_plain_refines_witness :
  fst (validate_plain (PyUnicode "12") int_schema "f"
         (Some [((IntType, StrType), BoolType)]) world0)
  = Some (PyBool true).
Proof.
  apply (proj1 (validate_plain_refines (PyUnicode "12") int_schema "f"
                  (Some [((IntType, StrType), BoolType)]) world0
                  ref_host_decides_int bool_registry_holds_callables)).
Defined.

(** A registered deserializer whose result does not conform: [str] is
    registered for (int, str), gives back a string, is dropped without an
    error, and [int] converts the value. *)
Example nonconforming_deserializer_is_dropped :
  validate_and_convert (PyUnicode "12") int_schema "f"
    (Some [((IntType, StrType), StrType)]) world0
  = (Some (PyLong 12),
     mkWorld ErrorCollector.new None
       [(StrType, [PyUnicode "12"]); (IntType, [PyUnicode "12"])]).
Proof. vm_compute. reflexivity. Qed.

(** C9 as worded fails: assigning {(1, 2)} to [s : Set[list]] fails with an
    empty collector, so the [TypeError] carries no rendered tree. *)
Lemma assignment_failure_without_tree : ~ assignment_failure_carries_tree.
Proof.
  intros Hclaim.
  specialize (Hclaim set_of_lists_model ∅ "s"
                (PySet [PyTuple [PyLong 1; PyLong 2]])
                (Set_ PyList_Type) ErrorCollector.new world0
                (mkWorld ErrorCollector.new (Some PyExc_FromHost)
                   [(PyList_Type, [PyTuple [PyLong 1; PyLong 2]])])
                eq_refl eq_refl eq_refl).
  vm_compute in Hclaim. discriminate Hclaim.
Qed.

(** What that assignment raises instead. *)
Example assignment_failure_message :
  DataModel_setattro (Some set_of_lists_model) ∅ "s"
    (PySet [PyTuple [PyLong 1; PyLong 2]]) world0
  = ((-1, ∅),
     mkWorld ErrorCollector.new
       (Some (PyExc_TypeError "Invalid value for attribute 's'"))
       [(PyList_Type, [PyTuple [PyLong 1; PyLong 2]])]).
Proof. reflexivity. Qed.

(** C10: [True] at an int position. *)
Lemma bool_passes_int_witness :
  validate_and_convert (PyBool true) int_schema "f" None world0
  = (Some (PyBool true), world0).
Proof.
  apply (proj1 (bool_passes_int (H := ref_host) true int_schema "f" None world0
                  (conj eq_refl (conj eq_refl eq_refl)) eq_refl)).
Defined.

End OnRefHost.

(** * Further properties *)

(** ** The collector only grows *)

Section CollectorGrowth.
Import ErrorCollector.

Lemma recorded_held c path : recorded c path = held (entry c path).
Proof. reflexivity. Qed.

Lemma extends_refl c : extends c c.
Proof. intros path. split; [done|]. by exists []; rewrite app_nil_r. Qed.

Lemma extends_trans c1 c2 c3 : extends c1 c2 -> extends c2 c3 -> extends c1 c3.
Proof.
  intros H12 H23 path. destruct (H12 path) as [K12 P12], (H23 path) as [K23 P23].
  split; [auto|]. by etrans.
Qed.

Lemma held_push e v :
  list.prefix (held e)
    (held (Some match e with
                | None => v
                | Some e => PushBack (if IsArray e then e else JArray [e]) v
                end)).
Proof.
  destruct e as [e|]; [|apply list.prefix_nil].
  destruct e; simpl; try (by eexists [_]); by eexists.
Qed.

Lemma put_value_keeps key v d path :
  (FindMember path d <> None -> FindMember path (put_value key v d) <> None)
  /\ list.prefix (held (FindMember path d)) (held (FindMember path (put_value key v d))).
Proof.
  destruct (decide (path = key)) as [->|Hne].
  - rewrite FindMember_put_same. split; [done|apply held_push].
  - rewrite FindMember_put_other by done. split; [done|]. by exists []; rewrite app_nil_r.
Qed.

Lemma fold_put_keeps (f : string * JValue -> string * JValue) members : forall d path,
  (FindMember path d <> None ->
   FindMember path
     (fold_left (fun d m => put_value (fst (f m)) (snd (f m)) d) members d) <> None)
  /\ list.prefix (held (FindMember path d))
       (held (FindMember path
                (fold_left (fun d m => put_value (fst (f m)) (snd (f m)) d) members d))).
Proof.
  induction members as [|m members IH]; intros d path; simpl.
  - split; [done|]. by exists []; rewrite app_nil_r.
  - destruct (put_value_keeps (fst (f m)) (snd (f m)) d path) as [K1 P1].
    destruct (IH (put_value (fst (f m)) (snd (f m)) d) path) as [K2 P2].
    split; [auto|]. by etrans.
Qed.

Lemma add_suberror_doc field members c :
  add_suberror field (Some (JObject members)) c
  = mk (Some (fold_left
                (fun d m => put_value (fst (under field m)) (snd (under field m)) d)
                members (lazy_init c))).
Proof.
  unfold add_suberror. do 2 f_equal.
  generalize (lazy_init c). induction members as [|[n v] members IH]; intros d; simpl.
  - done.
  - apply IH.
Qed.

Lemma add_error_extends path message c : extends c (add_error path message c).
Proof.
  intros p. unfold recorded, entry, add_error. simpl.
  apply put_value_keeps.
Qed.

Lemma add_suberror_extends field subdoc c : extends c (add_suberror field subdoc c).
Proof.
  destruct subdoc as [[| | | | |members]|];
    try (apply (add_error_extends field "Invalid suberror JSON" (mk (Some (lazy_init c))))).
  rewrite add_suberror_doc. intros p. unfold recorded, entry. simpl.
  apply (fold_put_keeps (under field)).
Qed.

Lemma has_errors_extends c c' : extends c c' -> has_errors c = true -> has_errors c' = true.
Proof.
  intros Hext. unfold has_errors.
  destruct c as [[[|[k v] d]|]]; simpl; try done. intros _.
  destruct (Hext k) as [Hk _]. unfold entry in Hk. simpl in Hk.
  rewrite decide_True in Hk by done. specialize (Hk ltac:(done)).
  destruct c' as [[[|? ?]|]]; simpl in *; done.
Qed.

Lemma fold_put_nonempty (f : string * JValue -> string * JValue) members d :
  members <> [] ->
  fold_left (fun d m => put_value (fst (f m)) (snd (f m)) d) members d <> [].
Proof.
  destruct members as [|m members]; [done|]. intros _. simpl.
  generalize (put_value_nonempty (fst (f m)) (snd (f m)) d).
  generalize (put_value (fst (f m)) (snd (f m)) d). clear d.
  induction members as [|m' members IH]; intros d Hd; simpl; [done|].
  apply IH, put_value_nonempty.
Qed.

Lemma has_errors_lazy_init c : has_errors (mk (Some (lazy_init c))) = has_errors c.
Proof. by destruct c as [[d|]]. Qed.

End CollectorGrowth.

(** X1.  Merging a sub-error loses nothing: whatever payload
    [add_suberror] is given, every path of the collector is still a path
    afterwards and what it held is the beginning of what it holds. *)
Theorem add_suberror_loses_nothing (field : string) (subdoc : option JValue)
    (c : ErrorCollector.t) (path : string) :
  (ErrorCollector.entry c path <> None ->
   ErrorCollector.entry (ErrorCollector.add_suberror field subdoc c) path <> None)
  /\ list.prefix (recorded c path)
       (recorded (ErrorCollector.add_suberror field subdoc c) path).
Proof. apply add_suberror_extends. Qed.

(** X2.  After [add_suberror] the collector has errors exactly when it had
    some before or the payload was anything but an object without members:
    a payload that does not parse, or is no object, counts as one error,
    and the payload [{}] adds none. *)
Theorem add_suberror_has_errors (field : string) (subdoc : option JValue)
    (c : ErrorCollector.t) :
  ErrorCollector.has_errors (ErrorCollector.add_suberror field subdoc c)
  = ErrorCollector.has_errors c || negb (carries_nothing subdoc).
Proof.
  destruct subdoc as [[| | | | |members]|];
    try (unfold ErrorCollector.add_suberror; rewrite has_errors_add_error;
         by rewrite orb_true_r).
  rewrite add_suberror_doc. destruct members as [|m members].
  - simpl. rewrite has_errors_lazy_init. by rewrite orb_false_r.
  - simpl carries_nothing. rewrite orb_true_r. unfold ErrorCollector.has_errors.
    cbn [ErrorCollector.doc_]. rewrite bool_decide_false; [done|].
    by apply (fold_put_nonempty (under field)).
Qed.

(** ** What validation does to the collector *)

Section ValidationGrowth.
Context `{Host}.

Lemma silent_ret {A} (x : A) : silent (mret x : M A).
Proof. done. Qed.

Lemma silent_bind {A B} (m : M A) (k : A -> M B) :
  silent m -> (forall x, silent (k x)) -> silent (m ≫= k).
Proof.
  intros Hm Hk w. run_m. specialize (Hm w).
  destruct (m w) as [x w']. simpl in *. by rewrite (Hk x w').
Qed.

Lemma grows_only_silent {A} (m : M (option A)) : silent m -> grows_only m.
Proof. intros Hm w. rewrite (Hm w). split; [apply extends_refl|done]. Qed.

Lemma grows_only_ret {A} (r : option A) : grows_only (mret r : M (option A)).
Proof. apply grows_only_silent, silent_ret. Qed.

Lemma grows_only_after_silent {A B} (m : M A) (k : A -> M (option B)) :
  silent m -> (forall x, grows_only (k x)) -> grows_only (m ≫= k).
Proof.
  intros Hm Hk w. run_m. specialize (Hm w).
  destruct (m w) as [x w']. simpl in *. rewrite <- Hm. apply Hk.
Qed.

(** Sequencing two steps of which the second gives up when the first gave
    nothing. *)
Lemma grows_only_bind {A B} (m : M (option A)) (k : option A -> M (option B)) :
  grows_only m -> (forall x, grows_only (k x)) ->
  (forall w, fst (k None w) = None) ->
  grows_only (m ≫= k).
Proof.
  intros Hm Hk Hnone w. run_m. specialize (Hm w).
  destruct (m w) as [x w'] eqn:E. simpl in *. destruct Hm as [Hext Hsame].
  destruct (Hk x w') as [Hext' Hsame']. split.
  - by apply (extends_trans _ (collector w')).
  - intros Hres. destruct x as [x|].
    + rewrite Hsame' by done. by apply Hsame.
    + by rewrite Hnone in Hres.
Qed.

(** A failure that records one error. *)
Lemma grows_only_reject {A} path message :
  grows_only (PyErr_Clear;; record_error path message;; mret (None : option A)).
Proof. intros w. split; [apply add_error_extends|done]. Qed.

Lemma grows_only_record {A} path message :
  grows_only (record_error path message;; mret (None : option A)).
Proof. intros w. split; [apply add_error_extends|done]. Qed.

Lemma silent_is_instance value type : silent (is_instance value type).
Proof. intros w. unfold is_instance. simpl. by destruct (Z.ltb _ 0). Qed.

Lemma silent_call_function f arguments : silent (call_function f arguments).
Proof. done. Qed.

Lemma silent_call_type type kwds : silent (call_type type kwds).
Proof. done. Qed.

Lemma silent_fault {A} : silent (fault : M (option A)).
Proof. done. Qed.

Lemma silent_PyErr_Set e : silent (PyErr_Set e).
Proof. done. Qed.

Lemma grows_only_validate_primitive check ctor kind value path :
  grows_only (validate_primitive check ctor kind value path).
Proof.
  unfold validate_primitive. destruct (check value); [apply grows_only_ret|].
  apply grows_only_after_silent; [apply silent_call_function|].
  intros [c|]; [|apply grows_only_reject].
  destruct (check c); [apply grows_only_ret|apply grows_only_reject].
Qed.

Lemma grows_only_validate_data_model value ts path :
  grows_only (validate_data_model value ts path).
Proof.
  unfold validate_data_model.
  apply grows_only_after_silent; [apply silent_call_type|].
  intros [obj|nested_json]; [apply grows_only_ret|].
  intros w. split; [apply add_suberror_extends|done].
Qed.

Lemma grows_only_convert_using_constructor value ts path :
  grows_only (convert_using_constructor value ts path).
Proof.
  unfold convert_using_constructor, expected_type_error.
  apply grows_only_after_silent; [apply silent_call_function|].
  intros [c|]; [|apply grows_only_reject].
  apply grows_only_after_silent; [apply silent_is_instance|].
  intros ok. destruct (negb (Z.eqb ok 0)); [apply grows_only_ret|apply grows_only_reject].
Qed.

Lemma silent_try_deserializer value ts deserializers :
  silent (try_deserializer value ts deserializers).
Proof. intros w. apply try_deserializer_collector. Qed.

Lemma grows_only_validate_plain value ts path deserializers :
  grows_only (validate_plain value ts path deserializers).
Proof.
  unfold validate_plain.
  apply grows_only_after_silent; [apply silent_is_instance|].
  intros inst. destruct (negb (Z.eqb inst 0)); [apply grows_only_ret|].
  apply grows_only_after_silent; [apply silent_try_deserializer|].
  intros [d|]; [apply grows_only_ret|].
  repeat (match goal with |- context [if ?b then _ else _] => destruct b end;
          [apply grows_only_validate_primitive|]).
  apply grows_only_convert_using_constructor.
Qed.

End ValidationGrowth.

(** ** Induction over a schema and its arguments *)

Lemma TypeSchema_nested_ind (P : TypeSchema -> Prop) :
  (forall ts, Forall P (args ts) -> P ts) -> forall ts, P ts.
Proof.
  intros step. fix rec 1. intros ts. apply step.
  destruct ts as [e o a dm opt ck inner]. simpl.
  induction a as [|c a IHa]; constructor; [apply rec|exact IHa].
Qed.

Lemma validate_and_convert_unfold `{Host} value ts path deserializers :
  validate_and_convert value ts path deserializers
  = if ptr_eqb value Py_None && is_optional ts then mret (Some Py_None)
    else if ptr_eqb (expected_type ts) AnyType then mret (Some value)
    else if is_data_model ts && PyDict_Check value then
      validate_data_model value ts path
    else
      match container_kind ts with
      | CK_LIST => validate_list validate_and_convert value ts path deserializers
      | CK_DICT => validate_dict validate_and_convert value ts path deserializers
      | CK_TUPLE => validate_tuple validate_and_convert value ts path deserializers
      | CK_SET => validate_set validate_and_convert value ts path deserializers
      | _ =>
          if ptr_eqb (origin ts) Py_None then
            validate_plain value ts path deserializers
          else if bool_decide (container_kind ts = CK_UNION) then
            validate_union validate_and_convert value ts path deserializers
          else convert_using_constructor value ts path
      end.
Proof. by destruct ts. Qed.

Section ContainerGrowth.
Context `{Host}.

(** [rec] behaves at the schema [c]. *)
Let behaves (rec : Validator) (c : TypeSchema) : Prop :=
  forall v p d, grows_only (rec v c p d).

Lemma grows_only_list_items rec elem items path d :
  Forall (behaves rec) elem ->
  forall i, grows_only (list_items rec elem items i path d).
Proof.
  intros Hrec. induction items as [|item rest IH]; intros i; simpl.
  - apply grows_only_ret.
  - destruct Hrec as [|a0 others Ha0 _]; [apply grows_only_silent, silent_fault|].
    apply grows_only_bind; [apply Ha0| |done].
    intros [c|]; [|apply grows_only_ret].
    apply grows_only_bind; [apply IH| |done].
    intros tail. apply grows_only_ret.
Qed.

Lemma grows_only_validate_list rec value ts path d :
  Forall (behaves rec) (args ts) -> grows_only (validate_list rec value ts path d).
Proof.
  intros Hrec. unfold validate_list.
  destruct value; try apply grows_only_record.
  apply grows_only_bind; [by apply grows_only_list_items| |done].
  intros new_list. apply grows_only_ret.
Qed.

Lemma grows_only_dict_items rec key_schema val_schema entries path d :
  behaves rec key_schema -> behaves rec val_schema ->
  forall new_dict,
    grows_only (dict_items rec key_schema val_schema entries new_dict path d).
Proof.
  intros Hk Hv. induction entries as [|[key val] rest IH]; intros new_dict; simpl.
  - apply grows_only_ret.
  - apply grows_only_bind; [apply Hk| |done].
    intros [k|]; [|apply grows_only_ret].
    apply grows_only_bind; [apply Hv| |done].
    intros [v|]; [|apply grows_only_ret].
    destruct (PyDict_SetItem new_dict k v); [apply IH|].
    apply grows_only_silent. intros w. done.
Qed.

Lemma grows_only_validate_dict rec value ts path d :
  Forall (behaves rec) (args ts) -> grows_only (validate_dict rec value ts path d).
Proof.
  intros Hrec. unfold validate_dict.
  destruct value; try apply grows_only_record.
  destruct Hrec as [|k ? Hk [|v ? Hv _]]; try apply grows_only_silent, silent_fault.
  apply grows_only_bind; [by apply grows_only_dict_items| |done].
  intros new_dict. apply grows_only_ret.
Qed.

Lemma grows_only_tuple_items rec items path d :
  forall schemas i, Forall (behaves rec) schemas ->
  grows_only (tuple_items rec schemas items i path d).
Proof.
  induction items as [|item rest IH]; intros schemas i Hrec.
  - destruct schemas; apply grows_only_ret.
  - destruct Hrec as [|ai later Hai Hlater]; simpl;
      [apply grows_only_silent, silent_fault|].
    apply grows_only_bind; [apply Hai| |done].
    intros [c|]; [|apply grows_only_ret].
    apply grows_only_bind; [by apply IH| |done].
    intros tail. apply grows_only_ret.
Qed.

Lemma grows_only_validate_tuple rec value ts path d :
  Forall (behaves rec) (args ts) -> grows_only (validate_tuple rec value ts path d).
Proof.
  intros Hrec. unfold validate_tuple.
  destruct value; try apply grows_only_record.
  destruct (negb (Nat.eqb (num_args ts) (List.length items)));
    [apply grows_only_record|].
  apply grows_only_bind; [by apply grows_only_tuple_items| |done].
  intros new_tuple. apply grows_only_ret.
Qed.

Lemma grows_only_set_items rec elem items path d :
  Forall (behaves rec) elem ->
  forall new_set idx, grows_only (set_items rec elem items new_set idx path d).
Proof.
  intros Hrec. induction items as [|item rest IH]; intros new_set idx; simpl.
  - apply grows_only_ret.
  - destruct Hrec as [|a0 others Ha0 _]; [apply grows_only_silent, silent_fault|].
    apply grows_only_bind; [apply Ha0| |done].
    intros [c|]; [|apply grows_only_ret].
    destruct (PySet_Add new_set c); [apply IH|].
    apply grows_only_silent. intros w. done.
Qed.

Lemma grows_only_validate_set rec value ts path d :
  Forall (behaves rec) (args ts) -> grows_only (validate_set rec value ts path d).
Proof.
  intros Hrec. unfold validate_set.
  destruct value; try apply grows_only_record.
  apply grows_only_bind; [by apply grows_only_set_items| |done].
  intros new_set. apply grows_only_ret.
Qed.

Lemma silent_union_match candidates value : silent (union_match candidates value).
Proof. intros w. apply union_match_world. Qed.

Lemma silent_with_temp_collector {A} (m : M A) : silent (with_temp_collector m).
Proof. intros w. unfold with_temp_collector. by destruct (m _). Qed.

Lemma grows_only_validate_union rec value ts path d :
  grows_only (validate_union rec value ts path d).
Proof.
  unfold validate_union.
  apply grows_only_after_silent; [apply silent_union_match|].
  intros [|]; [apply grows_only_ret|].
  apply grows_only_after_silent; [apply silent_with_temp_collector|].
  intros [c|]; [apply grows_only_ret|apply grows_only_record].
Qed.

Lemma grows_only_validate_and_convert ts :
  forall value path d, grows_only (validate_and_convert value ts path d).
Proof.
  induction ts as [ts IH] using TypeSchema_nested_ind. intros value path d.
  rewrite validate_and_convert_unfold.
  destruct (ptr_eqb value Py_None && is_optional ts); [apply grows_only_ret|].
  destruct (ptr_eqb (expected_type ts) AnyType); [apply grows_only_ret|].
  destruct (is_data_model ts && PyDict_Check value);
    [apply grows_only_validate_data_model|].
  destruct (container_kind ts).
  - destruct (ptr_eqb (origin ts) Py_None); [apply grows_only_validate_plain|].
    simpl. apply grows_only_convert_using_constructor.
  - by apply grows_only_validate_dict.
  - by apply grows_only_validate_list.
  - by apply grows_only_validate_tuple.
  - by apply grows_only_validate_set.
  - destruct (ptr_eqb (origin ts) Py_None); [apply grows_only_validate_plain|].
    simpl. apply grows_only_validate_union.
Qed.

End ContainerGrowth.

(** ** Reads of [args] stay in range *)

Section FaultFreedom.
Context `{Host}.

Lemma fault_free_ret {A} (x : A) : fault_free (mret x : M A).
Proof. by intros w. Qed.

Lemma fault_free_bind {A B} (m : M A) (k : A -> M B) :
  fault_free m -> (forall x, fault_free (k x)) -> fault_free (m ≫= k).
Proof.
  intros Hm Hk w Hw. run_m. specialize (Hm w Hw).
  destruct (m w) as [x w']. by apply Hk.
Qed.

Lemma fault_free_is_instance value type : fault_free (is_instance value type).
Proof. intros w Hw. unfold is_instance. simpl. by destruct (Z.ltb _ 0). Qed.

Lemma fault_free_call_function f arguments : fault_free (call_function f arguments).
Proof.
  intros w Hw. unfold call_function. simpl.
  by destruct (PyObject_CallFunctionObjArgs f arguments).
Qed.

Lemma fault_free_call_type type kwds : fault_free (call_type type kwds).
Proof. intros w Hw. unfold call_type. simpl. by destruct (PyObject_Call type kwds). Qed.

Lemma fault_free_PyErr_Clear : fault_free PyErr_Clear.
Proof. by intros w. Qed.

Lemma fault_free_from_host : fault_free (PyErr_Set PyExc_FromHost).
Proof. by intros w. Qed.

Lemma fault_free_record_error path message : fault_free (record_error path message).
Proof. by intros w. Qed.

Lemma fault_free_record_suberror path subdoc : fault_free (record_suberror path subdoc).
Proof. by intros w. Qed.

Lemma fault_free_with_temp_collector {A} (m : M A) :
  fault_free m -> fault_free (with_temp_collector m).
Proof.
  intros Hm w Hw. unfold with_temp_collector.
  specialize (Hm (mkWorld ErrorCollector.new (err_indicator w) (call_log w)) Hw).
  by destruct (m _).
Qed.

Ltac fault_free_step :=
  first
    [ apply fault_free_ret | apply fault_free_is_instance
    | apply fault_free_call_function | apply fault_free_call_type
    | apply fault_free_PyErr_Clear | apply fault_free_from_host
    | apply fault_free_record_error | apply fault_free_record_suberror
    | assumption
    | apply fault_free_bind; [|intros ?]
    | match goal with
      | |- fault_free (match ?x with _ => _ end) => destruct x
      | |- fault_free (let (_, _) := ?x in _) => destruct x
      end ].

Lemma fault_free_validate_primitive check ctor kind value path :
  fault_free (validate_primitive check ctor kind value path).
Proof. unfold validate_primitive. repeat fault_free_step. Qed.

Lemma fault_free_validate_data_model value ts path :
  fault_free (validate_data_model value ts path).
Proof. unfold validate_data_model. repeat fault_free_step. Qed.

Lemma fault_free_convert_using_constructor value ts path :
  fault_free (convert_using_constructor value ts path).
Proof.
  unfold convert_using_constructor, expected_type_error. repeat fault_free_step.
Qed.

Lemma fault_free_validate_plain value ts path deserializers :
  fault_free (validate_plain value ts path deserializers).
Proof.
  unfold validate_plain, try_deserializer.
  repeat first [ apply fault_free_validate_primitive
               | apply fault_free_convert_using_constructor
               | fault_free_step ].
Qed.

Let in_range (rec : Validator) (c : TypeSchema) : Prop :=
  forall v p d, fault_free (rec v c p d).

Lemma fault_free_list_items rec a0 others items path d :
  in_range rec a0 ->
  forall i, fault_free (list_items rec (a0 :: others) items i path d).
Proof.
  intros Ha0. induction items as [|item rest IH]; intros i; simpl.
  - apply fault_free_ret.
  - apply fault_free_bind; [apply Ha0|]. intros [c|]; [|apply fault_free_ret].
    apply fault_free_bind; [apply IH|]. intros tail. apply fault_free_ret.
Qed.

Lemma fault_free_dict_items rec key_schema val_schema entries path d :
  in_range rec key_schema -> in_range rec val_schema ->
  forall new_dict,
    fault_free (dict_items rec key_schema val_schema entries new_dict path d).
Proof.
  intros Hk Hv. induction entries as [|[key val] rest IH]; intros new_dict; simpl.
  - apply fault_free_ret.
  - apply fault_free_bind; [apply Hk|]. intros [k|]; [|apply fault_free_ret].
    apply fault_free_bind; [apply Hv|]. intros [v|]; [|apply fault_free_ret].
    destruct (PyDict_SetItem new_dict k v); [apply IH|]. repeat fault_free_step.
Qed.

Lemma fault_free_tuple_items rec items path d :
  forall schemas i,
    List.length schemas = List.length items -> Forall (in_range rec) schemas ->
    fault_free (tuple_items rec schemas items i path d).
Proof.
  induction items as [|item rest IH]; intros schemas i Hlen Hrec.
  - destruct schemas; apply fault_free_ret.
  - destruct Hrec as [|ai later Hai Hlater]; [done|]. simpl.
    apply fault_free_bind; [apply Hai|]. intros [c|]; [|apply fault_free_ret].
    apply fault_free_bind; [apply IH; [by injection Hlen|done]|].
    intros tail. apply fault_free_ret.
Qed.

Lemma fault_free_set_items rec a0 others items path d :
  in_range rec a0 ->
  forall new_set idx,
    fault_free (set_items rec (a0 :: others) items new_set idx path d).
Proof.
  intros Ha0. induction items as [|item rest IH]; intros new_set idx; simpl.
  - apply fault_free_ret.
  - apply fault_free_bind; [apply Ha0|]. intros [c|]; [|apply fault_free_ret].
    destruct (PySet_Add new_set c); [apply IH|]. repeat fault_free_step.
Qed.

Lemma fault_free_union_match candidates value :
  fault_free (union_match candidates value).
Proof.
  induction candidates as [|c cs IH]; simpl; [apply fault_free_ret|].
  apply fault_free_bind; [apply fault_free_is_instance|].
  intros inst. destruct (negb (Z.eqb inst 0)); [apply fault_free_ret|apply IH].
Qed.

Lemma fault_free_union_convert rec candidates value path d :
  Forall (in_range rec) candidates ->
  fault_free (union_convert rec candidates value path d).
Proof.
  induction 1 as [|c cs Hc _ IH]; simpl; [apply fault_free_ret|].
  apply fault_free_bind; [apply Hc|]. intros [v|]; [apply fault_free_ret|].
  apply fault_free_bind; [apply fault_free_PyErr_Clear|]. intros _. apply IH.
Qed.

Lemma fault_free_validate_and_convert ts :
  everywhere args_in_range ts ->
  forall value path d, fault_free (validate_and_convert value ts path d).
Proof.
  induction ts as [ts IH] using TypeSchema_nested_ind.
  intros Hwf value path d. inversion Hwf as [? (Hlist & Hdict & Hset) Hargs]; subst.
  assert (Hrec : Forall (in_range validate_and_convert) (args ts)).
  { rewrite Forall_forall in IH, Hargs |- *. intros c Hc v p d'. by apply IH, Hargs. }
  rewrite validate_and_convert_unfold.
  destruct (ptr_eqb value Py_None && is_optional ts); [apply fault_free_ret|].
  destruct (ptr_eqb (expected_type ts) AnyType); [apply fault_free_ret|].
  destruct (is_data_model ts && PyDict_Check value);
    [apply fault_free_validate_data_model|].
  destruct (container_kind ts) eqn:Hck.
  - destruct (ptr_eqb (origin ts) Py_None); [apply fault_free_validate_plain|].
    simpl. apply fault_free_convert_using_constructor.
  - unfold validate_dict. destruct value; try (by repeat fault_free_step).
    specialize (Hdict eq_refl).
    destruct Hrec as [|k ? Hk [|v ? Hv _]]; simpl in Hdict; try lia.
    apply fault_free_bind; [by apply fault_free_dict_items|].
    intros r. apply fault_free_ret.
  - unfold validate_list. destruct value; try (by repeat fault_free_step).
    specialize (Hlist eq_refl). destruct Hrec as [|a0 ? Ha0 _]; [done|].
    apply fault_free_bind; [by apply fault_free_list_items|].
    intros r. apply fault_free_ret.
  - unfold validate_tuple. destruct value; try (by repeat fault_free_step).
    destruct (Nat.eqb (num_args ts) (List.length items)) eqn:Hn; simpl;
      [|repeat fault_free_step].
    apply Nat.eqb_eq in Hn.
    apply fault_free_bind; [by apply fault_free_tuple_items|].
    intros r. apply fault_free_ret.
  - unfold validate_set. destruct value; try (by repeat fault_free_step).
    specialize (Hset eq_refl). destruct Hrec as [|a0 ? Ha0 _]; [done|].
    apply fault_free_bind; [by apply fault_free_set_items|].
    intros r. apply fault_free_ret.
  - destruct (ptr_eqb (origin ts) Py_None); [apply fault_free_validate_plain|].
    simpl. unfold validate_union.
    apply fault_free_bind; [apply fault_free_union_match|].
    intros [|]; [apply fault_free_ret|].
    apply fault_free_bind;
      [by apply fault_free_with_temp_collector, fault_free_union_convert|].
    intros [c|]; repeat fault_free_step.
Qed.

End FaultFreedom.

(** ** What validation does to the collector *)

(** X3.  A validation that returns a value has recorded nothing: whatever
    the schema, the value and the registry of deserializers, the collector
    comes back exactly as it went in, including after failed attempts on
    earlier alternatives of a union. *)
Theorem success_records_nothing `{Host} (value : PyObject) (ts : TypeSchema)
    (path : string) (d : option Deserializers) (w w' : World)
    (converted : PyObject) :
  validate_and_convert value ts path d w = (Some converted, w') ->
  collector w' = collector w.
Proof.
  intros Hrun. destruct (grows_only_validate_and_convert ts value path d w) as [_ Hsame].
  rewrite Hrun in Hsame. by apply Hsame.
Qed.

(** X4.  Validation never drops or rewrites what the collector holds: every
    path that had an entry still has one afterwards, and the messages it
    held are still there, in the same order, before any new one. *)
Theorem validation_keeps_collector `{Host} (value : PyObject) (ts : TypeSchema)
    (path : string) (d : option Deserializers) (w : World) (earlier : string) :
  (ErrorCollector.entry (collector w) earlier <> None ->
   ErrorCollector.entry
     (collector (snd (validate_and_convert value ts path d w))) earlier <> None)
  /\ list.prefix
       (recorded (collector w) earlier)
       (recorded (collector (snd (validate_and_convert value ts path d w))) earlier).
Proof.
  destruct (grows_only_validate_and_convert ts value path d w) as [Hext _].
  apply Hext.
Qed.

(** ** The compiled schema *)

Section CompilerFacts.
Context `{Host}.

Lemma PyObject_alias_ind (P : PyObject -> Prop) :
  (forall t, Forall P (type_args t) -> P t) -> forall t, P t.
Proof.
  intros step. fix rec 1. intros t. apply step.
  destruct t as [| | | | | | | | | |o type_arguments|o| | |]; simpl;
    try apply List.Forall_nil.
  induction type_arguments as [|a l IHl]; constructor; [apply rec | apply IHl].
Qed.

Lemma compile_type_schema_unfold t :
  compile_type_schema t =
  let is_sub :=
    if PyType_Check t then PyObject_IsSubclass t DataModelType else 0 in
  let is_data_model := negb (Z.ltb is_sub 0) && negb (Z.eqb is_sub 0) in
  match t with
  | PyAlias o type_args =>
      handle_container_kind
        (mkTypeSchema t (normalize_origin o)
           (map compile_type_schema type_args) is_data_model false CK_NONE None)
  | PyGeneric o =>
      mkTypeSchema t (normalize_origin o) [] is_data_model false CK_NONE None
  | _ => mkTypeSchema t Py_None [] is_data_model false CK_NONE None
  end.
Proof. by destruct t. Qed.

Lemma handle_container_kind_args ts :
  args (handle_container_kind ts) = args ts.
Proof. unfold handle_container_kind. by repeat case_match. Qed.

Lemma handle_container_kind_expected_type ts :
  expected_type (handle_container_kind ts) = expected_type ts.
Proof. unfold handle_container_kind. by repeat case_match. Qed.

Lemma handle_container_kind_shape ts :
  is_optional ts = false -> inner_model_type ts = None ->
  compiled_shape (handle_container_kind ts).
Proof.
  intros Hopt Hinner. unfold handle_container_kind, compiled_shape, num_args.
  destruct (negb (ptr_eqb (origin ts) Py_None)) eqn:Ho.
  - assert (origin ts <> Py_None) by (intros E; by rewrite E in Ho).
    repeat case_match; simpl; repeat split; try done;
      try (intros _; repeat match goal with
                            | E : _ && _ = true |- _ => apply andb_prop in E as [_ E]
                            end; by apply Nat.eqb_eq);
      try (by rewrite Hopt).
  - simpl. repeat split; try done. by rewrite Hopt.
Qed.

Lemma compile_type_schema_args t :
  args (compile_type_schema t) = map compile_type_schema (type_args t).
Proof.
  rewrite compile_type_schema_unfold. destruct t; try done.
  cbn zeta. by rewrite handle_container_kind_args.
Qed.

Lemma compile_type_schema_node_shape t : compiled_shape (compile_type_schema t).
Proof.
  rewrite compile_type_schema_unfold. destruct t;
    try by (cbn zeta; unfold compiled_shape; simpl; repeat split).
  cbn zeta. by apply handle_container_kind_shape.
Qed.

Lemma compile_type_schema_everywhere (P : TypeSchema -> Prop) (Q : PyObject -> Prop) :
  (forall t, Q t -> P (compile_type_schema t)) ->
  (forall t, Q t -> Forall Q (type_args t)) ->
  forall t, Q t -> everywhere P (compile_type_schema t).
Proof.
  intros HP Hdown. induction t as [t IH] using PyObject_alias_ind. intros HQ.
  constructor; [by apply HP|].
  rewrite compile_type_schema_args. apply Forall_map.
  specialize (Hdown t HQ). rewrite Forall_forall in IH, Hdown |- *.
  intros a Ha. by apply IH, Hdown.
Qed.

Lemma fully_subscripted_in_range t :
  fully_subscripted t -> args_in_range (compile_type_schema t).
Proof.
  intros Hsub. destruct (compile_type_schema_node_shape t) as (Hlist & Hdict & _).
  repeat split.
  - intros Hck E. apply Hlist in Hck. by rewrite E in Hck.
  - intros Hck. apply Hdict in Hck. by rewrite Hck.
  - intros Hck. rewrite compile_type_schema_args. inversion Hsub as [? Hne _]; subst.
    destruct t as [| | | | | | | | | |o type_arguments|o| | |]; simpl;
      try by (rewrite compile_type_schema_unfold in Hck).
    destruct type_arguments; [by destruct (Hne o)|done].
Qed.

End CompilerFacts.

(** X5.  Whatever the type descriptor, every node of the compiled schema
    keeps the compiler's invariants: a list node has exactly one argument
    schema and a dict node exactly two, a node without origin is no
    container, only a union node is optional, and only a container node
    names an inner model type. *)
Theorem compiled_schema_shape `{Host} (t : PyObject) :
  everywhere compiled_shape (compile_type_schema t).
Proof.
  apply (compile_type_schema_everywhere compiled_shape (fun _ => True)); try done.
  - intros t' _. apply compile_type_schema_node_shape.
  - intros t' _. by apply Forall_forall.
Qed.

(** X6.  Validating any value against the compiled schema of a type whose
    subscripted generics all carry type arguments never reads an argument
    schema that is not there. *)
Theorem compiled_validation_stays_in_range `{Host} (t value : PyObject)
    (path : string) (d : option Deserializers) (w : World) :
  fully_subscripted t ->
  err_indicator w <> Some Fault ->
  err_indicator (snd (validate_and_convert value (compile_type_schema t) path d w))
  <> Some Fault.
Proof.
  intros Hsub. apply fault_free_validate_and_convert.
  apply (compile_type_schema_everywhere args_in_range fully_subscripted); try done.
  - apply fully_subscripted_in_range.
  - by inversion 1.
Qed.

(** ** Construction and assignment *)

Section ConstructionFacts.
Context `{Host}.

Lemma keeps_fields_refl data : keeps_fields data data.
Proof. by intros name. Qed.

Lemma keeps_fields_trans d1 d2 d3 :
  keeps_fields d1 d2 -> keeps_fields d2 d3 -> keeps_fields d1 d3.
Proof. intros H12 H23 name Hname. by apply H23, H12. Qed.

Lemma keeps_fields_insert (data : InstanceData) name v :
  keeps_fields data (<[name := v]> data).
Proof.
  intros other Hother. apply lookup_insert_is_Some.
  destruct (decide (name = other)); [by left | by right].
Qed.

(** One iteration of the field loop either stores a value under the
    field's name, or takes the [continue] with an error recorded. *)
Lemma init_field_outcome d kwds data fs w :
  extends (collector w) (collector (snd (init_field d kwds data fs w)))
  /\ ((exists v, fst (init_field d kwds data fs w) = <[field_name_c fs := v]> data)
      \/ (fst (init_field d kwds data fs w) = data
          /\ ErrorCollector.has_errors
               (collector (snd (init_field d kwds data fs w))) = true)).
Proof.
  assert (Hstore : forall value w0,
    extends (collector w0)
      (collector (snd (validate_field d data fs value w0)))
    /\ exists v, fst (validate_field d data fs value w0)
                 = <[field_name_c fs := v]> data).
  { intros value w0. unfold validate_field. run_m.
    destruct (grows_only_validate_and_convert (type_schema fs) value
                (field_name_c fs) d w0) as [Hext _].
    destruct (validate_and_convert _ _ _ _ w0) as [[v|] w1]; simpl in *; eauto. }
  unfold init_field. run_m.
  destruct (resolve_input kwds fs) as [value|].
  { destruct (Hstore value w) as [Hext Hv]. split; [done | by left]. }
  unfold resolve_missing. run_m.
  destruct (negb (ptr_eqb (default_factory fs) Py_None)
            && PyCallable_Check (default_factory fs)).
  - unfold call_function. cbn beta iota zeta.
    destruct (PyObject_CallFunctionObjArgs (default_factory fs) []) as [v|].
    + match goal with
      | |- context [validate_field d data fs v ?w0] =>
          destruct (Hstore v w0) as [Hext Hv]
      end.
      split; [done | by left].
    + simpl. split; [apply add_error_extends|right]. split; [done|].
      apply has_errors_add_error.
  - destruct (negb (ptr_eqb (default_value fs) VLDTUndefined)).
    { destruct (Hstore (default_value fs) w) as [Hext Hv]. split; [done | by left]. }
    destruct (is_optional (type_schema fs)).
    { destruct (Hstore Py_None w) as [Hext Hv]. split; [done | by left]. }
    simpl. split; [apply add_error_extends|right]. split; [done|].
    apply has_errors_add_error.
Qed.

Lemma init_fields_outcome d kwds fs : forall data w,
  extends (collector w) (collector (snd (init_fields d kwds data fs w)))
  /\ keeps_fields data (fst (init_fields d kwds data fs w))
  /\ (ErrorCollector.has_errors
        (collector (snd (init_fields d kwds data fs w))) = false ->
      forall f, f ∈ fs ->
                is_Some (fst (init_fields d kwds data fs w) !! field_name_c f)).
Proof.
  induction fs as [|f rest IH]; intros data w; simpl.
  - split; [apply extends_refl|]. split; [apply keeps_fields_refl|].
    intros _ f Hf. by apply elem_of_nil in Hf.
  - run_m. destruct (init_field_outcome d kwds data f w) as [Hext Hout].
    destruct (init_field d kwds data f w) as [data1 w1]. simpl in Hext, Hout.
    destruct (IH data1 w1) as (Hext' & Hkeep & Hall).
    split; [by eapply extends_trans|].
    split.
    { eapply keeps_fields_trans; [|exact Hkeep].
      destruct Hout as [[v ->]|[-> _]];
        [apply keeps_fields_insert | apply keeps_fields_refl]. }
    intros Hclean g Hg. apply elem_of_cons in Hg as [->|Hg]; [|by apply Hall].
    destruct Hout as [[v ->]|[_ Herr]].
    + apply Hkeep. rewrite lookup_insert_is_Some. by left.
    + apply (has_errors_extends _ _ Hext') in Herr. congruence.
Qed.

Lemma setattro_outcome schema data name value w :
  (Z.ltb (fst (fst (DataModel_setattro schema data name value w))) 0 = true
   /\ snd (fst (DataModel_setattro schema data name value w)) = data)
  \/ (fst (fst (DataModel_setattro schema data name value w)) = 0
      /\ exists v, snd (fst (DataModel_setattro schema data name value w))
                   = <[c_str name := v]> data).
Proof.
  unfold DataModel_setattro. destruct schema as [schema|]; [|by left].
  destruct (PyDict_GetItem _ _) as [expected_type|]; [|right; eauto].
  destruct (is_class_var expected_type); [by left|].
  run_m. unfold with_local_collector.
  destruct (validate_and_convert _ _ _ _ _) as [[v|] w1]; simpl.
  - right. eauto.
  - left. by destruct (ErrorCollector.has_errors _).
Qed.

Lemma setattro_keeps_fields schema data name value w :
  keeps_fields data (snd (fst (DataModel_setattro schema data name value w))).
Proof.
  destruct (setattro_outcome schema data name value w) as [[_ ->]|[_ [v ->]]];
    [apply keeps_fields_refl | apply keeps_fields_insert].
Qed.

Lemma field_after_loop_keeps_fields schema cls field_after : forall data w,
  keeps_fields data (snd (fst (field_after_loop schema cls field_after data w))).
Proof.
  induction field_after as [|[key val] rest IH]; intros data w;
    cbn [field_after_loop]; [apply keeps_fields_refl|].
  destruct key; try apply IH. destruct val; try apply IH.
  destruct (DataModel_getattro cls data s) as [current|]; [|apply IH].
  run_m. destruct (run_chain cls items current w) as [[v|] w1];
    [|apply keeps_fields_refl].
  pose proof (setattro_keeps_fields (Some schema) data s v w1) as Hset.
  destruct (DataModel_setattro (Some schema) data s v w1) as [[status data1] w2].
  cbn [fst snd] in Hset |- *. destruct (Z.ltb status 0); [done|].
  eapply keeps_fields_trans; [exact Hset | apply IH].
Qed.

(** X7.  When [DataModel_init] returns 0, every declared field has a stored
    value: no field was skipped, whatever the validators of the model did. *)
Theorem construction_stores_every_field (schema : SchemaCache) (cls : PyObject)
    (data : InstanceData) (kwds : option PyObject) (w : World)
    (data' : InstanceData) (w' : World) :
  DataModel_init (Some schema) cls data kwds w = ((0, data'), w') ->
  forall f, f ∈ fields schema -> is_Some (data' !! field_name_c f).
Proof.
  unfold DataModel_init. run_m.
  destruct (run_model_before_validators schema cls kwds w) as [[s1 k1] w1].
  destruct (negb (Z.eqb s1 0)); [by intros [=]|].
  destruct (run_field_before_validators schema cls k1 w1) as [[s2 k2] w2].
  destruct (negb (Z.eqb s2 0)); [by intros [=]|].
  unfold with_local_collector.
  match goal with
  | |- context [init_fields ?d ?k ?dt ?fs ?w0] =>
      destruct (init_fields_outcome d k fs dt w0) as (_ & _ & Hall);
      destruct (init_fields d k dt fs w0) as [data1 w3]
  end.
  simpl in Hall. cbn beta iota zeta.
  destruct (ErrorCollector.has_errors (collector w3)); [by intros [=]|].
  specialize (Hall eq_refl).
  unfold run_field_after_validators.
  match goal with
  | |- context [mkWorld ?c ?e ?l] => generalize (mkWorld c e l)
  end.
  intros w4 Hrun f Hf. specialize (Hall f Hf). revert Hrun.
  assert (Hafter : forall r w5,
    (if negb (has_field_after schema) then (fun w => ((0, data1), w))
     else match PyDict_GetItem (validators schema) (PyUnicode "field_after") with
          | Some (PyDict field_after) => field_after_loop schema cls field_after data1
          | _ => fun w => ((0, data1), w)
          end) w4 = (r, w5) -> keeps_fields data1 (snd r)).
  { intros r w5. destruct (negb (has_field_after schema));
      [intros [= <- _]; apply keeps_fields_refl|].
    destruct (PyDict_GetItem _ _) as [[]|];
      try (intros [= <- _]; apply keeps_fields_refl).
    intros Hloop.
    pose proof (field_after_loop_keeps_fields schema cls entries data1 w4) as Hk.
    by rewrite Hloop in Hk. }
  match goal with
  | |- context [let '(_, _) := ?m w4 in _] => destruct (m w4) as [[s3 data2] w5] eqn:Hm
  end.
  apply Hafter in Hm. simpl in Hm.
  destruct (negb (Z.eqb s3 0)); [by intros [=]|].
  destruct (run_model_after_validators schema cls data2 w5) as [s4 w6].
  destruct (negb (Z.eqb s4 0)); [by intros [=]|].
  intros [= <- _]. by apply Hm.
Qed.

(** X8.  An assignment is all or nothing.  When [DataModel_setattro] fails
    the stored fields are what they were; when it succeeds the assigned
    name reads back, as the value itself if the name has no annotation, and
    no other field has changed. *)
Theorem assignment_all_or_nothing (schema : option SchemaCache) (cls : PyObject)
    (data : InstanceData) (name : string) (value : PyObject) (w : World) :
  (fst (fst (DataModel_setattro schema data name value w)) = -1
   /\ snd (fst (DataModel_setattro schema data name value w)) = data)
  \/ (fst (fst (DataModel_setattro schema data name value w)) = 0
      /\ (exists v,
            DataModel_getattro cls
              (snd (fst (DataModel_setattro schema data name value w))) name
            = Some v
            /\ (forall s, schema = Some s ->
                 PyDict_GetItem (instance_annotations s) (PyUnicode name) = None ->
                 v = value))
      /\ forall other, other <> c_str name ->
           snd (fst (DataModel_setattro schema data name value w)) !! other
           = data !! other).
Proof.
  unfold DataModel_setattro, DataModel_getattro.
  destruct schema as [schema|]; [|by left].
  destruct (PyDict_GetItem _ _) as [expected_type|] eqn:Hann.
  - destruct (is_class_var expected_type); [by left|].
    run_m. unfold with_local_collector.
    destruct (validate_and_convert _ _ _ _ _) as [[v|] w1]; cbn [fst snd].
    + right. split; [done|]. split.
      * exists v. rewrite lookup_insert_eq. split; [done|].
        intros s [= <-]. by rewrite Hann.
      * intros other Hother. by rewrite lookup_insert_ne.
    + left. by destruct (ErrorCollector.has_errors _).
  - right. run_m. cbn [fst snd]. split; [done|]. split.
    + exists value. by rewrite lookup_insert_eq.
    + intros other Hother. by rewrite lookup_insert_ne.
Qed.

Lemma dict_replace_keys key v d : keys (dict_replace key v d) = keys d.
Proof.
  unfold keys. induction d as [|[k v0] rest IH]; simpl; [done|].
  destruct (PyObject_RichCompareBool_EQ k key); simpl; [done|].
  by rewrite IH.
Qed.

Lemma PyDict_SetItem_keys d key v d' :
  PyDict_SetItem d key v = Some d' ->
  list.prefix (keys d) (keys d')
  /\ (dict_find key d <> None -> keys d' = keys d).
Proof.
  unfold PyDict_SetItem. destruct (PyObject_Hashable key); [|done].
  intros [= <-]. destruct (dict_find key d).
  - rewrite dict_replace_keys. done.
  - split; [|done]. unfold keys. rewrite List.map_app. by apply prefix_app_r.
Qed.


Lemma field_before_loop_keys cls field_before : forall kwds w,
  keys (entries_of (snd (fst (field_before_loop cls field_before kwds w))))
  = keys (entries_of kwds).
Proof.
  induction field_before as [|[key val] rest IH]; intros kwds w;
    cbn [field_before_loop]; [done|].
  destruct kwds as [[]|]; try done.
  destruct (PyDict_GetItem (PyDict entries) key) as [current|] eqn:Hget;
    [|apply IH].
  run_m.
  match goal with
  | |- context [let '(_, _) := ?m w in _] => destruct (m w) as [[v|] w1]
  end; [|done].
  destruct (PyDict_SetItem entries key v) as [entries'|] eqn:Hset; [|done].
  rewrite IH. cbn [entries_of].
  apply PyDict_SetItem_keys in Hset as [_ Hsame]. apply Hsame.
  unfold PyDict_GetItem in Hget. destruct (PyObject_Hashable key); [|done].
  by rewrite Hget.
Qed.


(** X9.  Field-before validators replace values in place: whether the
    stage succeeds or fails, [kwds] has the same keys in the same order
    afterwards. *)
Theorem field_before_keeps_keys (schema : SchemaCache) (cls : PyObject)
    (kwds : option PyObject) (w : World) :
  keys (entries_of (snd (fst (run_field_before_validators schema cls kwds w))))
  = keys (entries_of kwds).
Proof.
  unfold run_field_before_validators.
  destruct (negb (has_field_before schema)); [done|].
  destruct (PyDict_GetItem _ _) as [[]|]; try done.
  apply field_before_loop_keys.
Qed.


(** X11.  A chain of field validators composes: running the chain
    [first ++ second] is running [first] and, when it gave a value, running
    [second] on that value; a failure in [first] ends the chain. *)
Theorem run_chain_composes (cls : PyObject) (first second : list PyObject)
    (value : PyObject) (w : World) :
  run_chain cls (first ++ second)%list value w
  = (r ← run_chain cls first value;
     match r with
     | Some v => run_chain cls second v
     | None => mret None
     end) w.
Proof.
  revert value w. induction first as [|validator rest IH]; intros value w;
    cbn [run_chain app]; [done|].
  destruct (get_callable_validator validator) as [callable|]; [|apply IH].
  run_m. unfold call_function. cbn beta iota zeta.
  destruct (PyObject_CallFunctionObjArgs _ _) as [v|]; [|done].
  apply IH.
Qed.

End ConstructionFacts.

Section FailTogether.
Context `{Host}.

Lemma init_field_validates deserializers kwds data f value w :
  resolve_input kwds f = Some value ->
  init_field deserializers kwds data f w
  = let '(converted, w') :=
      validate_and_convert value (type_schema f) (field_name_c f) deserializers w in
    (<[field_name_c f := default value converted]> data, w').
Proof.
  intros Hin. unfold init_field, validate_field. rewrite Hin. run_m.
  by destruct (validate_and_convert _ _ _ _ w) as [[v|] w'].
Qed.

(** X22.  Construction fails together.  A field whose input is there is
    validated against its schema, under its name, and what is stored is
    the converted value, or the value as it was given when validation
    failed.  The field loop has no exit: whatever a field did, the fields
    after it are run from the world it left, and what it recorded is still
    in the collector at the end.  When the loop has recorded any error,
    [DataModel_init] returns -1 with a [TypeError] that carries the whole
    rendered collector, and the call of the class returns no object.  Two
    required fields with different names, both missing, leave exactly two
    entries; and any number of required fields with different names, all
    missing, leave one entry each, in the order declared. *)
Theorem construction_fails_together (schema : SchemaCache) (cls : PyObject)
    (kwds kwds1 kwds2 : option PyObject) (w w1 w2 w3 : World)
    (data' : InstanceData) (c : ErrorCollector.t) :
  run_model_before_validators schema cls kwds w = ((0, kwds1), w1) ->
  run_field_before_validators schema cls kwds1 w1 = ((0, kwds2), w2) ->
  with_local_collector
    (init_fields (deserializers schema) kwds2 ∅ (fields schema)) w2
  = ((data', c), w3) ->
  ErrorCollector.has_errors c = true ->
  DataModel_init (Some schema) cls ∅ kwds w
  = ((-1, data'), raising (PyExc_TypeError (to_json c)) w3)
  /\ DataModel_call (Some schema) cls kwds w
     = (None, raising (PyExc_TypeError (to_json c)) w3)
  /\ (forall data f value w,
        resolve_input kwds2 f = Some value ->
        init_field (deserializers schema) kwds2 data f w
        = let '(converted, w') :=
            validate_and_convert value (type_schema f) (field_name_c f)
              (deserializers schema) w in
          (<[field_name_c f := default value converted]> data, w'))
  /\ (forall pre f post d1 wa d2 wb,
        fields schema = (pre ++ f :: post)%list ->
        init_fields (deserializers schema) kwds2 ∅ pre (scratch w2) = (d1, wa) ->
        init_field (deserializers schema) kwds2 d1 f wa = (d2, wb) ->
        init_fields (deserializers schema) kwds2 ∅ (fields schema) (scratch w2)
        = init_fields (deserializers schema) kwds2 d2 post wb
        /\ extends (collector wb) c)
  /\ (forall deserializers kwds data f1 f2 w,
        required f1 -> required f2 ->
        absent_everywhere kwds f1 -> absent_everywhere kwds f2 ->
        field_name_c f1 <> field_name_c f2 ->
        init_fields deserializers kwds data [f1; f2] (scratch w)
        = (data,
           mkWorld
             (ErrorCollector.mk
                (Some [(field_name_c f1, JString "Missing required field");
                       (field_name_c f2, JString "Missing required field")]))
             (err_indicator w) (call_log w)))
  /\ (forall deserializers kwds data fs w,
        fs <> [] ->
        Forall required fs -> Forall (absent_everywhere kwds) fs ->
        NoDup (List.map field_name_c fs) ->
        init_fields deserializers kwds data fs (scratch w)
        = (data,
           mkWorld (ErrorCollector.mk (Some (List.map missing_entry fs)))
             (err_indicator w) (call_log w))).
Proof.
  intros Hmb Hfb Hloop Herr.
  assert (Hinit : DataModel_init (Some schema) cls ∅ kwds w
                  = ((-1, data'), raising (PyExc_TypeError (to_json c)) w3)).
  { unfold DataModel_init. run_m. rewrite Hmb. cbn beta iota delta [negb Z.eqb].
    rewrite Hfb. cbn beta iota delta [negb Z.eqb].
    rewrite Hloop. cbn beta iota. by rewrite Herr. }
  split; [exact Hinit|]. split.
  { unfold DataModel_call. run_m. by rewrite Hinit. }
  split; [intros; by apply init_field_validates|].
  split.
  { intros pre f post d1 wa d2 wb Hfields Hpre Hf.
    assert (Hsplit :
      init_fields (deserializers schema) kwds2 ∅ (fields schema) (scratch w2)
      = init_fields (deserializers schema) kwds2 d2 post wb).
    { rewrite Hfields, init_fields_app, Hpre. cbn [init_fields]. run_m.
      by rewrite Hf. }
    split; [exact Hsplit|].
    unfold with_local_collector in Hloop. fold (scratch w2) in Hloop.
    rewrite Hsplit in Hloop.
    destruct (init_fields_outcome (deserializers schema) kwds2 post d2 wb)
      as [Hext _].
    destruct (init_fields _ _ d2 post wb) as [dd wf].
    injection Hloop as _ <- _. exact Hext. }
  split.
  - intros deserializers kwds' data f1 f2 w' R1 R2 A1 A2 Hne.
    simpl. run_m.
    rewrite (required_missing _ _ _ _ _ R1 A1), (required_missing _ _ _ _ _ R2 A2).
    unfold with_error, scratch, ErrorCollector.add_error, ErrorCollector.put_value,
      ErrorCollector.HasMember; simpl.
    by rewrite decide_False.
  - intros deserializers kwds' data fs w' Hne Hreq Habs Hnd. unfold scratch.
    rewrite init_fields_all_missing; try done.
    + by destruct fs.
    + apply Forall_forall. done.
Qed.

End FailTogether.

(** ** Lists, position by position *)

Section ShapeFacts.
Context `{Host}.

Lemma list_items_success rec a0 others items path d :
  forall i w converted w',
    list_items rec (a0 :: others) items i path d w = (Some converted, w') ->
    List.length converted = List.length items
    /\ forall k x, items !! k = Some x ->
         exists y w1 w2,
           converted !! k = Some y
           /\ rec x a0 (path_at path (fmt_zd (i + k))) d w1 = (Some y, w2).
Proof.
  induction items as [|item rest IH]; intros i w converted w'; simpl.
  - intros [= <- _]. split; [done|]. intros k x Hk. by destruct k.
  - run_m. destruct (rec item a0 _ d w) as [[c|] w1] eqn:Hitem; [|by intros [=]].
    destruct (list_items rec (a0 :: others) rest (S i) path d w1)
      as [[tail|] w2] eqn:Htail; [|by intros [=]].
    intros [= <- _]. destruct (IH _ _ _ _ Htail) as [Hlen Hpos].
    split; [simpl; by rewrite Hlen|].
    intros [|k] x Hk; simpl in Hk.
    + injection Hk as <-. exists c, w, w1. rewrite Nat.add_0_r. done.
    + destruct (Hpos k x Hk) as (y & wa & wb & Hy & Hrun).
      exists y, wa, wb. split; [done|].
      by replace (i + S k)%nat with (S i + k)%nat by lia.
Qed.

(** X12.  A list that validates is converted position by position: the
    result is a list of the same length, and its element at each index is
    what validating the input's element at that index, under the path of
    that index, returned. *)
Theorem list_converts_elementwise (ts elem : TypeSchema) (items : list PyObject)
    (path : string) (d : option Deserializers) (w w' : World)
    (converted : PyObject) :
  list_position ts elem ->
  validate_and_convert (PyList items) ts path d w = (Some converted, w') ->
  exists out,
    converted = PyList out
    /\ List.length out = List.length items
    /\ forall k x, items !! k = Some x ->
         exists y w1 w2,
           out !! k = Some y
           /\ validate_and_convert x elem (path_at path (fmt_zd k)) d w1
              = (Some y, w2).
Proof.
  intros Hpos. rewrite (list_position_dispatch ts elem) by done.
  destruct Hpos as (_ & Hargs & _). unfold validate_list. rewrite Hargs. run_m.
  destruct (list_items validate_and_convert [elem] items 0 path d w)
    as [[out|] w1] eqn:Hitems; [|by intros [=]].
  intros [= <- _]. exists out. split; [done|].
  apply (list_items_success _ _ _ _ _ _ _ _ _ _ Hitems).
Qed.

End ShapeFacts.

(** ** Tuples, position by position *)

Section TupleFacts.
Context `{Host}.

Lemma tuple_position_dispatch ts items path d :
  tuple_position ts ->
  validate_and_convert (PyTuple items) ts path d
  = validate_tuple validate_and_convert (PyTuple items) ts path d.
Proof.
  intros [Hck Hany]. rewrite validate_and_convert_unfold.
  rewrite Hany, Hck. cbn [ptr_eqb andb PyDict_Check]. by rewrite andb_false_r.
Qed.

Lemma tuple_items_success rec items path d :
  forall schemas i w converted w',
    tuple_items rec schemas items i path d w = (Some converted, w') ->
    List.length converted = List.length items
    /\ forall k x, items !! k = Some x ->
         exists a y w1 w2,
           schemas !! k = Some a /\ converted !! k = Some y
           /\ rec x a (path_fmt path (i + k)) d w1 = (Some y, w2).
Proof.
  induction items as [|item rest IH]; intros schemas i w converted w'.
  - destruct schemas; simpl; intros [= <- _]; (split; [done|]);
      intros k x Hk; by destruct k.
  - destruct schemas as [|ai later]; simpl; [by intros [=]|].
    run_m. destruct (rec item ai _ d w) as [[c|] w1] eqn:Hitem; [|by intros [=]].
    destruct (tuple_items rec later rest (S i) path d w1)
      as [[tail|] w2] eqn:Htail; [|by intros [=]].
    intros [= <- _]. destruct (IH _ _ _ _ _ Htail) as [Hlen Hpos].
    split; [simpl; by rewrite Hlen|].
    intros [|k] x Hk; simpl in Hk.
    + injection Hk as <-. exists ai, c, w, w1. rewrite Nat.add_0_r. done.
    + destruct (Hpos k x Hk) as (a & y & wa & wb & Ha & Hy & Hrun).
      exists a, y, wa, wb. split; [done|]. split; [done|].
      by replace (i + S k)%nat with (S i + k)%nat by lia.
Qed.

(** X19.  A tuple is validated by position.  When its length differs from
    the number of argument schemas, it fails with one message at its own
    path and no element is looked at.  When it validates, the result is a
    tuple of that length whose element at each index is what validating
    the input's element against the schema of that index returned. *)
Theorem tuple_validates_by_position (ts : TypeSchema) (items : list PyObject)
    (path : string) (d : option Deserializers) (w : World) :
  tuple_position ts ->
  (List.length items <> num_args ts ->
   validate_and_convert (PyTuple items) ts path d w
   = (None,
      with_error path
        (snprintf 128 ("Expected tuple of length " ++ fmt_zd (num_args ts) ++
                       ", got " ++ fmt_zd (List.length items))) w))
  /\ (forall converted w',
        validate_and_convert (PyTuple items) ts path d w = (Some converted, w') ->
        exists out,
          converted = PyTuple out
          /\ List.length out = num_args ts
          /\ forall k x, items !! k = Some x ->
               exists a y w1 w2,
                 args ts !! k = Some a /\ out !! k = Some y
                 /\ validate_and_convert x a (path_fmt path k) d w1 = (Some y, w2)).
Proof.
  intros Hpos. rewrite (tuple_position_dispatch ts) by done.
  unfold validate_tuple. split.
  - intros Hlen. destruct (Nat.eqb (num_args ts) (List.length items)) eqn:Hn.
    + apply Nat.eqb_eq in Hn. by destruct Hlen.
    + done.
  - intros converted w'.
    destruct (Nat.eqb (num_args ts) (List.length items)) eqn:Hn;
      cbn [negb]; [|by intros [=]].
    apply Nat.eqb_eq in Hn. run_m.
    destruct (tuple_items validate_and_convert (args ts) items 0 path d w)
      as [[out|] w1] eqn:Hitems; [|by intros [=]].
    intros [= <- _]. exists out. split; [done|].
    destruct (tuple_items_success _ _ _ _ _ _ _ _ _ Hitems) as [Hlen Hall].
    split; [by rewrite Hlen|]. apply Hall.
Qed.

End TupleFacts.

(** ** Optional positions *)

Section OptionalFacts.
Context `{Host}.

Lemma compile_type_schema_expected_type t : expected_type (compile_type_schema t) = t.
Proof.
  rewrite compile_type_schema_unfold. destruct t; try done.
  cbn zeta. by rewrite handle_container_kind_expected_type.
Qed.

Lemma union_flags_fold candidates : forall acc : bool * option PyObject,
  fst acc = true
  \/ Exists (fun a => ptr_eqb (expected_type a) NoneTypeObj = true) candidates ->
  fst (fold_left
         (fun '(opt, inner) (a : TypeSchema) =>
            if ptr_eqb (expected_type a) NoneTypeObj then (true, inner)
            else if is_model_class (expected_type a)
                 then (opt, Some (expected_type a))
                 else (opt, inner))
         candidates acc) = true.
Proof.
  induction candidates as [|a rest IH]; intros [opt inner] Hacc; simpl.
  - destruct Hacc as [Hopt|Hex]; [done|by inversion Hex].
  - apply IH. destruct Hacc as [Hopt|Hex].
    + left. simpl in Hopt. subst. by repeat case_match.
    + inversion Hex as [? ? Hnone|? ? Hlater]; subst; [left|by right].
      by rewrite Hnone.
Qed.

(** X13.  A union type that lists [NoneType] among its alternatives accepts
    [None]: validation against its compiled schema returns [None] at once,
    with nothing called and nothing recorded. *)
Theorem optional_accepts_None (o : PyObject) (alternatives : list PyObject)
    (path : string) (d : option Deserializers) (w : World) :
  union_origin o ->
  NoneTypeObj ∈ alternatives ->
  validate_and_convert Py_None (compile_type_schema (PyAlias o alternatives)) path d w
  = (Some Py_None, w).
Proof.
  intros [Hnot_none Hunion] Hin.
  assert (Hopt : is_optional (compile_type_schema (PyAlias o alternatives)) = true).
  { rewrite compile_type_schema_unfold. cbn zeta.
    unfold handle_container_kind. cbn [origin args is_optional inner_model_type].
    rewrite Hnot_none, Hunion. cbn [negb].
    pose proof (union_flags_fold (List.map compile_type_schema alternatives)
                  (false, None)) as Hflags.
    unfold union_flags. destruct (fold_left _ _ _) as [opt inner].
    cbn [is_optional]. apply Hflags. right.
    apply List.Exists_exists. exists (compile_type_schema NoneTypeObj).
    split; [|by rewrite compile_type_schema_expected_type].
    apply List.in_map. by apply list_elem_of_In. }
  rewrite validate_and_convert_unfold. by rewrite Hopt.
Qed.

End OptionalFacts.

(** ** The registry of deserializers *)

Section RegistryFacts.
Context `{Host}.

Lemma ptr_eqb_eq a b : ptr_eqb a b = true -> a = b.
Proof.
  destruct a, b; simpl; try done; intros E; apply bool_decide_eq_true in E;
    by subst.
Qed.

Lemma map_find_app to from m m' :
  map_find to from (m ++ m')%list
  = match map_find to from m with
    | Some fn => Some fn
    | None => map_find to from m'
    end.
Proof.
  induction m as [|[[t f] fn] rest IH]; simpl; [done|].
  by destruct (ptr_eqb t to && ptr_eqb f from).
Qed.

Lemma map_find_insert to from t f fn m :
  map_find to from (map_insert t f fn m)
  = map_find to from (m ++ [((t, f), fn)])%list.
Proof.
  unfold map_insert. destruct (map_find t f m) as [old|] eqn:Hold; [|done].
  rewrite map_find_app. destruct (map_find to from m) eqn:Hm; [done|].
  simpl. destruct (ptr_eqb t to && ptr_eqb f from) eqn:Hkey; [|done].
  apply andb_prop in Hkey as [Ht Hf].
  apply ptr_eqb_eq in Ht, Hf. subst. congruence.
Qed.

Lemma insert_inner_lookup outer_key inner : forall m m',
  insert_inner outer_key inner m = Some m' ->
  forall to from,
    map_find to from m'
    = map_find to from
        (m ++ List.map (fun f => ((outer_key, fst f), snd f)) inner)%list.
Proof.
  induction inner as [|[inner_key inner_value] rest IH]; intros m m'; simpl.
  - intros [= <-] to from. by rewrite app_nil_r.
  - destruct (PyCallable_Check inner_value); [|done].
    intros Hrest to from. rewrite (IH _ _ Hrest).
    rewrite (map_find_app _ _ m), !map_find_app, map_find_insert, map_find_app.
    simpl. by repeat case_match.
Qed.

Lemma insert_outer_lookup outer : forall m m',
  insert_outer outer m = Some m' ->
  forall to from,
    map_find to from m' = map_find to from (m ++ registrations outer)%list.
Proof.
  induction outer as [|[outer_key outer_value] rest IH]; intros m m'; simpl.
  - intros [= <-] to from. by rewrite app_nil_r.
  - destruct outer_value; try done.
    destruct (insert_inner outer_key entries m) as [m1|] eqn:Hinner; [|done].
    intros Hrest to from. rewrite (IH _ _ Hrest).
    unfold registrations. cbn [List.map List.concat fst snd].
    rewrite app_assoc, (map_find_app _ _ (m ++ _)%list), (map_find_app _ _ m1).
    by rewrite (insert_inner_lookup _ _ _ _ Hinner).
Qed.

Lemma insert_inner_succeeds outer_key inner : forall m,
  insert_inner outer_key inner m <> None
  <-> Forall (fun f => PyCallable_Check (snd f) = true) inner.
Proof.
  induction inner as [|[inner_key inner_value] rest IH]; intros m; simpl.
  - split; [by constructor|done].
  - destruct (PyCallable_Check inner_value) eqn:Hcall.
    + rewrite IH. split; [by constructor|by inversion 1].
    + split; [done|]. inversion 1; simpl in *; congruence.
Qed.

Lemma insert_outer_succeeds outer : forall m,
  insert_outer outer m <> None <-> dicts_of_callables outer.
Proof.
  unfold dicts_of_callables.
  induction outer as [|[outer_key outer_value] rest IH]; intros m; simpl.
  - split; [by constructor|done].
  - destruct outer_value;
      try (split; [done|by inversion 1]).
    pose proof (insert_inner_succeeds outer_key entries m) as Hinner.
    destruct (insert_inner outer_key entries m) as [m1|].
    + rewrite IH. split.
      * intros Hrest. constructor; [|done]. simpl. by apply Hinner.
      * by inversion 1.
    + split; [done|]. inversion 1 as [|? ? Hhead _]; subst. simpl in Hhead.
      by apply Hinner in Hhead.
Qed.

(** X14.  A registry is created exactly when every value of the outer dict
    is a dict and every function in those is callable; anything else makes
    the creation fail. *)
Theorem registry_created_iff_callables (outer : list (PyObject * PyObject)) :
  create_deserializers (PyDict outer) <> None <-> dicts_of_callables outer.
Proof. apply insert_outer_succeeds. Qed.

(** X15.  Looking a pair of types up in a created registry gives the
    function the dict registers for that pair, the first one if the pair
    occurs more than once, and [None] when the dict has none for it. *)
Theorem registry_lookup_finds_registered (outer : list (PyObject * PyObject))
    (m : Deserializers) (to from : PyObject) :
  create_deserializers (PyDict outer) = Some m ->
  get_deserializer m to from
  = default Py_None (map_find to from (registrations outer)).
Proof.
  intros Hcreate. unfold get_deserializer.
  rewrite (insert_outer_lookup outer [] m Hcreate). simpl.
  by destruct (map_find to from (registrations outer)).
Qed.

End RegistryFacts.

(** ** Error paths *)

Lemma str_take_length n : forall s, (String.length (str_take n s) <= n)%nat.
Proof.
  induction n as [|n IH]; intros [|c s]; simpl; try lia.
  specialize (IH s). lia.
Qed.

Lemma str_length_app (a b : string) :
  String.length (a ++ b) = (String.length a + String.length b)%nat.
Proof. induction a as [|c a IH]; simpl; [done|]. by rewrite IH. Qed.

(** X16.  An element path always fits the 256-byte buffer it is built in:
    it has at most 255 characters, and it is the parent path, a dot and
    the suffix whenever those fit. *)
Theorem element_paths_fit_buffer (error_path suffix : string) (i : nat) :
  (String.length (path_at error_path suffix) <= 255)%nat
  /\ (String.length (path_fmt error_path i) <= 255)%nat
  /\ ((String.length error_path + 1 + String.length suffix <= 255)%nat ->
      path_at error_path suffix = error_path ++ "." ++ suffix)
  /\ ((String.length error_path + 1 + String.length (fmt_zd i) <= 255)%nat ->
      path_fmt error_path i = error_path ++ "." ++ fmt_zd i).
Proof.
  split; [|split; [|split]].
  - unfold path_at, snprintf. rewrite !str_length_app.
    pose proof (str_take_length (base_len_of error_path) error_path).
    pose proof (str_take_length (256 - base_len_of error_path - 1 - 1) suffix).
    assert (base_len_of error_path <= 254)%nat
      by (unfold base_len_of; case_match; lia).
    simpl String.length. lia.
  - unfold path_fmt, snprintf. apply str_take_length.
  - apply path_at_fits.
  - intros Hfit. unfold path_fmt, snprintf. apply str_take_all.
    rewrite !str_length_app. simpl String.length. lia.
Qed.

(** ** A set type without arguments *)

(** X17.  When a generic without type arguments compiles to a set node,
    validating any non-empty set against it reads the element schema
    [args[0]] of an empty array: the requirement that generics carry
    their arguments cannot be dropped. *)
Theorem set_without_arguments_reads_out_of_range `{Host} (o item : PyObject)
    (items : list PyObject) (path : string) (d : option Deserializers)
    (w : World) :
  container_kind (compile_type_schema (PyAlias o [])) = CK_SET ->
  err_indicator
    (snd (validate_and_convert (PySet (item :: items))
            (compile_type_schema (PyAlias o [])) path d w))
  = Some Fault.
Proof.
  intros Hck. rewrite validate_and_convert_unfold.
  rewrite compile_type_schema_expected_type, Hck.
  cbn [ptr_eqb andb PyDict_Check]. rewrite andb_false_r.
  unfold validate_set. by rewrite compile_type_schema_args.
Qed.

(** ** Where the errors of a nested model go *)

Section SuberrorFacts.
Import ErrorCollector.

Lemma str_app_inv_head (a b c : string) : a ++ b = a ++ c -> b = c.
Proof. induction a as [|x a IH]; simpl; [done|]. intros [= E]. by apply IH. Qed.

Lemma fold_put_other (f : string * JValue -> string * JValue) members key :
  forall d,
    Forall (fun m => fst (f m) <> key) members ->
    FindMember key
      (fold_left (fun d m => put_value (fst (f m)) (snd (f m)) d) members d)
    = FindMember key d.
Proof.
  induction members as [|m rest IH]; intros d Hother; simpl; [done|].
  inversion Hother as [|? ? Hm Hrest]; subst.
  rewrite IH by done. by apply FindMember_put_other.
Qed.

Lemma fold_put_reaches field members : forall d name v,
  (name, v) ∈ members ->
  FindMember (field ++ "." ++ name)
    (fold_left (fun d m => put_value (fst (under field m)) (snd (under field m)) d)
       members d) <> None.
Proof.
  induction members as [|m rest IH]; intros d name v Hin; cbn [fold_left].
  - by apply elem_of_nil in Hin.
  - apply elem_of_cons in Hin as [<-|Hin]; [|by eapply IH].
    apply (proj1 (fold_put_keeps (under field) rest _ _)).
    cbn [under fst snd]. by rewrite FindMember_put_same.
Qed.

Lemma fold_put_fresh field members : forall d name v,
  NoDup (List.map fst members) ->
  (name, v) ∈ members ->
  FindMember (field ++ "." ++ name) d = None ->
  FindMember (field ++ "." ++ name)
    (fold_left (fun d m => put_value (fst (under field m)) (snd (under field m)) d)
       members d) = Some v.
Proof.
  induction members as [|[k x] rest IH]; intros d name v Hnodup Hin Hfresh;
    cbn [fold_left].
  - by apply elem_of_nil in Hin.
  - cbn [List.map fst] in Hnodup. apply NoDup_cons in Hnodup as [Hk Hnodup].
    apply elem_of_cons in Hin as [[= <- <-]|Hin].
    + rewrite (fold_put_other (under field)).
      * cbn [under fst snd]. by rewrite FindMember_put_same, Hfresh.
      * apply Forall_forall. intros [k' x'] Hin' Heq. cbn [under fst snd] in Heq.
        do 2 apply str_app_inv_head in Heq. subst.
        apply Hk. apply list_elem_of_In, List.in_map_iff. exists (name, x').
        split; [done|]. by apply list_elem_of_In.
    + apply IH; [done..|]. cbn [under fst snd].
      rewrite FindMember_put_other; [done|].
      intros Heq. do 2 apply str_app_inv_head in Heq. subst.
      apply Hk. apply list_elem_of_In, List.in_map_iff. exists (k, v).
      split; [done|]. by apply list_elem_of_In.
Qed.

End SuberrorFacts.

(** X18.  The errors of a nested model are filed under the field: every
    member [name] of the sub-document has an entry at [field.name]
    afterwards, and when the member names are distinct and that path was
    free, the entry is the member's value as it came. *)
Theorem suberror_members_are_prefixed (field : string)
    (members : list (string * JValue)) (c : ErrorCollector.t) :
  (forall name v, (name, v) ∈ members ->
     ErrorCollector.entry
       (ErrorCollector.add_suberror field (Some (JObject members)) c)
       (field ++ "." ++ name) <> None)
  /\ (NoDup (List.map fst members) ->
      forall name v, (name, v) ∈ members ->
        ErrorCollector.entry c (field ++ "." ++ name) = None ->
        ErrorCollector.entry
          (ErrorCollector.add_suberror field (Some (JObject members)) c)
          (field ++ "." ++ name) = Some v).
Proof.
  rewrite add_suberror_doc. unfold ErrorCollector.entry.
  cbn [ErrorCollector.lazy_init ErrorCollector.doc_]. split.
  - intros name v Hin. by eapply fold_put_reaches.
  - intros Hnodup name v Hin Hfree. by apply fold_put_fresh.
Qed.

(** ** The further properties on the reference host *)

Section FurtherOnRefHost.
Local Existing Instance ref_host.

(** X3: ["1", 2] converts at [List[int]] and the collector stays empty. *)
Lemma success_records_nothing_witness :
  collector
    (snd (validate_and_convert (PyList [PyUnicode "1"; PyLong 2]) list_int_schema
            "f" None world0))
  = collector world0.
Proof.
  apply (success_records_nothing (H := ref_host)
           (PyList [PyUnicode "1"; PyLong 2]) list_int_schema "f" None world0
           _ (PyList [PyLong 1; PyLong 2])).
  vm_compute. reflexivity.
Defined.

Lemma List_int_fully_subscripted : fully_subscripted (List_ IntType).
Proof.
  constructor; [done|]. constructor; [|constructor].
  constructor; [done|constructor].
Defined.

(** X6: [List[int]] against a list with an element that does not convert. *)
Lemma compiled_validation_stays_in_range_witness :
  err_indicator
    (snd (validate_and_convert (PyList [PyUnicode "x"])
            (compile_type_schema (List_ IntType)) "f" None world0))
  <> Some Fault.
Proof.
  apply (compiled_validation_stays_in_range (H := ref_host) (List_ IntType)
           (PyList [PyUnicode "x"]) "f" None world0 List_int_fully_subscripted).
  vm_compute. discriminate.
Defined.

(** X7: both fields of the two-field model are given. *)
Lemma construction_stores_every_field_witness :
  is_Some
    (snd (fst (DataModel_init (Some two_required_model) (PyClass "Pair") ∅
                 (Some (PyDict [(PyUnicode "a", PyLong 1);
                                (PyUnicode "b", PyUnicode "2")])) world0))
     !! "b").
Proof.
  apply (construction_stores_every_field (H := ref_host) two_required_model
           (PyClass "Pair") ∅
           (Some (PyDict [(PyUnicode "a", PyLong 1); (PyUnicode "b", PyUnicode "2")]))
           world0 _ _ ltac:(vm_compute; reflexivity) (required_int "b")).
  apply list_elem_of_In. simpl. auto.
Defined.

(** X12: ["1", 2] at [List[int]]. *)
Lemma list_converts_elementwise_witness :
  exists out,
    PyList [PyLong 1; PyLong 2] = PyList out
    /\ List.length out = 2%nat
    /\ forall k x, [PyUnicode "1"; PyLong 2] !! k = Some x ->
         exists y w1 w2,
           out !! k = Some y
           /\ validate_and_convert x int_schema (path_at "f" (fmt_zd k)) None w1
              = (Some y, w2).
Proof.
  apply (list_converts_elementwise (H := ref_host) list_int_schema int_schema
           [PyUnicode "1"; PyLong 2] "f" None world0
           (mkWorld ErrorCollector.new None [(IntType, [PyUnicode "1"])])
           (PyList [PyLong 1; PyLong 2])).
  - repeat split.
  - vm_compute. reflexivity.
Defined.

(** X13: [Optional[int]], that is [Union[int, None]]. *)
Lemma optional_accepts_None_witness :
  validate_and_convert Py_None
    (compile_type_schema (Union_ [IntType; NoneTypeObj])) "f" None world0
  = (Some Py_None, world0).
Proof.
  apply (optional_accepts_None (H := ref_host) UnionType [IntType; NoneTypeObj]
           "f" None world0).
  - split; reflexivity.
  - apply list_elem_of_In. simpl. auto.
Defined.

(** X15: [int] registered for (int, str), looked up for (int, str). *)
Lemma registry_lookup_finds_registered_witness :
  get_deserializer [((IntType, StrType), IntType)] IntType StrType = IntType.
Proof.
  apply (registry_lookup_finds_registered (H := ref_host)
           [(IntType, PyDict [(StrType, IntType)])]
           [((IntType, StrType), IntType)] IntType StrType).
  reflexivity.
Defined.

(** X17: [set[()]] against the set {1}. *)
Lemma set_without_arguments_reads_out_of_range_witness :
  err_indicator
    (snd (validate_and_convert (PySet [PyLong 1])
            (compile_type_schema (PyAlias PySet_Type [])) "f" None world0))
  = Some Fault.
Proof.
  apply (set_without_arguments_reads_out_of_range (H := ref_host) PySet_Type
           (PyLong 1) [] "f" None world0).
  reflexivity.
Defined.

(** X19: ("1", "a") at [Tuple[int, str]]. *)
Lemma tuple_validates_by_position_witness :
  exists out,
    PyTuple [PyLong 1; PyUnicode "a"] = PyTuple out
    /\ List.length out = 2%nat
    /\ forall k x, [PyUnicode "1"; PyUnicode "a"] !! k = Some x ->
         exists a y w1 w2,
           [int_schema; plain_schema StrType] !! k = Some a /\ out !! k = Some y
           /\ validate_and_convert x a (path_fmt "f" k) None w1 = (Some y, w2).
Proof.
  apply (proj2 (tuple_validates_by_position (H := ref_host) tuple_int_str_schema
                  [PyUnicode "1"; PyUnicode "a"] "f" None world0
                  (conj eq_refl eq_refl))
           (PyTuple [PyLong 1; PyUnicode "a"])
           (mkWorld ErrorCollector.new None [(IntType, [PyUnicode "1"])])).
  vm_compute. reflexivity.
Defined.


(** X22: of two required int fields, [a] is given "x" and [b] is missing;
    both errors come back together and no object is returned. *)
Lemma construction_fails_together_witness :
  DataModel_call (Some two_required_model) (PyClass "Pair")
    (Some (PyDict [(PyUnicode "a", PyUnicode "x")])) world0
  = (None,
     raising
       (PyExc_TypeError
          (to_json
             (ErrorCollector.mk
                (Some [("a", JString "Expected type int, got str");
                       ("b", JString "Missing required field")]))))
       (mkWorld ErrorCollector.new None [(IntType, [PyUnicode "x"])])).
Proof.
  pose proof (construction_fails_together (H := ref_host) two_required_model
                (PyClass "Pair")
                (Some (PyDict [(PyUnicode "a", PyUnicode "x")]))
                (Some (PyDict [(PyUnicode "a", PyUnicode "x")]))
                (Some (PyDict [(PyUnicode "a", PyUnicode "x")]))
                world0 world0 world0
                (mkWorld ErrorCollector.new None [(IntType, [PyUnicode "x"])])
                {["a" := PyUnicode "x"]}
                (ErrorCollector.mk
                   (Some [("a", JString "Expected type int, got str");
                          ("b", JString "Missing required field")])))
    as together.
  apply together; vm_compute; reflexivity.
Defined.

(** C1: "5" against [Union[Literal["a"], int]].  The check against
    [typing.Literal] raises, so "5" comes back as it is and [int] is never
    asked. *)
Lemma union_takes_check_error_for_match_witness :
  validate_and_convert (PyUnicode "5")
    (compile_type_schema (Union_ [Literal_ [PyUnicode "a"]; IntType])) "x" None world0
  = (Some (PyUnicode "5"), raising PyExc_FromHost world0).
Proof.
  change (validate_union validate_and_convert (PyUnicode "5")
            (compile_type_schema (Union_ [Literal_ [PyUnicode "a"]; IntType]))
            "x" None world0
          = (Some (PyUnicode "5"), raising PyExc_FromHost world0)).
  apply (union_takes_check_error_for_match (H := ref_host) (PyUnicode "5")
           (compile_type_schema (Union_ [Literal_ [PyUnicode "a"]; IntType]))
           "x" None world0 []
           (compile_type_schema (Literal_ [PyUnicode "a"]))
           [compile_type_schema IntType]).
  - reflexivity.
  - constructor.
  - vm_compute. reflexivity.
Defined.

(** C7: "7" at a position declared as the [NewType] [UserId].  The check
    raises, so "7" comes back as it is and nothing is called. *)
Lemma plain_takes_check_error_for_instance_witness :
  validate_and_convert (PyUnicode "7") (compile_type_schema UserId) "id" None world0
  = (Some (PyUnicode "7"), raising PyExc_FromHost world0).
Proof.
  change (validate_plain (PyUnicode "7") (compile_type_schema UserId) "id" None world0
          = (Some (PyUnicode "7"), raising PyExc_FromHost world0)).
  apply (plain_takes_check_error_for_instance (H := ref_host) (PyUnicode "7")
           (compile_type_schema UserId) "id" None world0).
  vm_compute. reflexivity.
Defined.

(** An unsubscripted [typing.List] keeps its origin and is no container:
    the value goes to the constructor, which refuses. *)
Example unsubscripted_generic_goes_to_constructor :
  validate_and_convert (PyList [PyLong 1]) (compile_type_schema (PyGeneric PyList_Type))
    "x" None world0
  = (None,
     mkWorld
       (ErrorCollector.mk
          (Some [("x", JString "Expected type _SpecialGenericAlias, got list")]))
       None [(PyGeneric PyList_Type, [PyList [PyLong 1]])]).
Proof. vm_compute. reflexivity. Qed.

End FurtherOnRefHost.
